(** * proto_tcp: the AF_INET/AF_INET6 SOCK_STREAM protocol layer

    A shallow embedding of [src/proto_tcp.c]: the foreign-address binder
    [tcpv4_bind_socket], the listener binder [tcp_bind_listener], the
    per-family batch [tcp_bind_listeners], the two registration functions
    [tcpv4_add_listener] / [tcpv6_add_listener] and the configuration keyword
    parser [tcp_parse_tcp_req].

    The C code talks to the kernel and mutates structures through pointers.
    Both are made explicit: every function runs in a small state-and-fault
    monad over a [world] that holds the heap of [listener] structures, the two
    protocol entries, [fdtab], the function-static flag of
    [tcpv4_bind_socket], and the trace of the calls made so far.  What a
    system call returns is decided by a kernel [os], an arbitrary function of
    the calls already made and of the call at hand. *)

From Stdlib Require Import ZArith String Ascii List Bool Lia.
From stdpp Require Import base option list gmap strings.

Local Open Scope Z_scope.

(** ** Build configuration

    The three preprocessor conditions of the file. *)
Record build_config := {
  CONFIG_HAP_LINUX_TPROXY : bool;
  CONFIG_HAP_CTTPROXY : bool;
  HAVE_SO_REUSEPORT : bool            (* #ifdef SO_REUSEPORT *)
}.

(** ** Error flags *)

(** Modelled from the spec: the ERR_* flags of common/errors.h, which is not
    under src/.  The data model makes them "a set of independent flags, not
    an enum": NONE is the empty set and each other flag is a bit of its own. *)
Definition ERR_NONE : Z := 0.
Definition ERR_RETRYABLE : Z := 1.
Definition ERR_FATAL : Z := 2.
Definition ERR_ABORT : Z := 4.
Definition ERR_WARN : Z := 8.
Definition ERR_ALERT : Z := 16.

(** ** Listeners, protocols, descriptors *)

(** Modelled from the spec: the listener states the data model names; the
    enum itself (types/protocols.h) is not under src/. *)
Inductive li_state := LI_INIT | LI_ASSIGNED | LI_LISTEN.

#[global] Instance li_state_eq_dec : EqDecision li_state.
Proof. solve_decision. Defined.

(** Modelled from the spec: the two listener options the data model names
    ("no-linger", "foreign address allowed"), as bits of [options]. *)
Definition LI_O_NOLINGER : Z := 1.
Definition LI_O_FOREIGN : Z := 2.

(** The two protocol entries of the file; a [struct protocol *] is either
    NULL or the address of one of them. *)
Inductive family := TCPv4 | TCPv6.

#[global] Instance family_eq_dec : EqDecision family.
Proof. solve_decision. Defined.

(** [.sock_addrlen]: sizeof(struct sockaddr_in), sizeof(struct sockaddr_in6). *)
Definition sock_addrlen (p : family) : Z :=
  match p with TCPv4 => 16 | TCPv6 => 28 end.

Record sockaddr_in := {
  sin_family : Z;
  sin_port : Z;
  sin_addr : Z
}.

Record sockaddr_storage := {
  ss_family : Z;
  ss_port : Z;
  ss_host : Z
}.

Inductive sockaddr :=
| Sa_in (a : sockaddr_in)
| Sa_storage (a : sockaddr_storage).

Record listener := {
  l_fd : Z;
  l_state : li_state;
  l_options : Z;
  l_addr : sockaddr_storage;
  l_proto : option family;
  l_backlog : Z;
  l_maxconn : Z;
  l_accept : nat                       (* the accept callback, by name *)
}.

Record protocol := {
  p_listeners : list nat;              (* addresses of the listeners, head first *)
  p_nb_listeners : Z
}.

Inductive fd_state := FD_STLISTEN.

Record fdtab_entry := {
  cb_rd_f : option nat;
  cb_wr_f : option nat;
  fd_owner : nat;                      (* the listener, in place of a task *)
  fd_st : fd_state;
  fd_peerlen : Z
}.

(** ** Calls to the outside *)

Inductive sockopt :=
| SO_REUSEADDR
| SO_LINGER
| SO_REUSEPORT
| TCP_NODELAY
| IP_TRANSPARENT
| IP_FREEBIND
| IP_TPROXY_ASSIGN (faddr fport : Z)
| IP_TPROXY_FLAGS.

Inductive syscall :=
| sys_socket (domain : Z)
| sys_fcntl_nonblock (fd : Z)
| sys_setsockopt (fd : Z) (opt : sockopt)
| sys_bind (fd : Z) (addr : sockaddr) (addrlen : Z)
| sys_listen (fd : Z) (backlog : Z)
| sys_close (fd : Z).

(** A system call with the value it returned, or the call to [fd_insert]. *)
Inductive event :=
| Called (c : syscall) (r : Z)
| Fd_insert (fd : Z).

(** What the kernel answers: [None] is the failure return (-1), [Some n] the
    non-negative value [n] (a descriptor for [socket], 0 for the others). *)
Definition kernel := list event -> syscall -> option nat.

Definition sysret (r : option nat) : Z :=
  match r with
  | None => -1
  | Some n => Z.of_nat n
  end.

(** ** The world *)

Record world := {
  trace : list event;
  listeners : gmap nat listener;
  fdtab : gmap Z fdtab_entry;
  proto_tcpv4 : protocol;
  proto_tcpv6 : protocol;
  ip_transp_working : Z;               (* static int of tcpv4_bind_socket *)
  maxsock : Z                          (* global.maxsock *)
}.

Definition set_trace (t : list event) (w : world) : world :=
  {| trace := t; listeners := listeners w; fdtab := fdtab w;
     proto_tcpv4 := proto_tcpv4 w; proto_tcpv6 := proto_tcpv6 w;
     ip_transp_working := ip_transp_working w; maxsock := maxsock w |}.

Definition set_listeners (ls : gmap nat listener) (w : world) : world :=
  {| trace := trace w; listeners := ls; fdtab := fdtab w;
     proto_tcpv4 := proto_tcpv4 w; proto_tcpv6 := proto_tcpv6 w;
     ip_transp_working := ip_transp_working w; maxsock := maxsock w |}.

Definition set_fdtab (t : gmap Z fdtab_entry) (w : world) : world :=
  {| trace := trace w; listeners := listeners w; fdtab := t;
     proto_tcpv4 := proto_tcpv4 w; proto_tcpv6 := proto_tcpv6 w;
     ip_transp_working := ip_transp_working w; maxsock := maxsock w |}.

Definition set_proto (f : family) (p : protocol) (w : world) : world :=
  {| trace := trace w; listeners := listeners w; fdtab := fdtab w;
     proto_tcpv4 := match f with TCPv4 => p | TCPv6 => proto_tcpv4 w end;
     proto_tcpv6 := match f with TCPv4 => proto_tcpv6 w | TCPv6 => p end;
     ip_transp_working := ip_transp_working w; maxsock := maxsock w |}.

Definition set_ip_transp_working (v : Z) (w : world) : world :=
  {| trace := trace w; listeners := listeners w; fdtab := fdtab w;
     proto_tcpv4 := proto_tcpv4 w; proto_tcpv6 := proto_tcpv6 w;
     ip_transp_working := v; maxsock := maxsock w |}.

Definition get_proto (f : family) (w : world) : protocol :=
  match f with TCPv4 => proto_tcpv4 w | TCPv6 => proto_tcpv6 w end.

(** ** The monad: state, and a fault for a dereference of a bad pointer *)

Definition M (A : Type) : Type := world -> option (A * world).

Definition ret {A} (a : A) : M A := fun w => Some (a, w).

Definition bind {A B} (m : M A) (k : A -> M B) : M B :=
  fun w => match m w with
           | Some (a, w') => k a w'
           | None => None
           end.

Definition fault {A} : M A := fun _ => None.

Definition get : M world := fun w => Some (w, w).

Definition modify (f : world -> world) : M unit := fun w => Some (tt, f w).

(** [m] returns from [w], with a result and a world that satisfy [Q]. *)
Definition wp {A} (m : M A) (w : world) (Q : A -> world -> Prop) : Prop :=
  exists a w', m w = Some (a, w') /\ Q a w'.

(** If [m] returns from [w], the result and the world satisfy [Q]. *)
Definition wlp {A} (m : M A) (w : world) (Q : A -> world -> Prop) : Prop :=
  forall a w', m w = Some (a, w') -> Q a w'.

Declare Scope m_scope.
Delimit Scope m_scope with M.
Notation "'let*' x ':=' m 'in' k" := (bind m (fun x => k))
  (at level 10, x pattern, m at level 100, k at level 200) : m_scope.
Notation "m ';;;' k" := (bind m (fun _ => k))
  (at level 100, k at level 200, right associativity) : m_scope.

Local Open Scope m_scope.

(** C truth value of an int. *)
Definition nonzero (z : Z) : bool := negb (z =? 0).

Section Kernel.

Variable cfg : build_config.
Variable os : kernel.

(** [ERR_CODE] is a mask of common/errors.h, which is not under src/; the
    batch loop applies it to the accumulated code.  It is a parameter. *)
Variable ERR_CODE : Z.

(** One system call: ask the kernel, record the call and its result. *)
Definition sys (c : syscall) : M Z :=
  fun w =>
    let r := sysret (os (trace w) c) in
    Some (r, set_trace (trace w ++ [Called c r]) w).

(** Modelled from the spec: [fd_insert] of proto/fd.h, which is not under
    src/, is the registration of the descriptor with the event layer; the
    call is recorded in the trace. *)
Definition fd_insert (fd : Z) : M unit :=
  modify (fun w => set_trace (trace w ++ [Fd_insert fd]) w).

(** ** tcpv4_bind_socket *)

Definition zero_sockaddr_in : sockaddr_in :=
  {| sin_family := 0; sin_port := 0; sin_addr := 0 |}.

(** [remote->field]: a fault when [remote] is NULL. *)
Definition deref {A} (p : option A) : M A :=
  match p with
  | Some a => ret a
  | None => fault
  end.

Definition tcpv4_bind_socket (fd flags : Z) (local : sockaddr_in)
    (remote : option sockaddr_in) : M Z :=
  let* w0 := get in
  (* #ifdef CONFIG_HAP_LINUX_TPROXY *)
  let* foreign_ok :=
    (if CONFIG_HAP_LINUX_TPROXY cfg && nonzero flags
          && nonzero (ip_transp_working w0)
     then
       let* r1 := sys (sys_setsockopt fd IP_TRANSPARENT) in
       if r1 =? 0 then ret 1
       else
         let* r2 := sys (sys_setsockopt fd IP_FREEBIND) in
         if r2 =? 0 then ret 1
         else modify (set_ip_transp_working 0) ;;; ret 0
     else ret 0) in
  (* #endif *)
  let* bind_addr :=
    (if nonzero flags then
       let* a :=
         (if nonzero (Z.land flags 1)
          then let* r := deref remote in ret (sin_addr r)
          else ret 0) in
       let* p :=
         (if nonzero (Z.land flags 2)
          then let* r := deref remote in ret (sin_port r)
          else ret 0) in
       ret {| sin_family := 0; sin_port := p; sin_addr := a |}
     else ret zero_sockaddr_in) in
  let rest : M Z :=
    if negb (nonzero flags) then ret 0
    else
      (* #ifdef CONFIG_HAP_CTTPROXY *)
      let* foreign_ok :=
        (if CONFIG_HAP_CTTPROXY cfg && negb (nonzero foreign_ok)
         then
           let* r1 := sys (sys_setsockopt fd
                             (IP_TPROXY_ASSIGN (sin_addr bind_addr)
                                               (sin_port bind_addr))) in
           if r1 =? -1 then ret foreign_ok
           else
             let* r2 := sys (sys_setsockopt fd IP_TPROXY_FLAGS) in
             if r2 =? -1 then ret foreign_ok else ret 1
         else ret foreign_ok) in
      (* #endif *)
      if negb (nonzero foreign_ok)
      then ret 2                        (* could not bind to a foreign address *)
      else ret 0 in
  sys (sys_setsockopt fd SO_REUSEADDR) ;;;
  if nonzero foreign_ok
  then let* r := sys (sys_bind fd (Sa_in bind_addr) 16) in
       if r <? 0 then ret 2 else rest
  else let* r := sys (sys_bind fd (Sa_in local) 16) in
       if r <? 0 then ret 1 else rest.

(** ** tcp_bind_listener *)

Definition load_listener (p : nat) : M listener :=
  fun w => match listeners w !! p with
           | Some l => Some (l, w)
           | None => None
           end.

Definition store_listener (p : nat) (l : listener) : M unit :=
  modify (fun w => set_listeners (<[p:=l]> (listeners w)) w).

(** Modelled from the spec: [strlcpy2(dst, src, size)] of common/standard.h,
    which is not under src/, writes the message into the bounded buffer: at
    most [size - 1] characters of [src], then the terminating zero. *)
Definition strlcpy2 (src : string) (size : nat) : string :=
  substring 0 (Nat.pred size) src.

(** The message buffer is [None] for a NULL [errmsg], else the C string it
    holds; [errlen] is its length in bytes. *)
Definition tcp_return (errmsg : option string) (errlen : nat)
    (msg : option string) (err : Z) : M (Z * option string) :=
  match msg with
  | Some m =>
      if (0 <? errlen)%nat
      then match errmsg with
           | Some _ => ret (err, Some (strlcpy2 m errlen))
           | None => fault
           end
      else ret (err, errmsg)
  | None => ret (err, errmsg)
  end.

Definition tcp_close_return (fd : Z) (errmsg : option string) (errlen : nat)
    (msg : option string) (err : Z) : M (Z * option string) :=
  sys (sys_close fd) ;;;
  tcp_return errmsg errlen msg err.

Definition set_listening (fd : Z) (l : listener) : listener :=
  {| l_fd := fd; l_state := LI_LISTEN; l_options := l_options l;
     l_addr := l_addr l; l_proto := l_proto l; l_backlog := l_backlog l;
     l_maxconn := l_maxconn l; l_accept := l_accept l |}.

(** [if (errmsg && errlen) *errmsg = 0;] *)
Definition clear_errmsg (errmsg : option string) (errlen : nat) : option string :=
  match errmsg with
  | Some s => if (0 <? errlen)%nat then Some EmptyString else Some s
  | None => None
  end.

Definition tcp_bind_listener (listener : nat) (errmsg : option string)
    (errlen : nat) : M (Z * option string) :=
  (* ensure we never return garbage *)
  let errmsg := clear_errmsg errmsg errlen in
  let* l := load_listener listener in
  if negb (bool_decide (l_state l = LI_ASSIGNED))
  then ret (ERR_NONE, errmsg)           (* already bound *)
  else
  let err := ERR_NONE in
  let* fd := sys (sys_socket (ss_family (l_addr l))) in
  if fd =? -1
  then tcp_return errmsg errlen (Some "cannot create listening socket"%string)
         (Z.lor err (Z.lor ERR_RETRYABLE ERR_ALERT))
  else
  let* w := get in
  if fd >=? maxsock w
  then tcp_close_return fd errmsg errlen
         (Some "not enough free sockets (raise '-n' parameter)"%string)
         (Z.lor err (Z.lor (Z.lor ERR_FATAL ERR_ABORT) ERR_ALERT))
  else
  let* failed :=
    (let* r := sys (sys_fcntl_nonblock fd) in
     if r =? -1 then ret true
     else let* r := sys (sys_setsockopt fd TCP_NODELAY) in ret (r =? -1)) in
  if failed : bool
  then tcp_close_return fd errmsg errlen
         (Some "cannot make socket non-blocking"%string)
         (Z.lor err (Z.lor ERR_FATAL ERR_ALERT))
  else
  let* r := sys (sys_setsockopt fd SO_REUSEADDR) in
  (* not fatal but should be reported *)
  let msg := if r =? -1 then Some "cannot do so_reuseaddr"%string else None in
  let err := if r =? -1 then Z.lor err ERR_ALERT else err in
  (if nonzero (Z.land (l_options l) LI_O_NOLINGER)
   then sys (sys_setsockopt fd SO_LINGER) ;;; ret tt
   else ret tt) ;;;
  (* #ifdef SO_REUSEPORT *)
  (if HAVE_SO_REUSEPORT cfg
   then sys (sys_setsockopt fd SO_REUSEPORT) ;;; ret tt
   else ret tt) ;;;
  (* #ifdef CONFIG_HAP_LINUX_TPROXY *)
  let* opaque :=
    (if CONFIG_HAP_LINUX_TPROXY cfg
          && nonzero (Z.land (l_options l) LI_O_FOREIGN)
     then let* r1 := sys (sys_setsockopt fd IP_TRANSPARENT) in
          if r1 =? -1
          then let* r2 := sys (sys_setsockopt fd IP_FREEBIND) in
               ret (r2 =? -1)
          else ret false
     else ret false) in
  let msg := if opaque : bool
             then Some "cannot make listening socket transparent"%string
             else msg in
  let err := if opaque : bool then Z.lor err ERR_ALERT else err in
  (* #endif *)
  let* proto := deref (l_proto l) in
  let* r := sys (sys_bind fd (Sa_storage (l_addr l)) (sock_addrlen proto)) in
  if r =? -1
  then tcp_close_return fd errmsg errlen (Some "cannot bind socket"%string)
         (Z.lor err (Z.lor ERR_RETRYABLE ERR_ALERT))
  else
  let* r := sys (sys_listen fd (if nonzero (l_backlog l)
                                then l_backlog l else l_maxconn l)) in
  if r =? -1
  then tcp_close_return fd errmsg errlen (Some "cannot listen to socket"%string)
         (Z.lor err (Z.lor ERR_RETRYABLE ERR_ALERT))
  else
  (* the socket is ready *)
  store_listener listener (set_listening fd l) ;;;
  (* the function for the accept() event *)
  fd_insert fd ;;;
  modify (fun w =>
    set_fdtab (<[fd := {| cb_rd_f := Some (l_accept l); cb_wr_f := None;
                          fd_owner := listener; fd_st := FD_STLISTEN;
                          fd_peerlen := 0 |}]> (fdtab w)) w) ;;;
  tcp_return errmsg errlen msg err.

(** ** tcp_bind_listeners *)

(** The body of [list_for_each_entry] over the listeners still to visit. *)
Fixpoint bind_each (todo : list nat) (err : Z) : M Z :=
  match todo with
  | [] => ret err
  | listener :: todo' =>
      let* r := tcp_bind_listener listener None 0 in
      let err := Z.lor err (fst r) in
      if Z.land err ERR_CODE =? ERR_ABORT
      then ret err                      (* break *)
      else bind_each todo' err
  end.

Definition tcp_bind_listeners (proto : family) : M Z :=
  let* w := get in
  bind_each (p_listeners (get_proto proto w)) ERR_NONE.

(** The loop without its [break]: every listener of the list is attempted. *)
Fixpoint bind_every (todo : list nat) (err : Z) : M Z :=
  match todo with
  | [] => ret err
  | listener :: todo' =>
      let* r := tcp_bind_listener listener None 0 in
      bind_every todo' (Z.lor err (fst r))
  end.

(** ** tcpv4_add_listener, tcpv6_add_listener *)

(** [x++] on an [int]: two's complement, 32 bits. *)
Definition int_incr (x : Z) : Z :=
  (x + 1 + 2 ^ 31) mod 2 ^ 32 - 2 ^ 31.

Definition set_assigned (f : family) (l : listener) : listener :=
  {| l_fd := l_fd l; l_state := LI_ASSIGNED; l_options := l_options l;
     l_addr := l_addr l; l_proto := Some f; l_backlog := l_backlog l;
     l_maxconn := l_maxconn l; l_accept := l_accept l |}.

(** The common text of the two functions, which differ in the protocol
    entry they name. *)
Definition add_listener (f : family) (listener : nat) : M unit :=
  let* l := load_listener listener in
  if negb (bool_decide (l_state l = LI_INIT)) then ret tt
  else
    store_listener listener (set_assigned f l) ;;;
    (* LIST_ADDQ: at the tail *)
    modify (fun w =>
      set_proto f {| p_listeners := p_listeners (get_proto f w) ++ [listener];
                     p_nb_listeners := p_nb_listeners (get_proto f w) |} w) ;;;
    modify (fun w =>
      set_proto f {| p_listeners := p_listeners (get_proto f w);
                     p_nb_listeners := int_incr (p_nb_listeners (get_proto f w)) |} w).

Definition tcpv4_add_listener (listener : nat) : M unit :=
  add_listener TCPv4 listener.

Definition tcpv6_add_listener (listener : nat) : M unit :=
  add_listener TCPv6 listener.

End Kernel.

(** ** tcp_parse_tcp_req *)

Inductive tcp_action := TCP_ACT_ACCEPT | TCP_ACT_REJECT.

Inductive acl_pol := ACL_COND_NONE | ACL_COND_IF | ACL_COND_UNLESS.

#[global] Instance acl_pol_eq_dec : EqDecision acl_pol.
Proof. solve_decision. Defined.

(** [snprintf(buf, size, ...)] where the formatted text is [text]: nothing is
    written for a zero [size], else at most [size - 1] characters and the
    terminating zero; the value returned is the length of [text]. *)
Definition snprintf (buf : string) (size : nat) (text : string) : string :=
  if (0 <? size)%nat then substring 0 (Nat.pred size) text else buf.

(** [snprintf(buf + off, size, ...)]: the first [off] characters stay. *)
Definition snprintf_at (buf : string) (off size : nat) (text : string) : string :=
  if (0 <? size)%nat
  then substring 0 off buf ++ substring 0 (Nat.pred size) text
  else buf.

(** [args[i]]: the configuration parser fills the unused slots of [args] with
    empty strings. *)
Definition arg (args : list string) (i : nat) : string :=
  nth i args EmptyString.

Definition is_empty (s : string) : bool :=
  match s with
  | EmptyString => true
  | String _ _ => false
  end.

Section Parser.

(** The ACL compiler is outside this file: compiled conditions and the ACL
    table of a proxy are opaque. *)
Variable acl_cond : Type.
Variable acl_table : Type.

Record tcp_rule := {
  cond : option acl_cond;
  action : tcp_action
}.

Record proxy := {
  px_id : string;
  px_cap : Z;
  inspect_delay : Z;                   (* tcp_req.inspect_delay *)
  inspect_rules : list tcp_rule;       (* tcp_req.inspect_rules, head first *)
  px_acl : acl_table
}.

(** Declared in headers that are not under src/. *)
Variable PR_CAP_FE : Z.
Variable proxy_type_str : proxy -> string.
(** [parse_time_err(text, &val, TIME_UNIT_MS)]: NULL and the value stored in
    [val], or the address of the first unexpected character. *)
Variable parse_time_err : string -> Z + ascii.
(** [parse_acl_cond(args, &known_acl, pol)]: the condition or NULL; the table
    of known ACLs may grow. *)
Variable parse_acl_cond :
  list string -> acl_table -> acl_pol -> option acl_cond * acl_table.
(** The global variable [proxy], the argument of [proxy_type_str] in most of
    the messages. *)
Variable the_proxy : proxy.

Definition set_inspect_delay (v : Z) (px : proxy) : proxy :=
  {| px_id := px_id px; px_cap := px_cap px; inspect_delay := v;
     inspect_rules := inspect_rules px; px_acl := px_acl px |}.

Definition set_acl (a : acl_table) (px : proxy) : proxy :=
  {| px_id := px_id px; px_cap := px_cap px; inspect_delay := inspect_delay px;
     inspect_rules := inspect_rules px; px_acl := a |}.

Definition add_inspect_rule (r : tcp_rule) (px : proxy) : proxy :=
  {| px_id := px_id px; px_cap := px_cap px; inspect_delay := inspect_delay px;
     inspect_rules := inspect_rules px ++ [r]; px_acl := px_acl px |}.

Definition msg_missing (args : list string) (px : proxy) : string :=
  "missing argument for '" ++ arg args 0 ++ "' in "
    ++ proxy_type_str the_proxy ++ " '" ++ px_id px ++ "'".

Definition msg_defaults (args : list string) : string :=
  arg args 0 ++ " " ++ arg args 1 ++ " is not allowed in 'defaults' sections".

Definition msg_no_frontend (args : list string) (px : proxy) : string :=
  arg args 0 ++ " " ++ arg args 1 ++ " will be ignored because "
    ++ proxy_type_str the_proxy ++ " '" ++ px_id px ++ "' has no "
    ++ "frontend" ++ " capability".

Definition msg_delay (args : list string) (px : proxy) : string :=
  "'" ++ arg args 0 ++ " " ++ arg args 1
    ++ "' expects a positive delay in milliseconds, in "
    ++ proxy_type_str the_proxy ++ " '" ++ px_id px ++ "'".

Definition msg_unexpected (c : ascii) : string :=
  " (unexpected character '" ++ String c EmptyString ++ "')".

Definition msg_duplicate (args : list string) (px : proxy) : string :=
  "ignoring " ++ arg args 0 ++ " " ++ arg args 1
    ++ " (was already defined) in "
    ++ proxy_type_str the_proxy ++ " '" ++ px_id px ++ "'".

Definition msg_action (args : list string) (px : proxy) : string :=
  "'" ++ arg args 0 ++ " " ++ arg args 1
    ++ "' expects 'accept' or 'reject', in "
    ++ proxy_type_str px ++ " '" ++ px_id px ++ "' (was '" ++ arg args 2 ++ "')".

Definition msg_condition (args : list string) (px : proxy) : string :=
  "Error detected in " ++ proxy_type_str px ++ " '" ++ px_id px
    ++ "' while parsing '" ++ arg args 3 ++ "' condition".

Definition msg_unknown (args : list string) (px : proxy) : string :=
  "unknown argument '" ++ arg args 1 ++ "' after '" ++ arg args 0 ++ "' in "
    ++ proxy_type_str the_proxy ++ " '" ++ px_id px ++ "'".

(** The error exit of the "inspect-delay" duration check: the message, and
    after it, when [ptr] is not NULL and there is room left, the character
    that was not expected. *)
Definition delay_error (args : list string) (px : proxy) (err : string)
    (errlen : nat) (ptr : option ascii) : string :=
  let retlen := String.length (msg_delay args px) in
  let err := snprintf err errlen (msg_delay args px) in
  match ptr with
  | Some c =>
      if (retlen <? errlen)%nat
      then snprintf_at err retlen (errlen - retlen) (msg_unexpected c)
      else err
  | None => err
  end.

(** [curpx] and [defpx] are the two pointers, [px] is the proxy [curpx]
    points to, [err] the contents of the caller's buffer.  The result is the
    returned int, the proxy and the buffer afterwards.  [calloc] is taken to
    return memory. *)
Definition tcp_parse_tcp_req (args : list string) (section_type : Z)
    (curpx defpx : nat) (px : proxy) (err : string) (errlen : nat)
    : Z * proxy * string :=
  if is_empty (arg args 1)
  then (-1, px, snprintf err errlen (msg_missing args px))
  else if String.eqb (arg args 1) "inspect-delay"
  then
    if Nat.eqb curpx defpx
    then (-1, px, snprintf err errlen (msg_defaults args))
    else if negb (nonzero (Z.land (px_cap px) PR_CAP_FE))
    then (1, px, snprintf err errlen (msg_no_frontend args px))
    else if is_empty (arg args 2)
    then (-1, px, delay_error args px err errlen None)
    else
      match parse_time_err (arg args 2) with
      | inr c => (-1, px, delay_error args px err errlen (Some c))
      | inl val =>
          if nonzero (inspect_delay px)
          then (1, px, snprintf err errlen (msg_duplicate args px))
          else (0, set_inspect_delay val px, err)
      end
  else if String.eqb (arg args 1) "content"
  then
    if Nat.eqb curpx defpx
    then (-1, px, snprintf err errlen (msg_defaults args))
    else
      let with_action action :=
        let pol :=
          if String.eqb (arg args 3) "if" then ACL_COND_IF
          else if String.eqb (arg args 3) "unless" then ACL_COND_UNLESS
          else ACL_COND_NONE in
        let add cond px' :=
          (0, add_inspect_rule {| cond := cond; action := action |} px', err) in
        (* Note: we consider "if TRUE" when there is no condition *)
        if bool_decide (pol = ACL_COND_NONE) then add None px
        else
          match parse_acl_cond (skipn 4 args) (px_acl px) pol with
          | (Some c, known) => add (Some c) (set_acl known px)
          | (None, known) =>
              (-1, set_acl known px,
               snprintf err errlen (msg_condition args (set_acl known px)))
          end in
      if String.eqb (arg args 2) "accept" then with_action TCP_ACT_ACCEPT
      else if String.eqb (arg args 2) "reject" then with_action TCP_ACT_REJECT
      else (-1, px, snprintf err errlen (msg_action args px))
  else (-1, px, snprintf err errlen (msg_unknown args px)).

End Parser.

Arguments cond {acl_cond} _.
Arguments action {acl_cond} _.
Arguments px_id {acl_cond acl_table} _.
Arguments px_cap {acl_cond acl_table} _.
Arguments inspect_delay {acl_cond acl_table} _.
Arguments inspect_rules {acl_cond acl_table} _.
Arguments px_acl {acl_cond acl_table} _.
Arguments set_inspect_delay {acl_cond acl_table} _ _.
Arguments set_acl {acl_cond acl_table} _ _.
Arguments add_inspect_rule {acl_cond acl_table} _ _.
Arguments tcp_parse_tcp_req {acl_cond acl_table} _ _ _ _ _ _ _ _ _ _ _ _.
Arguments delay_error {acl_cond acl_table} _ _ _ _ _ _ _.
Arguments msg_missing {acl_cond acl_table} _ _ _ _.
Arguments msg_no_frontend {acl_cond acl_table} _ _ _ _.
Arguments msg_delay {acl_cond acl_table} _ _ _ _.
Arguments msg_duplicate {acl_cond acl_table} _ _ _ _.
Arguments msg_action {acl_cond acl_table} _ _ _.
Arguments msg_condition {acl_cond acl_table} _ _ _.
Arguments msg_unknown {acl_cond acl_table} _ _ _ _.

(** The events a run appended to the trace. *)
Definition appended (w w' : world) (evs : list event) : Prop :=
  trace w' = trace w ++ evs.


(** ** What a run of [tcpv4_bind_socket] shows in the trace *)

(** The kernel refused, or accepted, a [bind] of the socket to [a]. *)
Definition bind_refused (fd : Z) (a : sockaddr_in) (evs : list event) : Prop :=
  exists v, Called (sys_bind fd (Sa_in a) 16) v ∈ evs /\ v < 0.

Definition bind_done (fd : Z) (a : sockaddr_in) (evs : list event) : Prop :=
  exists v, Called (sys_bind fd (Sa_in a) 16) v ∈ evs /\ 0 <= v.

(** The direct strategy was attempted: IP_TRANSPARENT or IP_FREEBIND was
    requested on the socket. *)
Definition transparent_tried (evs : list event) : Prop :=
  exists fd v, Called (sys_setsockopt fd IP_TRANSPARENT) v ∈ evs
               \/ Called (sys_setsockopt fd IP_FREEBIND) v ∈ evs.

(** The direct strategy was granted: one of the two requests returned 0. *)
Definition transparent_granted (fd : Z) (evs : list event) : Prop :=
  Called (sys_setsockopt fd IP_TRANSPARENT) 0 ∈ evs
  \/ Called (sys_setsockopt fd IP_FREEBIND) 0 ∈ evs.

(** The direct strategy was refused: both requests were made and failed. *)
Definition transparent_refused (fd : Z) (evs : list event) : Prop :=
  exists v1 v2, v1 <> 0 /\ v2 <> 0
    /\ Called (sys_setsockopt fd IP_TRANSPARENT) v1 ∈ evs
    /\ Called (sys_setsockopt fd IP_FREEBIND) v2 ∈ evs.

(** The fallback strategy was granted: both IP_TPROXY requests went through. *)
Definition tproxy_granted (fd : Z) (evs : list event) : Prop :=
  exists a p v1 v2, v1 <> -1 /\ v2 <> -1
    /\ Called (sys_setsockopt fd (IP_TPROXY_ASSIGN a p)) v1 ∈ evs
    /\ Called (sys_setsockopt fd IP_TPROXY_FLAGS) v2 ∈ evs.

(** What the three return values of [tcpv4_bind_socket] mean, read off the
    calls it made. *)
Definition bind_socket_outcome (fd flags : Z) (local : sockaddr_in)
    (r : Z) (evs : list event) : Prop :=
  (r = 0 /\ (exists a, bind_done fd a evs)
         /\ (flags = 0 \/ transparent_granted fd evs \/ tproxy_granted fd evs))
  \/ (r = 1 /\ ~ transparent_granted fd evs /\ bind_refused fd local evs)
  \/ (r = 2 /\ flags <> 0
         /\ ((transparent_granted fd evs /\ exists a, bind_refused fd a evs)
             \/ (~ transparent_granted fd evs /\ ~ tproxy_granted fd evs
                 /\ bind_done fd local evs))).

(** The address [flags] selects from [remote]: bit 0 takes the host, bit 1
    the port, over a zeroed structure. *)
Definition foreign_addr (flags : Z) (remote : option sockaddr_in) : sockaddr_in :=
  {| sin_family := 0;
     sin_port := if nonzero (Z.land flags 2)
                 then match remote with Some r => sin_port r | None => 0 end
                 else 0;
     sin_addr := if nonzero (Z.land flags 1)
                 then match remote with Some r => sin_addr r | None => 0 end
                 else 0 |}.

(** The [bind] calls of a run with the values they returned, in order. *)
Fixpoint bind_calls (evs : list event) : list (Z * sockaddr * Z * Z) :=
  match evs with
  | [] => []
  | Called (sys_bind fd a len) v :: evs' => (fd, a, len, v) :: bind_calls evs'
  | _ :: evs' => bind_calls evs'
  end.

(** The value [r] of [tcpv4_bind_socket] against the one [bind] of the run:
    the address bound is the foreign one exactly when the direct strategy
    was granted and [local] otherwise; 1 is returned exactly when the bind to
    [local] was refused, 2 exactly when the bind to the foreign address was
    refused or, the bind to [local] done, a foreign binding was asked for
    that no strategy granted, and 0 in the cases left. *)
Definition bind_socket_verdict (fd flags : Z) (local : sockaddr_in)
    (remote : option sockaddr_in) (r : Z) (evs : list event) : Prop :=
  exists a v,
    bind_calls evs = [(fd, Sa_in a, 16, v)]
    /\ (transparent_granted fd evs ->
        flags <> 0 /\ a = foreign_addr flags remote)
    /\ (~ transparent_granted fd evs -> a = local)
    /\ (r = 1 <-> ~ transparent_granted fd evs /\ v < 0)
    /\ (r = 2 <-> (transparent_granted fd evs /\ v < 0)
                  \/ (~ transparent_granted fd evs /\ 0 <= v /\ flags <> 0
                      /\ ~ tproxy_granted fd evs))
    /\ (r = 0 <-> 0 <= v /\ (flags = 0 \/ transparent_granted fd evs
                             \/ tproxy_granted fd evs)).

(** ** What a run of [tcp_bind_listener] shows in the trace *)

(** How many times [close(fd)] was called, and how many times [close] was
    called at all. *)
Fixpoint closes (fd : Z) (evs : list event) : nat :=
  match evs with
  | [] => 0
  | Called (sys_close fd') _ :: evs' =>
      if fd' =? fd then S (closes fd evs') else closes fd evs'
  | _ :: evs' => closes fd evs'
  end.

Fixpoint all_closes (evs : list event) : nat :=
  match evs with
  | [] => 0
  | Called (sys_close _) _ :: evs' => S (all_closes evs')
  | _ :: evs' => all_closes evs'
  end.

(** Some call picked out by [which] returned -1. *)
Definition refused (which : syscall -> bool) (evs : list event) : bool :=
  existsb (fun e => match e with
                    | Called c r => which c && (r =? -1)
                    | Fd_insert _ => false
                    end) evs.

Definition is_fcntl (c : syscall) : bool :=
  match c with sys_fcntl_nonblock _ => true | _ => false end.

Definition is_bind (c : syscall) : bool :=
  match c with sys_bind _ _ _ => true | _ => false end.

Definition is_listen (c : syscall) : bool :=
  match c with sys_listen _ _ => true | _ => false end.

Definition is_nodelay (c : syscall) : bool :=
  match c with sys_setsockopt _ TCP_NODELAY => true | _ => false end.

Definition is_reuseaddr (c : syscall) : bool :=
  match c with sys_setsockopt _ SO_REUSEADDR => true | _ => false end.

Definition is_linger (c : syscall) : bool :=
  match c with sys_setsockopt _ SO_LINGER => true | _ => false end.

Definition is_reuseport (c : syscall) : bool :=
  match c with sys_setsockopt _ SO_REUSEPORT => true | _ => false end.

Definition is_transparent (c : syscall) : bool :=
  match c with sys_setsockopt _ IP_TRANSPARENT => true | _ => false end.

Definition is_freebind (c : syscall) : bool :=
  match c with sys_setsockopt _ IP_FREEBIND => true | _ => false end.

(** The classification of the failures of [tcp_bind_listener], as a function
    of the calls one run made: the code the run is to return. *)
Definition bind_code (maxsock : Z) (evs : list event) : Z :=
  match evs with
  | Called (sys_socket _) fd :: _ =>
      if fd =? -1 then Z.lor ERR_RETRYABLE ERR_ALERT
      else if fd >=? maxsock then Z.lor (Z.lor ERR_FATAL ERR_ABORT) ERR_ALERT
      else if refused is_fcntl evs || refused is_nodelay evs
      then Z.lor ERR_FATAL ERR_ALERT
      else
        Z.lor
          (if refused is_reuseaddr evs
              || (refused is_transparent evs && refused is_freebind evs)
           then ERR_ALERT else ERR_NONE)
          (if refused is_bind evs || refused is_listen evs
           then Z.lor ERR_RETRYABLE ERR_ALERT else ERR_NONE)
  | _ => ERR_NONE
  end.

(** The codes [tcp_bind_listener] can return. *)
Definition listener_code (r : Z) : Prop :=
  r = ERR_NONE \/ r = ERR_ALERT
  \/ r = Z.lor ERR_RETRYABLE ERR_ALERT
  \/ r = Z.lor ERR_FATAL ERR_ALERT
  \/ r = Z.lor (Z.lor ERR_FATAL ERR_ABORT) ERR_ALERT.

(** In the five codes ABORT never comes without FATAL, and so it is for
    every code accumulated from them. *)
Definition abort_with_fatal (err : Z) : Prop :=
  Z.testbit err 2 = true -> Z.testbit err 1 = true.

(** A code that reports a failure: RETRYABLE or FATAL is set. *)
Definition is_failure (err : Z) : bool :=
  nonzero (Z.land err (Z.lor ERR_RETRYABLE ERR_FATAL)).

(** The [fdtab] entry of a listening socket. *)
Definition listening_entry (p : nat) (l : listener) : fdtab_entry :=
  {| cb_rd_f := Some (l_accept l); cb_wr_f := None; fd_owner := p;
     fd_st := FD_STLISTEN; fd_peerlen := 0 |}.

(** What one run of [tcp_bind_listener] on the ASSIGNED listener [l] at
    address [p] leaves behind: the calls made, starting with [socket]; the
    code returned; and the fate of the descriptor.  Either no descriptor was
    obtained; or the run reports a failure and closed the descriptor, once,
    with the listener and [fdtab] untouched; or it reports no failure, made no
    [close], and the listener holds the descriptor in LISTEN state. *)
Definition bound_post (w : world) (p : nat) (l : listener)
    (r : Z) (w' : world) : Prop :=
  exists fd evs,
    appended w w' (Called (sys_socket (ss_family (l_addr l))) fd :: evs)
    /\ r = bind_code (maxsock w)
             (Called (sys_socket (ss_family (l_addr l))) fd :: evs)
    /\ proto_tcpv4 w' = proto_tcpv4 w /\ proto_tcpv6 w' = proto_tcpv6 w
    /\ ip_transp_working w' = ip_transp_working w /\ maxsock w' = maxsock w
    /\ ((fd = -1 /\ evs = [] /\ is_failure r = true
         /\ listeners w' = listeners w /\ fdtab w' = fdtab w)
        \/ (fd <> -1 /\ is_failure r = true
            /\ closes fd evs = 1%nat /\ all_closes evs = 1%nat
            /\ listeners w' = listeners w /\ fdtab w' = fdtab w)
        \/ (fd <> -1 /\ is_failure r = false
            /\ all_closes evs = 0%nat
            /\ listeners w' = <[p := set_listening fd l]> (listeners w)
            /\ fdtab w' = <[fd := listening_entry p l]> (fdtab w)
            /\ Fd_insert fd ∈ evs)).

(** ** A process that calls [tcpv4_bind_socket] again and again *)

Record bind_call := {
  bc_fd : Z;
  bc_flags : Z;
  bc_local : sockaddr_in;
  bc_remote : option sockaddr_in
}.

Fixpoint bind_sockets (cfg : build_config) (os : kernel)
    (calls : list bind_call) : M (list Z) :=
  match calls with
  | [] => ret []
  | c :: calls' =>
      let* r := tcpv4_bind_socket cfg os (bc_fd c) (bc_flags c) (bc_local c)
                  (bc_remote c) in
      let* rs := bind_sockets cfg os calls' in
      ret (r :: rs)
  end.

(** The protocol entries as the file initialises them. *)
Definition no_listeners : protocol :=
  {| p_listeners := []; p_nb_listeners := 0 |}.

(** The world at process start, with the listeners the configuration
    created: the static initialisers of the file, an empty trace. *)
Definition start (ls : gmap nat listener) (maxsock : Z) : world :=
  {| trace := []; listeners := ls; fdtab := ∅;
     proto_tcpv4 := no_listeners; proto_tcpv6 := no_listeners;
     ip_transp_working := 1; maxsock := maxsock |}.

(** ** A configuration phase that registers listeners *)

Inductive add_call :=
| Add4 (listener : nat)                (* tcpv4_add_listener(listener) *)
| Add6 (listener : nat).               (* tcpv6_add_listener(listener) *)

Definition call_target (c : add_call) : nat :=
  match c with Add4 p => p | Add6 p => p end.

Definition run_add (c : add_call) : M unit :=
  match c with
  | Add4 l => tcpv4_add_listener l
  | Add6 l => tcpv6_add_listener l
  end.

Fixpoint add_listeners (calls : list add_call) : M unit :=
  match calls with
  | [] => ret tt
  | c :: calls' => run_add c ;;; add_listeners calls'
  end.

Definition INT_MAX : Z := 2 ^ 31 - 1.

(** What the registries look like: no listener is linked twice, in one list
    or across the two; a linked listener is past INIT; and the count is the
    length of the list (as long as that fits an [int]). *)
Definition registered (w : world) : list nat :=
  p_listeners (proto_tcpv4 w) ++ p_listeners (proto_tcpv6 w).

Definition count_ok (p : protocol) : Prop :=
  Z.of_nat (length (p_listeners p)) <= INT_MAX ->
  p_nb_listeners p = Z.of_nat (length (p_listeners p)).

Definition registries_ok (w : world) : Prop :=
  NoDup (registered w)
  /\ (forall p, p ∈ registered w ->
        exists l, listeners w !! p = Some l /\ l_state l <> LI_INIT)
  /\ count_ok (proto_tcpv4 w) /\ count_ok (proto_tcpv6 w).

(** The world after [listener], found in INIT state as [l], was added to the
    protocol entry [f]. *)
Definition added (f : family) (p : nat) (l : listener) (w : world) : world :=
  set_proto f
    {| p_listeners := p_listeners (get_proto f w) ++ [p];
       p_nb_listeners := int_incr (p_nb_listeners (get_proto f w)) |}
    (set_listeners (<[p := set_assigned f l]> (listeners w)) w).

(** ** Sample inputs *)

Module Sample.

Definition cfg_plain : build_config :=
  {| CONFIG_HAP_LINUX_TPROXY := false; CONFIG_HAP_CTTPROXY := false;
     HAVE_SO_REUSEPORT := false |}.

Definition cfg_linux : build_config :=
  {| CONFIG_HAP_LINUX_TPROXY := true; CONFIG_HAP_CTTPROXY := false;
     HAVE_SO_REUSEPORT := true |}.

(** A kernel on which every call succeeds; [socket] returns descriptor 3. *)
Definition os_ok : kernel :=
  fun _ c => match c with
             | sys_socket _ => Some 3%nat
             | _ => Some 0%nat
             end.

Definition addr80 : sockaddr_storage :=
  {| ss_family := 2; ss_port := 80; ss_host := 0 |}.

Definition mk_listener (st : li_state) (opts : Z) (p : option family) : listener :=
  {| l_fd := -1; l_state := st; l_options := opts; l_addr := addr80;
     l_proto := p; l_backlog := 0; l_maxconn := 100; l_accept := 1%nat |}.

Definition local_addr : sockaddr_in :=
  {| sin_family := 2; sin_port := 0; sin_addr := 167772161 |}.

Definition remote_addr : sockaddr_in :=
  {| sin_family := 2; sin_port := 4242; sin_addr := 3232235777 |}.

(** A kernel that refuses SO_LINGER and nothing else. *)
Definition os_no_linger : kernel :=
  fun _ c => match c with
             | sys_socket _ => Some 3%nat
             | sys_setsockopt _ SO_LINGER => None
             | _ => Some 0%nat
             end.

(** A kernel whose first descriptor is beyond any table. *)
Definition os_first_too_big : kernel :=
  fun tr c => match c with
              | sys_socket _ =>
                  match tr with [] => Some 2000%nat | _ => Some 3%nat end
              | _ => Some 0%nat
              end.

(** One listener queued for binding, with the no-linger option. *)
Definition w_nolinger : world :=
  {| trace := []; listeners := {[ 0%nat := mk_listener LI_ASSIGNED LI_O_NOLINGER (Some TCPv4) ]};
     fdtab := ∅;
     proto_tcpv4 := {| p_listeners := [0%nat]; p_nb_listeners := 1 |};
     proto_tcpv6 := no_listeners;
     ip_transp_working := 1; maxsock := 1024 |}.

(** Two listeners queued for binding in the IPv4 entry. *)
Definition w_two : world :=
  {| trace := [];
     listeners := {[ 0%nat := mk_listener LI_ASSIGNED 0 (Some TCPv4);
                     1%nat := mk_listener LI_ASSIGNED 0 (Some TCPv4) ]};
     fdtab := ∅;
     proto_tcpv4 := {| p_listeners := [0%nat; 1%nat]; p_nb_listeners := 2 |};
     proto_tcpv6 := no_listeners;
     ip_transp_working := 1; maxsock := 1024 |}.

(** A stand-in for the ACL compiler: a condition is its polarity and its
    tokens, and an empty token list does not compile. *)
Definition parse_acl_cond (args : list string) (known : list string)
    (pol : acl_pol) : option (acl_pol * list string) * list string :=
  match args with
  | [] => (None, known)
  | _ => (Some (pol, args), known)
  end.

(** A stand-in for the duration parser: digits only. *)
Definition parse_time_err (s : string) : Z + ascii :=
  if String.eqb s "5000" then inl 5000 else inr "x"%char.

(** A stand-in that reads any decimal number of milliseconds and stops at
    the first character that is not a digit. *)
Fixpoint parse_digits (s : string) (acc : Z) : Z + ascii :=
  match s with
  | EmptyString => inl acc
  | String c s' =>
      let n := Z.of_nat (nat_of_ascii c) - 48 in
      if (0 <=? n) && (n <=? 9) then parse_digits s' (10 * acc + n)
      else inr c
  end.

Definition parse_millis (s : string) : Z + ascii := parse_digits s 0.

Definition frontend : proxy (acl_pol * list string) (list string) :=
  {| px_id := "www"; px_cap := 1; inspect_delay := 0; inspect_rules := [];
     px_acl := [] |}.

Definition proxy_type_str (px : proxy (acl_pol * list string) (list string))
    : string := "frontend".

(** A listener that is already listening, at address 0 of the heap. *)
Definition w_listening : world :=
  start {[ 0%nat := mk_listener LI_LISTEN 0 (Some TCPv4) ]} 1024.

(** A kernel that refuses IP_TRANSPARENT and IP_FREEBIND. *)
Definition os_no_transparent : kernel :=
  fun _ c => match c with
             | sys_socket _ => Some 3%nat
             | sys_setsockopt _ IP_TRANSPARENT => None
             | sys_setsockopt _ IP_FREEBIND => None
             | _ => Some 0%nat
             end.

(** Two listeners fresh from the configuration parser. *)
Definition w_init : world :=
  start {[ 0%nat := mk_listener LI_INIT 0 None;
           1%nat := mk_listener LI_INIT 1 None ]} 1024.

Definition foreign_call : bind_call :=
  {| bc_fd := 3; bc_flags := 3; bc_local := local_addr;
     bc_remote := Some remote_addr |}.

End Sample.

(** * More of the file *)

(** ** More of what a run of [tcp_bind_listener] shows *)

(** Some call picked out by [which] was made. *)
Definition requested (which : syscall -> bool) (evs : list event) : bool :=
  existsb (fun e => match e with
                    | Called c _ => which c
                    | Fd_insert _ => false
                    end) evs.

(** The arguments of the [bind] and of the [listen] calls, in order. *)
Fixpoint binds (evs : list event) : list (Z * sockaddr * Z) :=
  match evs with
  | [] => []
  | Called (sys_bind fd a len) _ :: evs' => (fd, a, len) :: binds evs'
  | _ :: evs' => binds evs'
  end.

Fixpoint listens (evs : list event) : list (Z * Z) :=
  match evs with
  | [] => []
  | Called (sys_listen fd backlog) _ :: evs' => (fd, backlog) :: listens evs'
  | _ :: evs' => listens evs'
  end.

Fixpoint inserted (evs : list event) : list Z :=
  match evs with
  | [] => []
  | Fd_insert fd :: evs' => fd :: inserted evs'
  | _ :: evs' => inserted evs'
  end.

(** The messages of [tcp_bind_listener]. *)
Definition bind_messages : list string :=
  [ "cannot create listening socket";
    "not enough free sockets (raise '-n' parameter)";
    "cannot make socket non-blocking";
    "cannot do so_reuseaddr";
    "cannot make listening socket transparent";
    "cannot bind socket";
    "cannot listen to socket" ]%string.

(** What [tcp_return] leaves in the buffer for the message [msg]. *)
Definition returned_buffer (errmsg : option string) (errlen : nat)
    (msg : option string) : option string :=
  match msg with
  | Some m => if (0 <? errlen)%nat then Some (strlcpy2 m errlen) else errmsg
  | None => errmsg
  end.

(** The socket options of the run match the listener and the build: each
    optional request is made only where it applies, and a run that gets as far
    as [bind] has made exactly the requests that apply, after a successful
    non-blocking setup; [listen] comes only after a successful [bind], and
    [fd_insert] only after a successful [listen]. *)
Definition options_ok (cfg : build_config) (l : listener) (evs : list event)
    : bool :=
  implb (requested is_linger evs)
        (nonzero (Z.land (l_options l) LI_O_NOLINGER))
  && implb (requested is_reuseport evs) (HAVE_SO_REUSEPORT cfg)
  && implb (requested is_transparent evs)
           (CONFIG_HAP_LINUX_TPROXY cfg
            && nonzero (Z.land (l_options l) LI_O_FOREIGN))
  && implb (requested is_freebind evs)
           (requested is_transparent evs && refused is_transparent evs)
  && implb (requested is_bind evs)
           (eqb (requested is_linger evs)
                (nonzero (Z.land (l_options l) LI_O_NOLINGER))
            && eqb (requested is_reuseport evs) (HAVE_SO_REUSEPORT cfg)
            && eqb (requested is_transparent evs)
                   (CONFIG_HAP_LINUX_TPROXY cfg
                    && nonzero (Z.land (l_options l) LI_O_FOREIGN))
            && requested is_fcntl evs && negb (refused is_fcntl evs)
            && requested is_nodelay evs && negb (refused is_nodelay evs)
            && requested is_reuseaddr evs)
  && implb (requested is_listen evs)
           (requested is_bind evs && negb (refused is_bind evs))
  && implb (match inserted evs with [] => false | _ => true end)
           (requested is_listen evs && negb (refused is_listen evs)).

(** The calls of a run in order, without the values returned. *)
Fixpoint calls (evs : list event) : list syscall :=
  match evs with
  | [] => []
  | Called c _ :: evs' => c :: calls evs'
  | Fd_insert _ :: evs' => calls evs'
  end.

(** What comes before the first [bind] of a run, and what comes after it. *)
Fixpoint before_bind (evs : list event) : list event :=
  match evs with
  | [] => []
  | Called (sys_bind _ _ _) _ :: _ => []
  | e :: evs' => e :: before_bind evs'
  end.

Fixpoint after_bind (evs : list event) : list event :=
  match evs with
  | [] => []
  | Called (sys_bind _ _ _) _ :: evs' => evs'
  | _ :: evs' => after_bind evs'
  end.

Definition is_option (c : syscall) : bool :=
  match c with sys_setsockopt _ _ => true | _ => false end.

(** The calls [tcp_bind_listener] makes on the new descriptor [fd] before it
    binds it, in the order of the source: the non-blocking setup, TCP_NODELAY
    and SO_REUSEADDR; SO_LINGER for a listener with LI_O_NOLINGER;
    SO_REUSEPORT where the build has it; IP_TRANSPARENT in a
    CONFIG_HAP_LINUX_TPROXY build for a listener with LI_O_FOREIGN, and
    IP_FREEBIND when that was refused in the run [evs]. *)
Definition option_calls (cfg : build_config) (l : listener) (fd : Z)
    (evs : list event) : list syscall :=
  [sys_fcntl_nonblock fd; sys_setsockopt fd TCP_NODELAY;
   sys_setsockopt fd SO_REUSEADDR]
  ++ (if nonzero (Z.land (l_options l) LI_O_NOLINGER)
      then [sys_setsockopt fd SO_LINGER] else [])
  ++ (if HAVE_SO_REUSEPORT cfg
      then [sys_setsockopt fd SO_REUSEPORT] else [])
  ++ (if CONFIG_HAP_LINUX_TPROXY cfg
         && nonzero (Z.land (l_options l) LI_O_FOREIGN)
      then sys_setsockopt fd IP_TRANSPARENT
           :: (if refused is_transparent evs
               then [sys_setsockopt fd IP_FREEBIND] else [])
      else []).

(** The options of a run come in that order and before the [bind]: a run
    that binds has made exactly the calls of [option_calls] before, and
    requests no option after; a run that does not bind has requested no
    option but TCP_NODELAY. *)
Definition options_in_order (cfg : build_config) (l : listener) (fd : Z)
    (evs : list event) : Prop :=
  (requested is_bind evs = true ->
   calls (before_bind evs) = option_calls cfg l fd evs
   /\ requested is_option (after_bind evs) = false)
  /\ (requested is_bind evs = false ->
      requested is_reuseaddr evs = false
      /\ requested is_linger evs = false
      /\ requested is_reuseport evs = false
      /\ requested is_transparent evs = false
      /\ requested is_freebind evs = false).

(** What one returned run of [tcp_bind_listener] on the ASSIGNED listener [l]
    reports and requests. *)
Definition bind_report (cfg : build_config) (w : world) (l : listener)
    (errmsg : option string) (errlen : nat)
    (r : Z) (buf : option string) (w' : world) : Prop :=
  exists fd evs msg,
    appended w w' (Called (sys_socket (ss_family (l_addr l))) fd :: evs)
    /\ buf = returned_buffer (clear_errmsg errmsg errlen) errlen msg
    /\ (msg <> None -> (0 < errlen)%nat -> errmsg <> None)
    /\ match msg with
       | Some m => m ∈ bind_messages /\ nonzero (Z.land r ERR_ALERT) = true
       | None => r = ERR_NONE
       end
    /\ options_ok cfg l evs = true
    /\ (binds evs = []
        \/ exists pr, l_proto l = Some pr
             /\ binds evs = [(fd, Sa_storage (l_addr l), sock_addrlen pr)])
    /\ (listens evs = []
        \/ listens evs = [(fd, if nonzero (l_backlog l)
                               then l_backlog l else l_maxconn l)])
    /\ (inserted evs = [] \/ inserted evs = [fd]).

Module More.

(** The listener of [Sample.w_nolinger]. *)
Definition l_nolinger : listener :=
  Sample.mk_listener LI_ASSIGNED LI_O_NOLINGER (Some TCPv4).

(** [Sample.w_nolinger] once its listener is bound on descriptor 3 under
    [Sample.os_no_linger]. *)
Definition w_nolinger_bound : world :=
  {| trace := [Called (sys_socket 2) 3;
               Called (sys_fcntl_nonblock 3) 0;
               Called (sys_setsockopt 3 TCP_NODELAY) 0;
               Called (sys_setsockopt 3 SO_REUSEADDR) 0;
               Called (sys_setsockopt 3 SO_LINGER) (-1);
               Called (sys_bind 3 (Sa_storage Sample.addr80) 16) 0;
               Called (sys_listen 3 100) 0;
               Fd_insert 3];
     listeners := <[0%nat := set_listening 3 l_nolinger]>
                    (listeners Sample.w_nolinger);
     fdtab := <[3 := listening_entry 0 l_nolinger]> ∅;
     proto_tcpv4 := proto_tcpv4 Sample.w_nolinger;
     proto_tcpv6 := proto_tcpv6 Sample.w_nolinger;
     ip_transp_working := 1; maxsock := 1024 |}.

(** [Sample.w_init] once listener 0 is registered for IPv4 and listener 1
    for IPv6. *)
Definition w_registered : world :=
  {| trace := [];
     listeners := {[ 0%nat := Sample.mk_listener LI_ASSIGNED 0 (Some TCPv4);
                     1%nat := Sample.mk_listener LI_ASSIGNED 1 (Some TCPv6) ]};
     fdtab := ∅;
     proto_tcpv4 := {| p_listeners := [0%nat]; p_nb_listeners := 1 |};
     proto_tcpv6 := {| p_listeners := [1%nat]; p_nb_listeners := 1 |};
     ip_transp_working := 1; maxsock := 1024 |}.

End More.

(** ** More of what a batch shows *)

(** The codes a batch accumulates: WARN is never set; ALERT is set in every
    code but NONE; ABORT never comes without FATAL. *)
Definition batch_code (r : Z) : Prop :=
  Z.land r ERR_WARN = 0
  /\ (r = ERR_NONE <-> Z.land r ERR_ALERT = 0)
  /\ (Z.land r ERR_ABORT <> 0 -> Z.land r ERR_FATAL <> 0).

(** From [w] to [w'] listeners were only bound: each listener of [w] is in
    [w'] as it was, or was ASSIGNED and is now listening on some descriptor. *)
Definition only_bound (w w' : world) : Prop :=
  forall q l, listeners w !! q = Some l ->
    listeners w' !! q = Some l
    \/ (l_state l = LI_ASSIGNED
        /\ exists fd, listeners w' !! q = Some (set_listening fd l)).

(** Nothing but listeners, [fdtab] and the trace differs. *)
Definition same_registries (w w' : world) : Prop :=
  proto_tcpv4 w' = proto_tcpv4 w /\ proto_tcpv6 w' = proto_tcpv6 w
  /\ ip_transp_working w' = ip_transp_working w /\ maxsock w' = maxsock w.

(** Every listener linked in a protocol entry points back to that entry and
    is past INIT. *)
Definition linked_ok (w : world) : Prop :=
  forall f p, p ∈ p_listeners (get_proto f w) ->
    exists l, listeners w !! p = Some l
              /\ l_proto l = Some f /\ l_state l <> LI_INIT.

(** ** More of what a run of [tcpv4_bind_socket] shows *)

Definition is_tproxy (c : syscall) : bool :=
  match c with
  | sys_setsockopt _ (IP_TPROXY_ASSIGN _ _) => true
  | sys_setsockopt _ IP_TPROXY_FLAGS => true
  | _ => false
  end.

(** Some call picked out by [which] returned 0. *)
Definition went_through (which : syscall -> bool) (evs : list event) : bool :=
  existsb (fun e => match e with
                    | Called c r => which c && (r =? 0)
                    | Fd_insert _ => false
                    end) evs.

(** Some [bind] returned a negative value. *)
Definition bind_failed (evs : list event) : bool :=
  existsb (fun e => match e with
                    | Called (sys_bind _ _ _) r => r <? 0
                    | _ => false
                    end) evs.

(** How many calls picked out by [which] were made. *)
Fixpoint count (which : syscall -> bool) (evs : list event) : nat :=
  match evs with
  | [] => 0
  | Called c _ :: evs' => if which c then S (count which evs') else count which evs'
  | _ :: evs' => count which evs'
  end.

(** The arguments of the IP_TPROXY assignments, in order. *)
Fixpoint tproxy_assigns (evs : list event) : list (Z * Z * Z) :=
  match evs with
  | [] => []
  | Called (sys_setsockopt fd (IP_TPROXY_ASSIGN a p)) _ :: evs' =>
      (fd, a, p) :: tproxy_assigns evs'
  | _ :: evs' => tproxy_assigns evs'
  end.

(** The direct strategy was granted: IP_TRANSPARENT or IP_FREEBIND returned 0. *)
Definition direct_ok (evs : list event) : bool :=
  went_through is_transparent evs || went_through is_freebind evs.

(** Which requests a call of [tcpv4_bind_socket] makes, and when: one
    SO_REUSEADDR and one [bind]; IP_TRANSPARENT only in a
    CONFIG_HAP_LINUX_TPROXY build with non-zero [flags] and the static flag
    up, IP_FREEBIND only after IP_TRANSPARENT returned non-zero; IP_TPROXY
    only in a CONFIG_HAP_CTTPROXY build with non-zero [flags], when the direct
    strategy was not granted and the bind went through. *)
Definition socket_requests_ok (cfg : build_config) (flags flag0 : Z)
    (evs : list event) : bool :=
  Nat.eqb (count is_reuseaddr evs) 1
  && Nat.eqb (count is_bind evs) 1
  && implb (requested is_transparent evs)
           (CONFIG_HAP_LINUX_TPROXY cfg && nonzero flags && nonzero flag0)
  && implb (requested is_freebind evs)
           (requested is_transparent evs
            && negb (went_through is_transparent evs))
  && implb (requested is_tproxy evs)
           (CONFIG_HAP_CTTPROXY cfg && nonzero flags
            && negb (direct_ok evs) && negb (bind_failed evs)).

(** ** A section of the configuration, parsed line by line *)

Section Lines.

Context {acl_cond acl_table : Type}.
Variable PR_CAP_FE : Z.
Variable proxy_type_str : proxy acl_cond acl_table -> string.
Variable parse_time_err : string -> Z + ascii.
Variable parse_acl_cond :
  list string -> acl_table -> acl_pol -> option acl_cond * acl_table.
Variable the_proxy : proxy acl_cond acl_table.

(** The "tcp-request" lines of one proxy, handed to [tcp_parse_tcp_req] one
    after the other with the same buffer; the values returned, first line
    first, the proxy and the buffer at the end. *)
Fixpoint parse_lines (curpx defpx : nat) (lines : list (list string))
    (px : proxy acl_cond acl_table) (err : string) (errlen : nat)
    : list Z * proxy acl_cond acl_table * string :=
  match lines with
  | [] => ([], px, err)
  | args :: lines' =>
      let res := tcp_parse_tcp_req PR_CAP_FE proxy_type_str parse_time_err
                   parse_acl_cond the_proxy args 0 curpx defpx px err errlen in
      let rest := parse_lines curpx defpx lines' res.1.2 res.2 errlen in
      (res.1.1 :: rest.1.1, rest.1.2, rest.2)
  end.

End Lines.
(** * Properties *)

(** ** Running the monad *)

Lemma bind_Some {A B} (m : M A) (k : A -> M B) w b w' :
  bind m k w = Some (b, w') ->
  exists a w1, m w = Some (a, w1) /\ k a w1 = Some (b, w').
Proof.
  unfold bind. destruct (m w) as [[a w1]|]; [|discriminate].
  intros H. exists a, w1. split; [reflexivity|exact H].
Qed.

Lemma bind_eq {A B} (m : M A) (k : A -> M B) w a w1 :
  m w = Some (a, w1) -> bind m k w = k a w1.
Proof. unfold bind. intros ->. reflexivity. Qed.

Lemma nonzero_0 : nonzero 0 = false.
Proof. reflexivity. Qed.

Lemma appended_nil w : appended w w [].
Proof. unfold appended. rewrite app_nil_r. reflexivity. Qed.

Lemma appended_trans w1 w2 w3 e1 e2 :
  appended w1 w2 e1 -> appended w2 w3 e2 -> appended w1 w3 (e1 ++ e2).
Proof.
  unfold appended. intros H1 H2. rewrite H2, H1, app_assoc. reflexivity.
Qed.


(** ** tcp_bind_listener on a listener that is not ASSIGNED *)

(** C3 (as amended).  On a listener whose state is not ASSIGNED, whatever its
    options, [tcp_bind_listener] returns ERR_NONE and leaves the world as it
    was: no system call, no change to the listener, to [fdtab] or to the
    protocol entries.  The one thing it writes is the message buffer, which it
    resets to the empty string when a buffer of non-zero length is supplied. *)
Theorem tcp_bind_listener_not_assigned cfg os listener errmsg errlen w l :
  listeners w !! listener = Some l ->
  l_state l <> LI_ASSIGNED ->
  tcp_bind_listener cfg os listener errmsg errlen w
    = Some ((ERR_NONE, clear_errmsg errmsg errlen), w)
  /\ (errlen = 0%nat -> clear_errmsg errmsg errlen = errmsg)
  /\ (errmsg = None -> clear_errmsg errmsg errlen = None)
  /\ (errmsg <> None -> errlen <> 0%nat ->
      clear_errmsg errmsg errlen = Some EmptyString).
Proof.
  intros Hl Hst. split.
  - unfold tcp_bind_listener, bind, load_listener. rewrite Hl.
    rewrite bool_decide_eq_false_2 by exact Hst. reflexivity.
  - unfold clear_errmsg. repeat split.
    + intros ->. destruct errmsg; reflexivity.
    + intros ->. reflexivity.
    + intros Hb Hn. destruct errmsg as [s|]; [|congruence].
      destruct errlen; [congruence|reflexivity].
Qed.

Lemma tcp_bind_listener_not_assigned_witness :
  tcp_bind_listener Sample.cfg_linux Sample.os_ok 0 None 0 Sample.w_listening
    = Some ((ERR_NONE, None), Sample.w_listening).
Proof.
  apply (tcp_bind_listener_not_assigned Sample.cfg_linux Sample.os_ok 0 None 0
           Sample.w_listening (Sample.mk_listener LI_LISTEN 0 (Some TCPv4))).
  - reflexivity.
  - discriminate.
Defined.

(** C3 (as stated) fails: a listener already in LISTEN state, a caller buffer
    that holds an earlier message.  The call returns ERR_NONE and makes no
    system call, but the buffer comes back empty. *)
Lemma tcp_bind_listener_listen_clears_buffer :
  tcp_bind_listener Sample.cfg_plain Sample.os_ok 0 (Some "old"%string) 4
      Sample.w_listening
    = Some ((ERR_NONE, Some EmptyString), Sample.w_listening)
  /\ tcp_bind_listener Sample.cfg_plain Sample.os_ok 0 (Some "old"%string) 4
       Sample.w_listening
     <> Some ((ERR_NONE, Some "old"%string), Sample.w_listening).
Proof.
  assert (E : tcp_bind_listener Sample.cfg_plain Sample.os_ok 0
                (Some "old"%string) 4 Sample.w_listening
              = Some ((ERR_NONE, Some EmptyString), Sample.w_listening))
    by reflexivity.
  split; [exact E|]. rewrite E. intros H. inversion H.
Qed.

(** ** tcpv4_bind_socket *)

(** With [flags] = 0 the function is straight-line code. *)
Lemma bind_socket_flags0 cfg os fd local remote w :
  tcpv4_bind_socket cfg os fd 0 local remote w
  = (sys os (sys_setsockopt fd SO_REUSEADDR) ;;;
     let* r := sys os (sys_bind fd (Sa_in local) 16) in
     ret (if r <? 0 then 1 else 0)) w.
Proof.
  unfold tcpv4_bind_socket, bind, get, ret, sys.
  rewrite nonzero_0, andb_false_r. simpl.
  destruct (sysret _ <? 0); reflexivity.
Qed.

(** C5.  With [flags] = 0, [tcpv4_bind_socket] is a bind to the local
    address: whatever [remote] is, a NULL pointer included, it sets
    SO_REUSEADDR (the result is not looked at), calls [bind] on [local], and
    returns 1 when that call fails and 0 when it succeeds.  Nothing else is
    called, the static flag is not touched, and the outcome is the one
    obtained with a NULL [remote]. *)
Theorem tcpv4_bind_socket_mode0 cfg os fd local remote w :
  let r1 := sysret (os (trace w) (sys_setsockopt fd SO_REUSEADDR)) in
  let t1 := trace w ++ [Called (sys_setsockopt fd SO_REUSEADDR) r1] in
  let r2 := sysret (os t1 (sys_bind fd (Sa_in local) 16)) in
  tcpv4_bind_socket cfg os fd 0 local remote w
    = Some (if r2 <? 0 then 1 else 0,
            set_trace (t1 ++ [Called (sys_bind fd (Sa_in local) 16) r2]) w)
  /\ tcpv4_bind_socket cfg os fd 0 local remote w
     = tcpv4_bind_socket cfg os fd 0 local None w.
Proof.
  cbv zeta. split.
  - rewrite bind_socket_flags0. reflexivity.
  - rewrite !bind_socket_flags0. reflexivity.
Qed.

(** Membership in an explicit list of events. *)
Ltac in_list :=
  repeat first [ apply list_elem_of_here | apply list_elem_of_further ].

Ltac not_in_list H :=
  repeat (apply elem_of_cons in H as [H|H];
          [try discriminate H; try (inversion H; subst; clear H)|]);
  try (apply elem_of_nil in H; contradiction).

Ltac zbool :=
  repeat match goal with
  | H : (_ =? _) = true |- _ => apply Z.eqb_eq in H
  | H : (_ =? _) = false |- _ => apply Z.eqb_neq in H
  | H : (_ <? _) = true |- _ => apply Z.ltb_lt in H
  | H : (_ <? _) = false |- _ => apply Z.ltb_ge in H
  | H : (_ >=? _) = true |- _ => rewrite Z.geb_leb in H; apply Z.leb_le in H
  | H : (_ >=? _) = false |- _ => rewrite Z.geb_leb in H; apply Z.leb_gt in H
  | H : nonzero _ = true |- _ =>
      unfold nonzero in H; apply negb_true_iff in H
  | H : nonzero _ = false |- _ =>
      unfold nonzero in H; apply negb_false_iff in H
  end.

Ltac split_ifs :=
  repeat (match goal with
          | |- context [if ?b then _ else _] => destruct b eqn:?
          end; simpl).

Ltac name_results :=
  repeat match goal with
  | |- context [sysret ?x] =>
      let v := fresh "v" in
      generalize dependent (sysret x); intros v; intros
  | H : context [sysret ?x] |- _ =>
      let v := fresh "v" in
      generalize dependent (sysret x); intros v; intros
  end.

Ltac granted :=
  solve [ left; in_list | right; in_list ].

Ltac not_granted :=
  let H := fresh "H" in
  intros [H|H]; not_in_list H; try congruence; try lia.

Ltac tproxy_ok :=
  solve [ eexists _, _, _, _;
          split; [|split; [|split; [in_list|in_list]]]; assumption ].

Ltac not_tproxy :=
  let H := fresh "H" in let H1 := fresh "H" in
  let H2 := fresh "H" in let H3 := fresh "H" in
  intros (? & ? & ? & ? & H & H1 & H2 & H3);
  not_in_list H2; not_in_list H3; try congruence; try lia.

Ltac bound := solve [ eexists; split; [in_list | lia] ].

Ltac outcome :=
  unfold bind_socket_outcome, bind_done, bind_refused, transparent_granted,
    tproxy_granted;
  first
  [ left; split; [reflexivity|]; split;
    [ eexists; bound
    | first [ left; solve [assumption | lia]
            | right; left; granted
            | right; right; tproxy_ok ] ]
  | right; left; split; [reflexivity|]; split; [not_granted | bound]
  | right; right; split; [reflexivity|]; split; [solve [assumption | lia] |];
    first [ left; split; [granted | eexists; bound]
          | right; split; [not_granted | split; [not_tproxy | bound]] ] ].

(** A call returns, given a [remote] to read whenever [flags] is not 0. *)
Lemma bind_socket_returns cfg os fd flags local remote w :
  (flags <> 0 -> remote <> None) ->
  exists r w', tcpv4_bind_socket cfg os fd flags local remote w = Some (r, w').
Proof.
  intros Hrem.
  destruct remote as [rem|].
  - unfold tcpv4_bind_socket, bind, get, ret, sys, modify, deref, fault.
    simpl. split_ifs.
    all: eexists _, _; reflexivity.
  - assert (flags = 0) as ->.
    { destruct (Z.eq_dec flags 0) as [E|E]; [exact E|].
      exfalso. apply (Hrem E). reflexivity. }
    rewrite bind_socket_flags0.
    unfold bind, ret, sys. simpl. eexists _, _; reflexivity.
Qed.

(** Whenever a call returns, the value is one of three and tells what
    happened. *)
Lemma bind_socket_run cfg os fd flags local remote w r w' :
  tcpv4_bind_socket cfg os fd flags local remote w = Some (r, w') ->
  exists evs,
    appended w w' evs
    /\ (r = 0 \/ r = 1 \/ r = 2)
    /\ bind_socket_outcome fd flags local r evs.
Proof.
  unfold tcpv4_bind_socket, bind, get, ret, sys, modify, deref, fault.
  destruct remote as [rem|]; simpl; split_ifs.
  all: try discriminate.
  all: intros [= <- <-]; name_results; zbool; subst.
  all: eexists; split;
    [unfold appended; simpl; rewrite <- ?app_assoc; simpl; reflexivity|].
  all: split; [lia|].
  all: outcome.
Qed.

Ltac decide_granted :=
  match goal with
  | |- context [transparent_granted ?fd ?evs] =>
      first [ assert (transparent_granted fd evs)
                by (unfold transparent_granted; granted)
            | assert (~ transparent_granted fd evs)
                by (unfold transparent_granted; not_granted) ];
      first [ assert (tproxy_granted fd evs)
                by (unfold tproxy_granted; tproxy_ok)
            | assert (~ tproxy_granted fd evs)
                by (unfold tproxy_granted; not_tproxy) ];
      let t := fresh "evs" in set (t := evs) in *; clearbody t
  end.

Ltac foreign_eq :=
  unfold foreign_addr, nonzero;
  repeat match goal with
  | H : ?x <> 0 |- context [?x =? 0] => rewrite (proj2 (Z.eqb_neq x 0) H)
  | H : ?x = 0 |- context [?x =? 0] => rewrite H
  end; reflexivity.

Lemma bind_socket_verdict_run cfg os fd flags local remote w r w' :
  tcpv4_bind_socket cfg os fd flags local remote w = Some (r, w') ->
  exists evs,
    appended w w' evs
    /\ bind_socket_verdict fd flags local remote r evs.
Proof.
  unfold tcpv4_bind_socket, bind, get, ret, sys, modify, deref, fault.
  destruct remote as [rem|]; simpl; split_ifs.
  all: try discriminate.
  all: intros [= <- <-]; name_results; zbool; subst.
  all: eexists; split;
    [unfold appended; simpl; rewrite <- ?app_assoc; simpl; reflexivity|].
  all: unfold bind_socket_verdict; cbn [bind_calls].
  all: eexists _, _; split; [reflexivity|].
  all: decide_granted.
  all: split;
    [ intros ?;
      first [contradiction | split; [first [assumption|lia] | foreign_eq]] |].
  all: split; [intros ?; first [contradiction | reflexivity] |].
  all: intuition (try lia; try congruence).
Qed.

(** C6.  [tcpv4_bind_socket] returns whenever it is given a [remote] to read
    with a non-zero [flags].  Whenever it returns, the value is one of three,
    and each tells what happened: 0 when a bind went through and, if a
    foreign binding was requested, one of the two strategies granted it; 1
    when the direct strategy was not granted and the bind to the local
    address failed; 2 when [flags] is not 0 and either the bind to the
    foreign address failed or, after a successful bind to the local address,
    no strategy granted the foreign binding (in particular when none is
    compiled in).  The run has one [bind]: to the foreign address that
    [flags] selects from [remote] when the direct strategy was granted, to
    [local] when it was not; and the value says which of the two failed: it
    is 1 exactly when that bind was to [local] and was refused, 2 exactly
    when it was to the foreign address and was refused or it was to [local],
    went through, and the foreign binding asked for was granted by no
    strategy, and 0 otherwise. *)
Theorem tcpv4_bind_socket_codes cfg os fd flags local remote w :
  ((flags <> 0 -> remote <> None) ->
   exists r w', tcpv4_bind_socket cfg os fd flags local remote w = Some (r, w'))
  /\ forall r w',
      tcpv4_bind_socket cfg os fd flags local remote w = Some (r, w') ->
      exists evs,
        appended w w' evs
        /\ (r = 0 \/ r = 1 \/ r = 2)
        /\ bind_socket_outcome fd flags local r evs
        /\ bind_socket_verdict fd flags local remote r evs.
Proof.
  split.
  - apply bind_socket_returns.
  - intros r w' Hrun.
    destruct (bind_socket_run _ _ _ _ _ _ _ _ _ Hrun)
      as (evs & Happ & Hr & Hout).
    destruct (bind_socket_verdict_run _ _ _ _ _ _ _ _ _ Hrun)
      as (evs' & Happ' & Hver).
    assert (evs' = evs) as ->.
    { unfold appended in Happ, Happ'. rewrite Happ in Happ'.
      exact (eq_sym (app_inv_head _ _ _ Happ')). }
    exists evs. auto.
Qed.

(** A run of the above: a foreign binding requested where no strategy is
    compiled in. *)
Example foreign_unavailable :
  tcpv4_bind_socket Sample.cfg_plain Sample.os_ok 3 3 Sample.local_addr
    (Some Sample.remote_addr) (start ∅ 1024)
  = Some (2, set_trace
               [Called (sys_setsockopt 3 SO_REUSEADDR) 0;
                Called (sys_bind 3 (Sa_in Sample.local_addr) 16) 0]
               (start ∅ 1024)).
Proof. reflexivity. Qed.

(** ** The static flag of tcpv4_bind_socket *)

Lemma bind_socket_flag cfg os fd flags local remote w r w' :
  tcpv4_bind_socket cfg os fd flags local remote w = Some (r, w') ->
  exists evs,
    appended w w' evs
    /\ (ip_transp_working w = 0 -> ~ transparent_tried evs)
    /\ (ip_transp_working w' = ip_transp_working w
        \/ (ip_transp_working w <> 0 /\ ip_transp_working w' = 0
            /\ transparent_refused fd evs))
    /\ (transparent_refused fd evs -> ip_transp_working w' = 0).
Proof.
  unfold tcpv4_bind_socket, bind, get, ret, sys, modify, deref, fault.
  destruct remote as [rem|]; simpl; split_ifs.
  all: try discriminate.
  all: intros [= <- <-]; name_results; zbool; subst.
  all: eexists; split;
    [unfold appended; simpl; rewrite <- ?app_assoc; simpl; reflexivity|].
  all: simpl; split; [|split].
  all: try solve [ intros ? (? & ? & [H|H]); not_in_list H ].
  all: try solve [ intros H0; rewrite H0 in *; simpl in *;
                   rewrite ?andb_false_r in *; discriminate ].
  all: try solve [ left; reflexivity ].
  all: try solve [ intros _; reflexivity ].
  all: try solve [ intros (? & ? & ? & ? & H1 & H2);
                   not_in_list H1; not_in_list H2; congruence ].
  all: right; split;
       [ apply andb_true_iff in Heqb as [_ Hb]; zbool; exact Hb
       | split; [reflexivity|];
         eexists _, _; split; [|split; [|split; [in_list|in_list]]];
         assumption ].
Qed.

Lemma appended_inj w w' e1 e2 :
  appended w w' e1 -> appended w w' e2 -> e1 = e2.
Proof.
  unfold appended. intros H1 H2. rewrite H1 in H2.
  exact (app_inv_head _ _ _ H2).
Qed.

Lemma transparent_tried_app e1 e2 :
  transparent_tried (e1 ++ e2) -> transparent_tried e1 \/ transparent_tried e2.
Proof.
  intros (fd & v & [H|H]); apply elem_of_app in H as [H|H];
    [left|right|left|right]; exists fd, v; tauto.
Qed.

(** Once the flag is 0, no sequence of calls sets it again, and none of
    them requests IP_TRANSPARENT or IP_FREEBIND. *)
Lemma bind_sockets_disabled cfg os calls : forall w rs w',
  bind_sockets cfg os calls w = Some (rs, w') ->
  ip_transp_working w = 0 ->
  ip_transp_working w' = 0
  /\ exists evs, appended w w' evs /\ ~ transparent_tried evs.
Proof.
  induction calls as [|c calls IH]; intros w rs w' Hrun H0.
  - injection Hrun as <- <-. split; [exact H0|].
    exists []. split; [apply appended_nil|].
    intros (fd & v & [H|H]); apply elem_of_nil in H; exact H.
  - simpl in Hrun.
    apply bind_Some in Hrun as (r & w1 & Hc & Hrun).
    apply bind_Some in Hrun as (rs' & w2 & Hrest & Hret).
    injection Hret as <- <-.
    destruct (bind_socket_flag _ _ _ _ _ _ _ _ _ Hc)
      as (e1 & Ha1 & Hno & Hch & _).
    assert (H1 : ip_transp_working w1 = 0).
    { destruct Hch as [E|(Hne & _)]; [congruence|contradiction]. }
    destruct (IH _ _ _ Hrest H1) as (H2 & e2 & Ha2 & Hno2).
    split; [exact H2|].
    exists (e1 ++ e2). split; [exact (appended_trans _ _ _ _ _ Ha1 Ha2)|].
    intros Ht. apply transparent_tried_app in Ht as [Ht|Ht].
    + exact (Hno H0 Ht).
    + exact (Hno2 Ht).
Qed.

Lemma bind_sockets_returns cfg os calls : forall w,
  Forall (fun c => bc_flags c <> 0 -> bc_remote c <> None) calls ->
  exists rs w', bind_sockets cfg os calls w = Some (rs, w').
Proof.
  induction calls as [|c calls IH]; intros w Hok.
  - exists [], w. reflexivity.
  - inversion Hok as [|? ? Hc Hcs]; subst.
    destruct (bind_socket_returns cfg os (bc_fd c) (bc_flags c) (bc_local c)
                (bc_remote c) w Hc) as (r & w1 & Hr).
    destruct (IH w1 Hcs) as (rs & w2 & Hrs).
    exists (r :: rs), w2. simpl.
    rewrite (bind_eq _ _ _ _ _ Hr), (bind_eq _ _ _ _ _ Hrs). reflexivity.
Qed.

(** C8.  The life of the static flag [ip_transp_working].  It is 1 at process
    start.  A call of [tcpv4_bind_socket] either leaves it as it was, or finds
    it non-zero, sees both IP_TRANSPARENT and IP_FREEBIND refused, and sets it
    to 0; a call that sees them refused always leaves it at 0.  From a world
    where it is 0, every sequence of calls leaves it at 0 and requests neither
    option again; so after a call that saw the refusal, no later call attempts
    the direct strategy.  Such sequences do return, as long as every call with
    non-zero [flags] is given a [remote]. *)
Theorem ip_transp_working_lifecycle cfg os :
  (forall ls m, ip_transp_working (start ls m) = 1)
  /\ (forall c w r w1,
        tcpv4_bind_socket cfg os (bc_fd c) (bc_flags c) (bc_local c)
          (bc_remote c) w = Some (r, w1) ->
        exists evs, appended w w1 evs
          /\ (ip_transp_working w1 = ip_transp_working w
              \/ (ip_transp_working w <> 0 /\ ip_transp_working w1 = 0
                  /\ transparent_refused (bc_fd c) evs))
          /\ (transparent_refused (bc_fd c) evs -> ip_transp_working w1 = 0))
  /\ (forall calls w rs w',
        bind_sockets cfg os calls w = Some (rs, w') ->
        ip_transp_working w = 0 ->
        ip_transp_working w' = 0
        /\ exists evs, appended w w' evs /\ ~ transparent_tried evs)
  /\ (forall c calls w r w1 evs1 rs w2,
        tcpv4_bind_socket cfg os (bc_fd c) (bc_flags c) (bc_local c)
          (bc_remote c) w = Some (r, w1) ->
        appended w w1 evs1 ->
        transparent_refused (bc_fd c) evs1 ->
        bind_sockets cfg os calls w1 = Some (rs, w2) ->
        ip_transp_working w2 = 0
        /\ exists evs2, appended w1 w2 evs2 /\ ~ transparent_tried evs2)
  /\ (forall calls w,
        Forall (fun c => bc_flags c <> 0 -> bc_remote c <> None) calls ->
        exists rs w', bind_sockets cfg os calls w = Some (rs, w')).
Proof.
  split; [reflexivity|]. split; [|split; [|split]].
  - intros c w r w1 Hc.
    destruct (bind_socket_flag _ _ _ _ _ _ _ _ _ Hc) as (e & Ha & _ & Hch & Hr).
    exists e. auto.
  - intros calls w rs w'. apply bind_sockets_disabled.
  - intros c calls w r w1 evs1 rs w2 Hc Ha Href Hrun.
    destruct (bind_socket_flag _ _ _ _ _ _ _ _ _ Hc) as (e & Ha' & _ & _ & Hr).
    rewrite (appended_inj _ _ _ _ Ha Ha') in Href.
    exact (bind_sockets_disabled _ _ _ _ _ _ Hrun (Hr Href)).
  - intros calls w. apply bind_sockets_returns.
Qed.

(** A run of the above: the first call sees both options refused, the second
    one does not ask again. *)
Example refused_once :
  bind_sockets Sample.cfg_linux Sample.os_no_transparent
    [Sample.foreign_call; Sample.foreign_call] (start ∅ 1024)
  = Some ([2; 2],
          set_ip_transp_working 0
            (set_trace
               [Called (sys_setsockopt 3 IP_TRANSPARENT) (-1);
                Called (sys_setsockopt 3 IP_FREEBIND) (-1);
                Called (sys_setsockopt 3 SO_REUSEADDR) 0;
                Called (sys_bind 3 (Sa_in Sample.local_addr) 16) 0;
                Called (sys_setsockopt 3 SO_REUSEADDR) 0;
                Called (sys_bind 3 (Sa_in Sample.local_addr) 16) 0]
               (start ∅ 1024))).
Proof. reflexivity. Qed.

(** ** tcpv4_add_listener, tcpv6_add_listener *)

Lemma int_incr_small x : - 2 ^ 31 <= x < INT_MAX -> int_incr x = x + 1.
Proof.
  unfold int_incr, INT_MAX. intros H.
  rewrite Z.mod_small by lia. lia.
Qed.

Lemma add_listener_skip f listener w l :
  listeners w !! listener = Some l ->
  l_state l <> LI_INIT ->
  add_listener f listener w = Some (tt, w).
Proof.
  intros Hl Hst. unfold add_listener, bind, load_listener. rewrite Hl.
  rewrite bool_decide_eq_false_2 by exact Hst. reflexivity.
Qed.

Lemma add_listener_init f listener w l :
  listeners w !! listener = Some l ->
  l_state l = LI_INIT ->
  add_listener f listener w = Some (tt, added f listener l w).
Proof.
  intros Hl Hst. unfold add_listener, bind, load_listener. rewrite Hl.
  rewrite bool_decide_eq_true_2 by exact Hst.
  destruct f, w; reflexivity.
Qed.

Lemma add_listener_returns f listener w l :
  listeners w !! listener = Some l ->
  exists w', add_listener f listener w = Some (tt, w')
    /\ exists l', listeners w' !! listener = Some l' /\ l_state l' <> LI_INIT.
Proof.
  intros Hl. destruct (decide (l_state l = LI_INIT)) as [E|E].
  - exists (added f listener l w). split; [exact (add_listener_init _ _ _ _ Hl E)|].
    exists (set_assigned f l). split; [|discriminate].
    destruct f; simpl; apply lookup_insert_eq.
  - exists w. split; [exact (add_listener_skip _ _ _ _ Hl E)|].
    exists l. auto.
Qed.

Lemma registered_added f p l w :
  registered (added f p l w) ≡ₚ p :: registered w.
Proof.
  unfold registered. destruct f; simpl.
  - rewrite <- app_assoc. rewrite (Permutation_app_comm [p]).
    rewrite app_assoc. symmetry. apply Permutation_cons_append.
  - rewrite app_assoc. symmetry. apply Permutation_cons_append.
Qed.

Lemma listeners_added f p l w :
  listeners (added f p l w) = <[p := set_assigned f l]> (listeners w).
Proof. destruct f; reflexivity. Qed.

Lemma count_ok_incr (pr : protocol) p :
  count_ok pr ->
  count_ok {| p_listeners := p_listeners pr ++ [p];
              p_nb_listeners := int_incr (p_nb_listeners pr) |}.
Proof.
  unfold count_ok. simpl. rewrite length_app. simpl. intros Hc Hlen.
  rewrite Hc by lia. rewrite int_incr_small; unfold INT_MAX in *; lia.
Qed.

Lemma add_listener_keeps f p w w' :
  registries_ok w ->
  add_listener f p w = Some (tt, w') ->
  registries_ok w'.
Proof.
  intros (Hnd & Hst & Hc4 & Hc6) Hrun.
  destruct (listeners w !! p) as [l|] eqn:Hl.
  2:{ unfold add_listener, bind, load_listener in Hrun. rewrite Hl in Hrun.
      discriminate. }
  destruct (decide (l_state l = LI_INIT)) as [E|E].
  2:{ rewrite (add_listener_skip _ _ _ _ Hl E) in Hrun.
      injection Hrun as <-. repeat split; assumption. }
  rewrite (add_listener_init _ _ _ _ Hl E) in Hrun. injection Hrun as <-.
  assert (Hfresh : p ∉ registered w).
  { intros Hin. destruct (Hst p Hin) as (l' & Hl' & Hne). congruence. }
  split; [|split; [|split]].
  - rewrite registered_added. apply NoDup_cons. split; assumption.
  - intros q Hq. rewrite registered_added in Hq. rewrite listeners_added.
    destruct (decide (q = p)) as [->|Hqp].
    + exists (set_assigned f l). split; [apply lookup_insert_eq|discriminate].
    + apply elem_of_cons in Hq as [Hq|Hq]; [contradiction|].
      destruct (Hst q Hq) as (l' & Hl' & Hne). exists l'.
      split; [|exact Hne]. rewrite lookup_insert_ne by congruence. exact Hl'.
  - destruct f; simpl; [apply count_ok_incr|]; assumption.
  - destruct f; simpl; [|apply count_ok_incr]; assumption.
Qed.

Lemma add_listeners_keep calls : forall w w',
  registries_ok w ->
  add_listeners calls w = Some (tt, w') ->
  registries_ok w'.
Proof.
  induction calls as [|c calls IH]; intros w w' Hok Hrun.
  - injection Hrun as <-. exact Hok.
  - simpl in Hrun. apply bind_Some in Hrun as ([] & w1 & Hc & Hrun).
    apply (IH w1 w'); [|exact Hrun].
    destruct c; exact (add_listener_keeps _ _ _ _ Hok Hc).
Qed.

Lemma registries_ok_start ls m : registries_ok (start ls m).
Proof.
  repeat split.
  - apply NoDup_nil_2.
  - intros p Hp. apply elem_of_nil in Hp. contradiction.
Qed.

Lemma add_listener_dom f p w w' :
  add_listener f p w = Some (tt, w') ->
  forall q, is_Some (listeners w !! q) -> is_Some (listeners w' !! q).
Proof.
  intros Hrun q Hq.
  destruct (listeners w !! p) as [l|] eqn:Hl.
  2:{ unfold add_listener, bind, load_listener in Hrun. rewrite Hl in Hrun.
      discriminate. }
  destruct (decide (l_state l = LI_INIT)) as [E|E].
  - rewrite (add_listener_init _ _ _ _ Hl E) in Hrun. injection Hrun as <-.
    rewrite listeners_added. rewrite lookup_insert.
    destruct (decide (p = q)); [eexists; reflexivity|exact Hq].
  - rewrite (add_listener_skip _ _ _ _ Hl E) in Hrun.
    injection Hrun as <-. exact Hq.
Qed.

Lemma add_listeners_return calls : forall w,
  Forall (fun c => is_Some (listeners w !! call_target c)) calls ->
  exists w', add_listeners calls w = Some (tt, w').
Proof.
  induction calls as [|c calls IH]; intros w Hok.
  - exists w. reflexivity.
  - inversion Hok as [|? ? [l Hl] Hcs]; subst.
    assert (Hstep : exists w1, run_add c w = Some (tt, w1)).
    { destruct c; simpl in Hl;
        [ destruct (add_listener_returns TCPv4 _ _ _ Hl) as (w1 & H1 & _)
        | destruct (add_listener_returns TCPv6 _ _ _ Hl) as (w1 & H1 & _) ];
        exists w1; exact H1. }
    destruct Hstep as (w1 & H1).
    destruct (IH w1) as (w' & Hw').
    { eapply Forall_impl; [exact Hcs|]. intros c' Hc'. simpl in Hc'.
      destruct c; exact (add_listener_dom _ _ _ _ H1 _ Hc'). }
    exists w'. simpl. rewrite (bind_eq _ _ _ _ _ H1). exact Hw'.
Qed.

Lemma run_add_claims c w w1 :
  run_add c w = Some (tt, w1) ->
  exists l', listeners w1 !! call_target c = Some l' /\ l_state l' <> LI_INIT.
Proof.
  intros Hrun.
  assert (Hl : is_Some (listeners w !! call_target c)).
  { destruct (listeners w !! call_target c) eqn:Hl; [eexists; reflexivity|].
    destruct c; simpl in *;
      unfold tcpv4_add_listener, tcpv6_add_listener, add_listener, bind,
        load_listener in Hrun;
      rewrite Hl in Hrun; discriminate. }
  destruct Hl as [l Hl].
  destruct c; simpl in *;
    [ destruct (add_listener_returns TCPv4 _ _ _ Hl) as (w' & H1 & H2)
    | destruct (add_listener_returns TCPv6 _ _ _ Hl) as (w' & H1 & H2) ];
    unfold tcpv4_add_listener, tcpv6_add_listener in Hrun;
    rewrite H1 in Hrun; injection Hrun as <-; exact H2.
Qed.

(** C7.  The state guard of the two registration functions.
    (1) On a listener that is not in INIT state either function returns with
    the world untouched.  (2) On a listener in INIT state it sets the state to
    ASSIGNED and the protocol pointer to its own entry, links the listener at
    the tail of that entry's list and adds one to that entry's count (an
    [int]: the sum is exact below INT_MAX); the other entry, the other
    listeners, the descriptor table and the trace stay as they were.
    (3) A second call on the same listener, through either function, changes
    nothing.  (4) After any sequence of calls from process start no listener
    is linked twice, in one list or across the two, every linked listener is
    past INIT, and each count is the length of its list.  (5) Such a sequence
    returns whenever its arguments point to listeners. *)
Theorem add_listener_state_guard :
  (forall c w l,
      listeners w !! call_target c = Some l -> l_state l <> LI_INIT ->
      run_add c w = Some (tt, w))
  /\ (forall w p l,
      listeners w !! p = Some l -> l_state l = LI_INIT ->
      tcpv4_add_listener p w = Some (tt, added TCPv4 p l w)
      /\ tcpv6_add_listener p w = Some (tt, added TCPv6 p l w)
      /\ forall f,
           (exists l', listeners (added f p l w) !! p = Some l'
                       /\ l_state l' = LI_ASSIGNED /\ l_proto l' = Some f)
           /\ p_listeners (get_proto f (added f p l w))
              = p_listeners (get_proto f w) ++ [p]
           /\ (- 2 ^ 31 <= p_nb_listeners (get_proto f w) < INT_MAX ->
               p_nb_listeners (get_proto f (added f p l w))
               = p_nb_listeners (get_proto f w) + 1)
           /\ (forall g, g <> f -> get_proto g (added f p l w) = get_proto g w)
           /\ (forall q, q <> p ->
               listeners (added f p l w) !! q = listeners w !! q)
           /\ trace (added f p l w) = trace w
           /\ fdtab (added f p l w) = fdtab w)
  /\ (forall c1 c2 w w1,
      call_target c1 = call_target c2 ->
      run_add c1 w = Some (tt, w1) ->
      run_add c2 w1 = Some (tt, w1))
  /\ (forall calls ls m w',
      add_listeners calls (start ls m) = Some (tt, w') ->
      registries_ok w')
  /\ (forall calls w,
      Forall (fun c => is_Some (listeners w !! call_target c)) calls ->
      exists w', add_listeners calls w = Some (tt, w')).
Proof.
  split; [|split; [|split; [|split]]].
  - intros c w l Hl Hst. destruct c; exact (add_listener_skip _ _ _ _ Hl Hst).
  - intros w p l Hl Hst.
    split; [exact (add_listener_init TCPv4 _ _ _ Hl Hst)|].
    split; [exact (add_listener_init TCPv6 _ _ _ Hl Hst)|].
    intros f. split; [|split; [|split; [|split; [|split; [|split]]]]].
    + exists (set_assigned f l). rewrite listeners_added.
      split; [apply lookup_insert_eq|split; reflexivity].
    + destruct f; reflexivity.
    + intros Hr. rewrite <- (int_incr_small _ Hr). destruct f; reflexivity.
    + intros g Hg. destruct f, g; try reflexivity; contradiction.
    + intros q Hq. rewrite listeners_added. apply lookup_insert_ne. congruence.
    + destruct f; reflexivity.
    + destruct f; reflexivity.
  - intros c1 c2 w w1 Ht Hrun.
    destruct (run_add_claims _ _ _ Hrun) as (l' & Hl' & Hst).
    rewrite Ht in Hl'.
    destruct c2; exact (add_listener_skip _ _ _ _ Hl' Hst).
  - intros calls ls m w' Hrun.
    exact (add_listeners_keep _ _ _ (registries_ok_start ls m) Hrun).
  - intros calls w. apply add_listeners_return.
Qed.

(** A run of the above: listener 0 goes to the IPv4 entry and stays there,
    listener 1 to the IPv6 entry. *)
Example add_twice :
  match add_listeners [Add4 0%nat; Add6 0%nat; Add6 1%nat; Add4 1%nat; Add4 0%nat]
          Sample.w_init with
  | Some (_, w') =>
      (p_listeners (proto_tcpv4 w'), p_nb_listeners (proto_tcpv4 w'),
       p_listeners (proto_tcpv6 w'), p_nb_listeners (proto_tcpv6 w'),
       l_state <$> listeners w' !! 0%nat, l_proto <$> listeners w' !! 1%nat)
  | None => ([], 0, [], 0, None, None)
  end
  = ([0%nat], 1, [1%nat], 1, Some LI_ASSIGNED, Some (Some TCPv6)).
Proof. reflexivity. Qed.

(** ** tcp_bind_listener on an ASSIGNED listener *)

Lemma tcp_return_ok errmsg errlen msg err w :
  errmsg <> None \/ errlen = 0%nat ->
  exists buf,
    tcp_return (clear_errmsg errmsg errlen) errlen msg err w
    = Some ((err, buf), w).
Proof.
  intros Hpre. unfold tcp_return, clear_errmsg, ret, fault.
  destruct msg as [m|]; [|eexists; reflexivity].
  destruct errlen as [|n]; simpl.
  - eexists; reflexivity.
  - destruct errmsg as [s|]; [eexists; reflexivity|].
    destruct Hpre as [H|H]; [contradiction|discriminate].
Qed.

Ltac use_hyps :=
  repeat match goal with
  | H : ?b = true |- context [?b] => rewrite H
  | H : ?b = false |- context [?b] => rewrite H
  end.

Lemma wp_ret {A} (a : A) w Q : Q a w -> wp (ret a) w Q.
Proof. intros H. exists a, w. split; [reflexivity|exact H]. Qed.

Lemma wp_bind {A B} (m : M A) (k : A -> M B) w Q :
  wp m w (fun a w1 => wp (k a) w1 Q) -> wp (bind m k) w Q.
Proof.
  intros (a & w1 & Hm & b & w2 & Hk & HQ). exists b, w2.
  split; [|exact HQ]. unfold bind. rewrite Hm. exact Hk.
Qed.

Lemma wp_sys os c w Q :
  (forall v, Q v (set_trace (trace w ++ [Called c v]) w)) -> wp (sys os c) w Q.
Proof. intros H. eexists _, _. split; [reflexivity|apply H]. Qed.

Lemma wp_get w Q : Q w w -> wp get w Q.
Proof. intros H. exists w, w. split; [reflexivity|exact H]. Qed.

Lemma wp_modify f w (Q : unit -> world -> Prop) : Q tt (f w) -> wp (modify f) w Q.
Proof. intros H. eexists _, _. split; [reflexivity|exact H]. Qed.

Lemma wp_tcp_return errmsg errlen msg err w (Q : Z * option string -> world -> Prop) :
  errmsg <> None \/ errlen = 0%nat ->
  (forall buf, Q (err, buf) w) ->
  wp (tcp_return (clear_errmsg errmsg errlen) errlen msg err) w Q.
Proof.
  intros Hpre H. destruct (tcp_return_ok errmsg errlen msg err w Hpre) as [buf Hb].
  eexists _, _. split; [exact Hb|apply H].
Qed.

Ltac wstep Hpre :=
  lazymatch goal with
  | |- wp (bind _ _) _ _ => apply wp_bind
  | |- wp (sys _ _) _ _ => apply wp_sys; intros ?v
  | |- wp get _ _ => apply wp_get
  | |- wp (modify _) _ _ => apply wp_modify
  | |- wp (ret _) _ _ => apply wp_ret
  | |- wp (tcp_return _ _ _ _) _ _ => apply (wp_tcp_return _ _ _ _ _ _ Hpre); intros ?buf
  | |- wp (if ?b then _ else _) _ _ => destruct b eqn:?
  end; cbv beta;
  unfold set_trace, set_listeners, set_fdtab;
  cbn [trace listeners fdtab proto_tcpv4 proto_tcpv6 ip_transp_working maxsock];
  rewrite <- ?app_assoc; cbn [app].

Ltac leaf :=
  repeat split; cbn [closes all_closes]; rewrite ?Z.eqb_refl; use_hyps;
  first [ reflexivity
        | apply Z.eqb_eq; assumption
        | apply Z.eqb_neq; assumption
        | in_list ].

Lemma wlp_ret {A} (a : A) w (Q : A -> world -> Prop) : Q a w -> wlp (ret a) w Q.
Proof. intros H a' w' [= <- <-]. exact H. Qed.

Lemma wlp_fault {A} w (Q : A -> world -> Prop) : wlp fault w Q.
Proof. intros a w' H. discriminate H. Qed.

Lemma wlp_bind {A B} (m : M A) (k : A -> M B) w Q :
  wlp m w (fun a w1 => wlp (k a) w1 Q) -> wlp (bind m k) w Q.
Proof.
  intros H b w2 Hrun. apply bind_Some in Hrun as (a & w1 & Hm & Hk).
  exact (H a w1 Hm b w2 Hk).
Qed.

Lemma wlp_sys os c w Q :
  (forall v, Q v (set_trace (trace w ++ [Called c v]) w)) -> wlp (sys os c) w Q.
Proof. intros H a w' [= <- <-]. apply H. Qed.

Lemma wlp_get w Q : Q w w -> wlp get w Q.
Proof. intros H a w' [= <- <-]. exact H. Qed.

Lemma wlp_modify f w (Q : unit -> world -> Prop) :
  Q tt (f w) -> wlp (modify f) w Q.
Proof. intros H a w' [= <- <-]. exact H. Qed.

Lemma wlp_load p w Q :
  (forall l, listeners w !! p = Some l -> Q l w) -> wlp (load_listener p) w Q.
Proof.
  intros H a w'. unfold load_listener.
  destruct (listeners w !! p) as [l|]; [|discriminate].
  intros [= <- <-]. exact (H l eq_refl).
Qed.

Lemma wlp_tcp_return errmsg errlen msg err w
    (Q : Z * option string -> world -> Prop) :
  (forall buf, Q (err, buf) w) ->
  wlp (tcp_return errmsg errlen msg err) w Q.
Proof.
  intros H a w'. unfold tcp_return, ret, fault.
  destruct msg; [destruct (0 <? errlen)%nat; [destruct errmsg|]|].
  all: try discriminate.
  all: intros [= <- <-]; apply H.
Qed.

Ltac lstep :=
  lazymatch goal with
  | |- wlp (bind _ _) _ _ => apply wlp_bind
  | |- wlp (sys _ _) _ _ => apply wlp_sys; intros ?v
  | |- wlp get _ _ => apply wlp_get
  | |- wlp (modify _) _ _ => apply wlp_modify
  | |- wlp (ret _) _ _ => apply wlp_ret
  | |- wlp fault _ _ => apply wlp_fault
  | |- wlp (load_listener _) _ _ => apply wlp_load; intros ?l ?Hl
  | |- wlp (tcp_return _ _ _ _) _ _ => apply wlp_tcp_return; intros ?buf
  | |- wlp (if ?b then _ else _) _ _ => destruct b eqn:?
  | |- wlp (match ?o with Some _ => _ | None => _ end) _ _ => destruct o eqn:?
  end; cbv beta;
  unfold set_trace, set_listeners, set_fdtab;
  cbn [trace listeners fdtab proto_tcpv4 proto_tcpv6 ip_transp_working maxsock];
  rewrite <- ?app_assoc; cbn [app].

(** A run on an ASSIGNED listener returns, given a protocol pointer and a
    buffer for the message. *)
Lemma bind_listener_returns cfg os p errmsg errlen w l :
  listeners w !! p = Some l ->
  l_state l = LI_ASSIGNED ->
  is_Some (l_proto l) ->
  errmsg <> None \/ errlen = 0%nat ->
  wp (tcp_bind_listener cfg os p errmsg errlen) w (fun _ _ => True).
Proof.
  intros Hl Hst [pr Hpr] Hpre.
  unfold tcp_bind_listener.
  apply wp_bind. eexists l, _.
  split; [unfold load_listener; rewrite Hl; reflexivity|].
  rewrite bool_decide_eq_true_2 by exact Hst. rewrite Hpr.
  unfold tcp_close_return, deref, fd_insert, store_listener. cbn [negb].
  repeat wstep Hpre.
  all: exact I.
Qed.

(** Whenever a run on an ASSIGNED listener returns, it leaves [bound_post]. *)
Lemma bind_listener_post cfg os p errmsg errlen w l :
  listeners w !! p = Some l ->
  l_state l = LI_ASSIGNED ->
  wlp (tcp_bind_listener cfg os p errmsg errlen) w
      (fun rb w' => bound_post w p l (fst rb) w').
Proof.
  intros Hl Hst.
  unfold tcp_bind_listener. destruct w as [tr ls ft p4 p6 flag ms].
  apply wlp_bind. apply wlp_load. intros l' Hl'.
  assert (l' = l) as -> by congruence.
  rewrite bool_decide_eq_true_2 by exact Hst.
  unfold tcp_close_return, deref, fd_insert, store_listener. cbn [negb].
  repeat lstep.
  all: unfold bound_post, appended;
       cbn [fst trace listeners fdtab proto_tcpv4 proto_tcpv6
            ip_transp_working maxsock].
  all: eexists _, _; split; [reflexivity|].
  all: repeat match goal with
       | |- context [?x =? -1] =>
           lazymatch goal with
           | H : (x =? -1) = _ |- _ => fail
           | _ => destruct (x =? -1) eqn:?
           end
       end.
  all: split; [unfold bind_code, refused; cbn; use_hyps; cbn; reflexivity|].
  all: do 4 (split; [reflexivity|]).
  all: solve [ left; leaf | right; left; leaf | right; right; leaf ].
Qed.

Lemma bind_code_cases ms s fd evs :
  let E := Called (sys_socket s) fd :: evs in
  (fd = -1 -> bind_code ms E = Z.lor ERR_RETRYABLE ERR_ALERT)
  /\ (fd <> -1 -> ms <= fd ->
      bind_code ms E = Z.lor (Z.lor ERR_FATAL ERR_ABORT) ERR_ALERT)
  /\ (fd <> -1 -> fd < ms ->
      refused is_fcntl E || refused is_nodelay E = true ->
      bind_code ms E = Z.lor ERR_FATAL ERR_ALERT)
  /\ (fd <> -1 -> fd < ms ->
      refused is_fcntl E || refused is_nodelay E = false ->
      refused is_bind E || refused is_listen E = true ->
      bind_code ms E = Z.lor ERR_RETRYABLE ERR_ALERT)
  /\ (fd <> -1 -> fd < ms ->
      refused is_fcntl E || refused is_nodelay E = false ->
      refused is_bind E || refused is_listen E = false ->
      bind_code ms E
      = if refused is_reuseaddr E
           || (refused is_transparent E && refused is_freebind E)
        then ERR_ALERT else ERR_NONE).
Proof.
  intros E. unfold bind_code. subst E. cbv beta iota.
  repeat split.
  - intros ->. reflexivity.
  - intros Hne Hge. apply Z.eqb_neq in Hne. rewrite Hne.
    rewrite Z.geb_leb. apply Z.leb_le in Hge. rewrite Hge. reflexivity.
  - intros Hne Hlt ->. apply Z.eqb_neq in Hne. rewrite Hne.
    rewrite Z.geb_leb. apply Z.leb_gt in Hlt. rewrite Hlt. reflexivity.
  - intros Hne Hlt -> ->. apply Z.eqb_neq in Hne. rewrite Hne.
    rewrite Z.geb_leb. apply Z.leb_gt in Hlt. rewrite Hlt.
    destruct (_ || _); reflexivity.
  - intros Hne Hlt -> ->. apply Z.eqb_neq in Hne. rewrite Hne.
    rewrite Z.geb_leb. apply Z.leb_gt in Hlt. rewrite Hlt.
    destruct (_ || _); reflexivity.
Qed.

(** C2.  Take a run of [tcp_bind_listener] on an ASSIGNED listener.  It
    returns whenever the listener has its protocol pointer and a message
    buffer comes with a non-zero [errlen].  Whenever it returns, it has first
    called [socket]; and if that call gave a descriptor [fd], then either the
    code returned reports a failure (RETRYABLE or FATAL is set), and the run
    called [close(fd)] exactly once, called [close] on nothing else, and left
    the listener and [fdtab] as they were; or the code reports no failure,
    the run called [close] not at all, and the listener now holds [fd] and is
    in LISTEN state, with [fd] registered in [fdtab].  If [socket] failed
    there is nothing to close and nothing is closed. *)
Theorem tcp_bind_listener_closes_on_failure cfg os p errmsg errlen w l :
  listeners w !! p = Some l ->
  l_state l = LI_ASSIGNED ->
  (is_Some (l_proto l) -> errmsg <> None \/ errlen = 0%nat ->
   exists r buf w',
     tcp_bind_listener cfg os p errmsg errlen w = Some ((r, buf), w'))
  /\ forall r buf w',
      tcp_bind_listener cfg os p errmsg errlen w = Some ((r, buf), w') ->
      exists fd evs,
        appended w w' (Called (sys_socket (ss_family (l_addr l))) fd :: evs)
        /\ (fd = -1 -> all_closes evs = 0%nat /\ is_failure r = true
                       /\ listeners w' = listeners w /\ fdtab w' = fdtab w)
        /\ (fd <> -1 ->
            (is_failure r = true
             /\ closes fd evs = 1%nat /\ all_closes evs = 1%nat
             /\ listeners w' = listeners w /\ fdtab w' = fdtab w)
            \/ (is_failure r = false
                /\ all_closes evs = 0%nat
                /\ listeners w' !! p = Some (set_listening fd l)
                /\ l_fd (set_listening fd l) = fd
                /\ l_state (set_listening fd l) = LI_LISTEN
                /\ fdtab w' !! fd = Some (listening_entry p l))).
Proof.
  intros Hl Hst. split.
  - intros Hpr Hpre.
    destruct (bind_listener_returns cfg os p errmsg errlen w l Hl Hst Hpr Hpre)
      as ([r buf] & w' & Hrun & _).
    exists r, buf, w'. exact Hrun.
  - intros r buf w' Hrun.
    destruct (bind_listener_post cfg os p errmsg errlen w l Hl Hst _ _ Hrun)
      as (fd & evs & Happ & _ & _ & _ & _ & _ & Hcase).
    exists fd, evs. cbn [fst] in Hcase.
    split; [exact Happ|]. split.
    + intros Hfd.
      destruct Hcase as [(_ & -> & Hf & Hls & Hft)
                        |[(Hne & _)|(Hne & _)]]; try contradiction.
      repeat split; assumption.
    + intros Hfd.
      destruct Hcase as [(He & _)
                        |[(_ & Hf & Hc & Hac & Hls & Hft)
                         |(_ & Hf & Hac & Hls & Hft & _)]]; [contradiction| |].
      * left. repeat split; assumption.
      * right. rewrite Hls, Hft.
        repeat split; try assumption; apply lookup_insert_eq.
Qed.

Lemma tcp_bind_listener_closes_on_failure_witness :
  exists r buf w',
    tcp_bind_listener Sample.cfg_plain Sample.os_first_too_big 0 None 0
      Sample.w_two = Some ((r, buf), w').
Proof.
  apply (tcp_bind_listener_closes_on_failure Sample.cfg_plain
           Sample.os_first_too_big 0 None 0 Sample.w_two
           (Sample.mk_listener LI_ASSIGNED 0 (Some TCPv4))).
  - reflexivity.
  - reflexivity.
  - eexists; reflexivity.
  - right; reflexivity.
Defined.

(** C4 (as amended).  How a run of [tcp_bind_listener] on an ASSIGNED listener
    classifies what went wrong.  The run returns whenever the listener has its
    protocol pointer and a message buffer comes with a non-zero [errlen].
    Whenever it returns, with [E] the calls it made: a failed [socket] gives
    RETRYABLE|ALERT; a descriptor at or above [global.maxsock] gives
    FATAL|ABORT|ALERT; a failed [fcntl] or TCP_NODELAY gives FATAL|ALERT; past
    these, a failed [bind] or [listen] gives RETRYABLE|ALERT; and when none of
    these failed the code is ALERT if SO_REUSEADDR failed (or both
    IP_TRANSPARENT and IP_FREEBIND did, for a foreign listener) and NONE
    otherwise, and the listener is in LISTEN state.  The results of SO_LINGER
    and SO_REUSEPORT do not enter the code: a run in which one of them failed
    and nothing else did returns NONE. *)
Theorem tcp_bind_listener_classification cfg os p errmsg errlen w l :
  listeners w !! p = Some l ->
  l_state l = LI_ASSIGNED ->
  (is_Some (l_proto l) -> errmsg <> None \/ errlen = 0%nat ->
   exists r buf w',
     tcp_bind_listener cfg os p errmsg errlen w = Some ((r, buf), w'))
  /\ forall r buf w',
      tcp_bind_listener cfg os p errmsg errlen w = Some ((r, buf), w') ->
      exists fd evs,
        let E := Called (sys_socket (ss_family (l_addr l))) fd :: evs in
        appended w w' E
        /\ r = bind_code (maxsock w) E
        /\ (fd = -1 -> r = Z.lor ERR_RETRYABLE ERR_ALERT)
        /\ (fd <> -1 -> maxsock w <= fd ->
            r = Z.lor (Z.lor ERR_FATAL ERR_ABORT) ERR_ALERT)
        /\ (fd <> -1 -> fd < maxsock w ->
            refused is_fcntl E || refused is_nodelay E = true ->
            r = Z.lor ERR_FATAL ERR_ALERT)
        /\ (fd <> -1 -> fd < maxsock w ->
            refused is_fcntl E || refused is_nodelay E = false ->
            refused is_bind E || refused is_listen E = true ->
            r = Z.lor ERR_RETRYABLE ERR_ALERT)
        /\ (fd <> -1 -> fd < maxsock w ->
            refused is_fcntl E || refused is_nodelay E = false ->
            refused is_bind E || refused is_listen E = false ->
            r = (if refused is_reuseaddr E
                    || (refused is_transparent E && refused is_freebind E)
                 then ERR_ALERT else ERR_NONE)
            /\ listeners w' !! p = Some (set_listening fd l))
        /\ (refused is_linger E = true \/ refused is_reuseport E = true ->
            fd <> -1 -> fd < maxsock w ->
            refused is_fcntl E || refused is_nodelay E = false ->
            refused is_bind E || refused is_listen E = false ->
            refused is_reuseaddr E
              || (refused is_transparent E && refused is_freebind E) = false ->
            r = ERR_NONE).
Proof.
  intros Hl Hst. split.
  - intros Hpr Hpre.
    destruct (bind_listener_returns cfg os p errmsg errlen w l Hl Hst Hpr Hpre)
      as ([r buf] & w' & Hrun & _).
    exists r, buf, w'. exact Hrun.
  - intros r buf w' Hrun.
    destruct (bind_listener_post cfg os p errmsg errlen w l Hl Hst _ _ Hrun)
      as (fd & evs & Happ & Hr & _ & _ & _ & _ & Hcase).
    exists fd, evs. cbv zeta. cbn [fst] in Hr, Hcase.
    destruct (bind_code_cases (maxsock w) (ss_family (l_addr l)) fd evs)
      as (C1 & C2 & C3 & C4 & C5).
    split; [exact Happ|]. split; [exact Hr|].
    rewrite Hr. repeat split; try assumption.
    + apply C5; assumption.
    + destruct Hcase as [(He & _)|[(_ & Hf & _)|(_ & _ & _ & Hls & _)]].
      * contradiction.
      * rewrite Hr, C5 in Hf by assumption.
        destruct (_ || _); discriminate.
      * rewrite Hls. apply lookup_insert_eq.
    + intros _ Hne Hlt Hnb Hbl Hre. rewrite C5 by assumption.
      rewrite Hre. reflexivity.
Qed.

Lemma tcp_bind_listener_classification_witness :
  exists r buf w',
    tcp_bind_listener Sample.cfg_plain Sample.os_no_linger 0 None 0
      Sample.w_nolinger = Some ((r, buf), w').
Proof.
  apply (tcp_bind_listener_classification Sample.cfg_plain
           Sample.os_no_linger 0 None 0 Sample.w_nolinger
           (Sample.mk_listener LI_ASSIGNED LI_O_NOLINGER (Some TCPv4))).
  - reflexivity.
  - reflexivity.
  - eexists; reflexivity.
  - right; reflexivity.
Defined.

(** C4 (as stated) fails: a listener with the no-linger option, a kernel that
    refuses SO_LINGER and nothing else.  The failure sets no flag: the run
    returns NONE, not ALERT, with the listener in LISTEN state. *)
Lemma linger_failure_not_reported :
  match tcp_bind_listener Sample.cfg_plain Sample.os_no_linger 0 None 0
          Sample.w_nolinger with
  | Some ((r, _), w') => (r, trace w', l_state <$> listeners w' !! 0%nat)
  | None => (-1, [], None)
  end
  = (ERR_NONE,
     [Called (sys_socket 2) 3;
      Called (sys_fcntl_nonblock 3) 0;
      Called (sys_setsockopt 3 TCP_NODELAY) 0;
      Called (sys_setsockopt 3 SO_REUSEADDR) 0;
      Called (sys_setsockopt 3 SO_LINGER) (-1);
      Called (sys_bind 3 (Sa_storage Sample.addr80) 16) 0;
      Called (sys_listen 3 100) 0;
      Fd_insert 3],
     Some LI_LISTEN)
  /\ ERR_NONE <> ERR_ALERT.
Proof. split; [reflexivity|discriminate]. Qed.

(** ** tcp_bind_listeners *)

(** Whenever [tcp_bind_listener] returns, it returns one of five codes. *)
Lemma bind_listener_codes cfg os p errmsg errlen w :
  wlp (tcp_bind_listener cfg os p errmsg errlen) w
      (fun rb _ => listener_code (fst rb)).
Proof.
  unfold tcp_bind_listener, tcp_close_return, deref, fd_insert, store_listener.
  repeat lstep.
  all: cbn [fst]; unfold listener_code.
  all: repeat match goal with
       | |- context [if ?b then _ else _] => destruct b
       end.
  all: cbn; tauto.
Qed.

Lemma abort_with_fatal_lor err r :
  abort_with_fatal err -> listener_code r -> abort_with_fatal (Z.lor err r).
Proof.
  unfold abort_with_fatal. intros He Hr. rewrite !Z.lor_spec.
  destruct Hr as [->|[->|[->|[->| ->]]]]; cbn;
    rewrite ?orb_false_r, ?orb_true_r; auto.
Qed.

Lemma no_break mask err :
  Z.land mask ERR_FATAL = ERR_FATAL ->
  abort_with_fatal err ->
  (Z.land err mask =? ERR_ABORT) = false.
Proof.
  intros Hm He. apply Z.eqb_neq. intros Heq.
  assert (H2 : Z.testbit (Z.land err mask) 2 = true) by (rewrite Heq; reflexivity).
  assert (H1 : Z.testbit (Z.land err mask) 1 = false) by (rewrite Heq; reflexivity).
  rewrite Z.land_spec in H1, H2.
  apply andb_true_iff in H2 as [H2 _].
  rewrite (He H2) in H1.
  assert (Hb : Z.testbit (Z.land mask ERR_FATAL) 1 = true) by (rewrite Hm; reflexivity).
  rewrite Z.land_spec in Hb. apply andb_true_iff in Hb as [Hb _].
  rewrite Hb in H1. discriminate H1.
Qed.

(** When the mask [ERR_CODE] has the FATAL bit, the [break] of the batch loop
    is dead code: on every list, from every world and under every kernel the
    loop is the loop without it. *)
Lemma bind_each_never_breaks cfg os mask todo :
  Z.land mask ERR_FATAL = ERR_FATAL ->
  forall err w,
    abort_with_fatal err ->
    bind_each cfg os mask todo err w = bind_every cfg os todo err w.
Proof.
  intros Hm. induction todo as [|p todo IH]; intros err w He; [reflexivity|].
  simpl. unfold bind.
  destruct (tcp_bind_listener cfg os p None 0 w) as [[rb w1]|] eqn:Hrun;
    [|reflexivity].
  pose proof (bind_listener_codes cfg os p None 0%nat w rb w1 Hrun) as Hc.
  cbv beta in Hc.
  pose proof (abort_with_fatal_lor err (fst rb) He Hc) as He'.
  rewrite (no_break mask _ Hm He'). apply IH. exact He'.
Qed.

(** C1 (the code at the failing input).  Two listeners queued in the IPv4
    entry, [ERR_CODE] the mask of the three result flags
    (RETRYABLE|FATAL|ABORT = 7), a kernel whose first descriptor is beyond
    [global.maxsock].  Binding the first listener fails with
    FATAL|ABORT|ALERT; the batch goes on all the same and binds the second,
    which ends in LISTEN state.  And so it is on every input: with a mask
    that has the FATAL bit, [tcp_bind_listeners] is the loop that attempts
    every listener of the entry. *)
Theorem tcp_bind_listeners_goes_on_after_abort :
  match tcp_bind_listeners Sample.cfg_plain Sample.os_first_too_big 7 TCPv4
          Sample.w_two with
  | Some (r, w') =>
      (r, trace w', l_state <$> listeners w' !! 0%nat,
       l_state <$> listeners w' !! 1%nat)
  | None => (-1, [], None, None)
  end
  = (Z.lor (Z.lor ERR_FATAL ERR_ABORT) ERR_ALERT,
     [Called (sys_socket 2) 2000;
      Called (sys_close 2000) 0;
      Called (sys_socket 2) 3;
      Called (sys_fcntl_nonblock 3) 0;
      Called (sys_setsockopt 3 TCP_NODELAY) 0;
      Called (sys_setsockopt 3 SO_REUSEADDR) 0;
      Called (sys_bind 3 (Sa_storage Sample.addr80) 16) 0;
      Called (sys_listen 3 100) 0;
      Fd_insert 3],
     Some LI_ASSIGNED, Some LI_LISTEN)
  /\ forall cfg os mask proto w,
      Z.land mask ERR_FATAL = ERR_FATAL ->
      tcp_bind_listeners cfg os mask proto w
      = bind_every cfg os (p_listeners (get_proto proto w)) ERR_NONE w.
Proof.
  split; [reflexivity|].
  intros cfg os mask proto w Hm. unfold tcp_bind_listeners.
  change (bind get ?k w) with (k w w). cbv beta.
  apply bind_each_never_breaks; [exact Hm|].
  intros H. discriminate H.
Qed.

(** ** tcp_parse_tcp_req *)

Lemma snprintf_written buf size text :
  (0 < size)%nat -> snprintf buf size text = substring 0 (Nat.pred size) text.
Proof.
  intros H. unfold snprintf.
  destruct size; [lia|reflexivity].
Qed.

Lemma is_empty_true s : is_empty s = true <-> s = EmptyString.
Proof. destruct s; simpl; split; congruence. Qed.

Section ParserFacts.

Context {acl_cond acl_table : Type}.
Variable PR_CAP_FE : Z.
Variable proxy_type_str : proxy acl_cond acl_table -> string.
Variable parse_time_err : string -> Z + ascii.
Variable parse_acl_cond :
  list string -> acl_table -> acl_pol -> option acl_cond * acl_table.
Variable the_proxy : proxy acl_cond acl_table.

Abbreviation parse :=
  (tcp_parse_tcp_req PR_CAP_FE proxy_type_str parse_time_err parse_acl_cond
     the_proxy).

Ltac eqb_facts :=
  repeat match goal with
  | H : ?s = EmptyString |- _ =>
      apply is_empty_true in H
  | H : ?s <> EmptyString |- _ =>
      apply (not_iff_compat (is_empty_true s)) in H;
      apply not_true_is_false in H
  | H : @eq string _ _ |- _ => apply String.eqb_eq in H
  | H : not (@eq string _ _) |- _ => apply String.eqb_neq in H
  | H : @eq nat _ _ |- _ => apply Nat.eqb_eq in H
  | H : not (@eq nat _ _) |- _ => apply Nat.eqb_neq in H
  end.

(** C9.  The outcome of [tcp_parse_tcp_req], case by case.  The value
    returned is 0, -1 or 1.  -1, with the message named written to the buffer
    ([snprintf]: at most [errlen - 1] characters of it), comes from: an empty
    [args[1]]; a keyword other than "inspect-delay" and "content"; either
    keyword in the defaults section; a missing or malformed delay; an action
    other than "accept" and "reject"; a condition that does not compile.  1,
    with a message and the proxy untouched, comes from "inspect-delay" in a
    proxy without the frontend capability and from a delay given when one is
    already set, that is when the delay stored is not 0.  0, with the buffer
    untouched, comes from a valid delay given while the delay stored is 0,
    which is stored, and from a valid "content" rule, which is linked at the
    tail of the proxy's rules: with the condition compiled from what follows
    "if" or "unless", and with no condition when [args[3]] is neither.  What
    [snprintf] leaves in a buffer of [errlen] > 0 bytes is the first
    [errlen - 1] characters of the message. *)
Theorem tcp_parse_tcp_req_outcomes args section_type curpx defpx
    (px : proxy acl_cond acl_table) err errlen :
  let res := parse args section_type curpx defpx px err errlen in
  (res.1.1 = 0 \/ res.1.1 = -1 \/ res.1.1 = 1)
  /\ (arg args 1 = EmptyString ->
      res = (-1, px, snprintf err errlen (msg_missing proxy_type_str the_proxy args px)))
  /\ (arg args 1 <> EmptyString ->
      arg args 1 <> "inspect-delay"%string -> arg args 1 <> "content"%string ->
      res = (-1, px, snprintf err errlen (msg_unknown proxy_type_str the_proxy args px)))
  /\ (arg args 1 = "inspect-delay"%string \/ arg args 1 = "content"%string ->
      curpx = defpx ->
      res = (-1, px, snprintf err errlen (msg_defaults args)))
  /\ (arg args 1 = "inspect-delay"%string -> curpx <> defpx ->
      (Z.land (px_cap px) PR_CAP_FE = 0 ->
       res = (1, px, snprintf err errlen
                       (msg_no_frontend proxy_type_str the_proxy args px)))
      /\ (Z.land (px_cap px) PR_CAP_FE <> 0 ->
          (arg args 2 = EmptyString ->
           res = (-1, px, delay_error proxy_type_str the_proxy args px err errlen None))
          /\ (forall c, arg args 2 <> EmptyString ->
              parse_time_err (arg args 2) = inr c ->
              res = (-1, px, delay_error proxy_type_str the_proxy args px err errlen (Some c)))
          /\ (forall val, arg args 2 <> EmptyString ->
              parse_time_err (arg args 2) = inl val ->
              (inspect_delay px <> 0 ->
               res = (1, px, snprintf err errlen
                               (msg_duplicate proxy_type_str the_proxy args px)))
              /\ (inspect_delay px = 0 ->
                  res = (0, set_inspect_delay val px, err)))))
  /\ (arg args 1 = "content"%string -> curpx <> defpx ->
      (arg args 2 <> "accept"%string -> arg args 2 <> "reject"%string ->
       res = (-1, px, snprintf err errlen (msg_action proxy_type_str args px)))
      /\ (forall act pol,
          (arg args 2 = "accept"%string /\ act = TCP_ACT_ACCEPT)
          \/ (arg args 2 = "reject"%string /\ act = TCP_ACT_REJECT) ->
          (arg args 3 = "if"%string /\ pol = ACL_COND_IF)
          \/ (arg args 3 = "unless"%string /\ pol = ACL_COND_UNLESS) ->
          (forall known,
              parse_acl_cond (skipn 4 args) (px_acl px) pol = (None, known) ->
              res = (-1, set_acl known px,
                     snprintf err errlen
                       (msg_condition proxy_type_str args (set_acl known px))))
          /\ (forall c known,
              parse_acl_cond (skipn 4 args) (px_acl px) pol = (Some c, known) ->
              res = (0, add_inspect_rule {| cond := Some c; action := act |}
                          (set_acl known px), err)))
      /\ (forall act,
          (arg args 2 = "accept"%string /\ act = TCP_ACT_ACCEPT)
          \/ (arg args 2 = "reject"%string /\ act = TCP_ACT_REJECT) ->
          arg args 3 <> "if"%string -> arg args 3 <> "unless"%string ->
          res = (0, add_inspect_rule {| cond := None; action := act |} px,
                 err)))
  /\ (forall text, (0 < errlen)%nat ->
      snprintf err errlen text = substring 0 (Nat.pred errlen) text).
Proof.
  cbv zeta. unfold tcp_parse_tcp_req.
  split; [|split; [|split; [|split; [|split; [|split]]]]];
    [| | | | | |intros text He; exact (snprintf_written err errlen text He)].
  - repeat match goal with
           | |- context [if ?b then _ else _] => destruct b
           | |- context [match ?x with inl _ => _ | inr _ => _ end] => destruct x
           | |- context [match ?x with (_, _) => _ end] => destruct x
           | |- context [match ?x with Some _ => _ | None => _ end] => destruct x
           end; simpl; auto.
  - intros H. eqb_facts. rewrite H. reflexivity.
  - intros H1 H2 H3. eqb_facts. rewrite H1, H2, H3. reflexivity.
  - intros [H|H] Hd; rewrite H; eqb_facts; cbn; rewrite Hd; reflexivity.
  - intros H Hd. rewrite H. eqb_facts. cbn. rewrite Hd. split.
    + intros Hc. unfold nonzero. rewrite Hc. reflexivity.
    + intros Hc. apply Z.eqb_neq in Hc. unfold nonzero. rewrite Hc. cbn.
      split; [|split].
      * intros H2. eqb_facts. rewrite H2. reflexivity.
      * intros c H2 Hp. eqb_facts. rewrite H2, Hp. reflexivity.
      * intros val H2 Hp. eqb_facts. rewrite H2, Hp. split.
        -- intros Hi. apply Z.eqb_neq in Hi. rewrite Hi. reflexivity.
        -- intros ->. reflexivity.
  - intros H Hd. rewrite H. eqb_facts. cbn. rewrite Hd. split; [|split].
    + intros H2 H3. eqb_facts. rewrite H2, H3. reflexivity.
    + intros act pol Hact Hpol.
      assert (Ea : (if String.eqb (arg args 2) "accept" then TCP_ACT_ACCEPT
                    else if String.eqb (arg args 2) "reject" then TCP_ACT_REJECT
                    else act) = act).
      { destruct Hact as [[-> ->]|[-> ->]]; reflexivity. }
      assert (Ep : (if String.eqb (arg args 3) "if" then ACL_COND_IF
                    else if String.eqb (arg args 3) "unless" then ACL_COND_UNLESS
                    else ACL_COND_NONE) = pol).
      { destruct Hpol as [[-> ->]|[-> ->]]; reflexivity. }
      assert (Hn : bool_decide (pol = ACL_COND_NONE) = false).
      { destruct Hpol as [[_ ->]|[_ ->]]; reflexivity. }
      split.
      * intros known Hp.
        destruct Hact as [[-> ->]|[-> ->]]; cbn; rewrite Ep, Hn, Hp; reflexivity.
      * intros c known Hp.
        destruct Hact as [[-> ->]|[-> ->]]; cbn; rewrite Ep, Hn, Hp; reflexivity.
    + intros act Hact Hif Hun. eqb_facts. rewrite Hif, Hun. cbn.
      destruct Hact as [[-> ->]|[-> ->]]; reflexivity.
Qed.

(** C10.  A "content" rule whose action is "accept" or "reject" and whose
    next token is neither "if" nor "unless", outside the defaults section:
    the parser returns 0, links at the tail of the proxy's rules a rule with
    that action and no condition, and writes no message, whatever the tokens
    from [args[3]] on are. *)
Theorem tcp_parse_tcp_req_unguarded args section_type curpx defpx
    (px : proxy acl_cond acl_table) err errlen act :
  arg args 1 = "content"%string ->
  curpx <> defpx ->
  (arg args 2 = "accept"%string /\ act = TCP_ACT_ACCEPT)
  \/ (arg args 2 = "reject"%string /\ act = TCP_ACT_REJECT) ->
  arg args 3 <> "if"%string ->
  arg args 3 <> "unless"%string ->
  parse args section_type curpx defpx px err errlen
  = (0, add_inspect_rule {| cond := None; action := act |} px, err).
Proof.
  intros H1 Hd Hact Hif Hun. unfold tcp_parse_tcp_req.
  rewrite H1. eqb_facts. cbn. rewrite Hd, Hif, Hun. cbn.
  destruct Hact as [[-> ->]|[-> ->]]; reflexivity.
Qed.

End ParserFacts.

Lemma tcp_parse_tcp_req_unguarded_witness :
  tcp_parse_tcp_req 1 Sample.proxy_type_str Sample.parse_time_err
    Sample.parse_acl_cond Sample.frontend
    ["tcp-request"; "content"; "accept"; "whenever"; "it"; "rains"]%string
    0 1 0 Sample.frontend EmptyString 128
  = (0, add_inspect_rule {| cond := None; action := TCP_ACT_ACCEPT |}
          Sample.frontend, EmptyString).
Proof.
  apply tcp_parse_tcp_req_unguarded.
  - reflexivity.
  - lia.
  - left. split; reflexivity.
  - discriminate.
  - discriminate.
Defined.

(** A second "inspect-delay" that is not turned down.  The first line gives
    a delay of 0; it is accepted and 0 is stored.  The second line, a
    duplicate, is accepted too: it returns 0, not the warning value, writes
    no message, and its delay replaces the one stored. *)
Lemma duplicate_delay_after_zero_accepted :
  tcp_parse_tcp_req 1 Sample.proxy_type_str Sample.parse_millis
    Sample.parse_acl_cond Sample.frontend
    ["tcp-request"; "inspect-delay"; "0"]%string 0 1 0 Sample.frontend
    EmptyString 128
  = (0, set_inspect_delay 0 Sample.frontend, EmptyString)
  /\ tcp_parse_tcp_req 1 Sample.proxy_type_str Sample.parse_millis
       Sample.parse_acl_cond Sample.frontend
       ["tcp-request"; "inspect-delay"; "5000"]%string 0 1 0
       (set_inspect_delay 0 Sample.frontend) EmptyString 128
     = (0, set_inspect_delay 5000 Sample.frontend, EmptyString).
Proof. split; reflexivity. Qed.

(** Three runs of the parser: an unknown keyword, a malformed delay in a
    buffer too short for the whole message, a second delay. *)
Example parse_unknown :
  tcp_parse_tcp_req 1 Sample.proxy_type_str Sample.parse_time_err
    Sample.parse_acl_cond Sample.frontend
    ["tcp-request"; "bogus"]%string 0 1 0 Sample.frontend EmptyString 128
  = (-1, Sample.frontend,
     "unknown argument 'bogus' after 'tcp-request' in frontend 'www'"%string).
Proof. reflexivity. Qed.

Example parse_bad_delay :
  tcp_parse_tcp_req 1 Sample.proxy_type_str Sample.parse_time_err
    Sample.parse_acl_cond Sample.frontend
    ["tcp-request"; "inspect-delay"; "5s"]%string 0 1 0 Sample.frontend
    EmptyString 100
  = (-1, Sample.frontend,
     ("'tcp-request inspect-delay' expects a positive delay in milliseconds, "
      ++ "in frontend 'www' (unexpected")%string).
Proof. reflexivity. Qed.

Example parse_second_delay :
  tcp_parse_tcp_req 1 Sample.proxy_type_str Sample.parse_time_err
    Sample.parse_acl_cond Sample.frontend
    ["tcp-request"; "inspect-delay"; "5000"]%string 0 1 0
    (set_inspect_delay 3000 Sample.frontend) EmptyString 128
  = (1, set_inspect_delay 3000 Sample.frontend,
     "ignoring tcp-request inspect-delay (was already defined) in frontend 'www'"%string).
Proof. reflexivity. Qed.

(** * More properties *)

(** ** tcp_bind_listener: what it reports and what it requests *)

Lemma wlp_tcp_return_buf errmsg errlen msg err w
    (Q : Z * option string -> world -> Prop) :
  (forall buf,
      buf = returned_buffer errmsg errlen msg ->
      (msg <> None -> (0 < errlen)%nat -> errmsg <> None) ->
      Q (err, buf) w) ->
  wlp (tcp_return errmsg errlen msg err) w Q.
Proof.
  intros H a w'. unfold tcp_return, ret, fault.
  destruct msg as [m|]; [destruct (0 <? errlen)%nat eqn:E; [destruct errmsg|]|].
  all: try discriminate.
  all: intros [= <- <-]; apply H; unfold returned_buffer; rewrite ?E;
       try reflexivity.
  all: try (intros _ Hlt; apply Nat.ltb_lt in Hlt; congruence).
  all: try (intros Hn; congruence).
  all: intros; discriminate.
Qed.

Ltac xstep :=
  lazymatch goal with
  | |- wlp (bind _ _) _ _ => apply wlp_bind
  | |- wlp (sys _ _) _ _ => apply wlp_sys; intros ?v
  | |- wlp get _ _ => apply wlp_get
  | |- wlp (modify _) _ _ => apply wlp_modify
  | |- wlp (ret _) _ _ => apply wlp_ret
  | |- wlp fault _ _ => apply wlp_fault
  | |- wlp (load_listener _) _ _ => apply wlp_load; intros ?l ?Hl
  | |- wlp (tcp_return _ _ _ _) _ _ =>
      apply wlp_tcp_return_buf; intros ?buf ?Hbuf ?Hnull
  | |- wlp (if ?b then _ else _) _ _ => destruct b eqn:?
  | |- wlp (match ?o with Some _ => _ | None => _ end) _ _ => destruct o eqn:?
  end; cbv beta;
  unfold set_trace, set_listeners, set_fdtab;
  cbn [trace listeners fdtab proto_tcpv4 proto_tcpv6 ip_transp_working maxsock];
  rewrite <- ?app_assoc; cbn [app].

Lemma bind_listener_report cfg os p errmsg errlen w l :
  listeners w !! p = Some l ->
  l_state l = LI_ASSIGNED ->
  wlp (tcp_bind_listener cfg os p errmsg errlen) w
      (fun rb w' => bind_report cfg w l errmsg errlen (fst rb) (snd rb) w').
Proof.
  intros Hl Hst.
  unfold tcp_bind_listener. destruct w as [tr ls ft p4 p6 flag ms].
  apply wlp_bind. apply wlp_load. intros l' Hl'.
  assert (l' = l) as -> by congruence.
  rewrite bool_decide_eq_true_2 by exact Hst.
  unfold tcp_close_return, deref, fd_insert, store_listener. cbn [negb].
  repeat xstep.
  all: unfold bind_report, appended;
       cbn [fst snd trace listeners fdtab proto_tcpv4 proto_tcpv6
            ip_transp_working maxsock].
  all: revert Hbuf Hnull.
  all: repeat match goal with
       | |- context [?x =? -1] =>
           lazymatch goal with
           | H : (x =? -1) = _ |- _ => fail
           | _ => destruct (x =? -1) eqn:?
           end
       end.
  all: intros Hbuf Hnull.
  all: eexists _, _, _; split; [reflexivity|].
  all: split; [exact Hbuf|].
  all: split;
    [ intros Hm Hlt;
      first [ congruence
            | specialize (Hnull Hm Hlt); unfold clear_errmsg in Hnull;
              destruct errmsg; congruence ] |].
  all: split;
    [ first [ reflexivity
            | split; [unfold bind_messages; in_list | reflexivity] ] |].
  all: split;
    [ unfold options_ok, requested, refused; use_hyps; cbn; use_hyps;
      reflexivity |].
  all: split;
    [ cbn [binds];
      first [ left; reflexivity
            | right; eexists; split; [eassumption|reflexivity] ] |].
  all: split; cbn [listens inserted];
    first [ left; reflexivity | right; reflexivity ].
Qed.

(** The calls of a run, in order. *)
Lemma bind_listener_calls cfg os p errmsg errlen w l :
  listeners w !! p = Some l ->
  l_state l = LI_ASSIGNED ->
  wlp (tcp_bind_listener cfg os p errmsg errlen) w
      (fun rb w' =>
         exists fd evs,
           appended w w' (Called (sys_socket (ss_family (l_addr l))) fd :: evs)
           /\ options_in_order cfg l fd evs).
Proof.
  intros Hl Hst.
  unfold tcp_bind_listener. destruct w as [tr ls ft p4 p6 flag ms].
  apply wlp_bind. apply wlp_load. intros l' Hl'.
  assert (l' = l) as -> by congruence.
  rewrite bool_decide_eq_true_2 by exact Hst.
  unfold tcp_close_return, deref, fd_insert, store_listener. cbn [negb].
  repeat xstep.
  all: unfold appended;
       cbn [fst snd trace listeners fdtab proto_tcpv4 proto_tcpv6
            ip_transp_working maxsock].
  all: clear Hbuf Hnull.
  all: repeat match goal with
       | |- context [?x =? -1] =>
           lazymatch goal with
           | H : (x =? -1) = _ |- _ => fail
           | _ => destruct (x =? -1) eqn:?
           end
       end.
  all: eexists _, _; split; [reflexivity|].
  all: unfold options_in_order, option_calls, requested, refused;
       use_hyps; cbn; use_hyps; cbn.
  all: split; intros ?; first [discriminate | repeat split; reflexivity].
Qed.

(** A run on a listener that is not ASSIGNED. *)
Lemma bind_listener_skip cfg os p errmsg errlen w l :
  listeners w !! p = Some l ->
  l_state l <> LI_ASSIGNED ->
  tcp_bind_listener cfg os p errmsg errlen w
  = Some ((ERR_NONE, clear_errmsg errmsg errlen), w).
Proof.
  intros Hl Hst. unfold tcp_bind_listener, bind, load_listener. rewrite Hl.
  rewrite bool_decide_eq_false_2 by exact Hst. reflexivity.
Qed.

(** Every returned run, sorted by the state it found the listener in. *)
Lemma bind_listener_any cfg os p errmsg errlen w r buf w' :
  tcp_bind_listener cfg os p errmsg errlen w = Some ((r, buf), w') ->
  exists l, listeners w !! p = Some l
    /\ ((l_state l <> LI_ASSIGNED /\ r = ERR_NONE
         /\ buf = clear_errmsg errmsg errlen /\ w' = w)
        \/ (l_state l = LI_ASSIGNED
            /\ bind_report cfg w l errmsg errlen r buf w'
            /\ bound_post w p l r w')).
Proof.
  intros Hrun.
  destruct (listeners w !! p) as [l|] eqn:Hl.
  2:{ unfold tcp_bind_listener, bind, load_listener in Hrun.
      rewrite Hl in Hrun. discriminate. }
  exists l. split; [reflexivity|].
  destruct (decide (l_state l = LI_ASSIGNED)) as [E|E].
  - right. split; [exact E|]. split.
    + exact (bind_listener_report cfg os p errmsg errlen w l Hl E _ _ Hrun).
    + exact (bind_listener_post cfg os p errmsg errlen w l Hl E _ _ Hrun).
  - left. rewrite (bind_listener_skip _ _ _ _ _ _ _ Hl E) in Hrun.
    injection Hrun as <- <- <-. auto.
Qed.

Lemma substring_length_le n :
  forall s, (String.length (substring 0 n s) <= n)%nat.
Proof.
  induction n as [|n IH]; intros s.
  - destruct s; simpl; lia.
  - destruct s as [|c s]; simpl; [lia|]. specialize (IH s). lia.
Qed.

Lemma substring_nonempty n c s :
  substring 0 (S n) (String c s) <> EmptyString.
Proof. simpl. discriminate. Qed.

Lemma bind_messages_nonempty m :
  m ∈ bind_messages -> exists c s, m = String c s.
Proof.
  unfold bind_messages. intros H.
  repeat (apply elem_of_cons in H as [->|H]; [eexists _, _; reflexivity|]).
  apply elem_of_nil in H. contradiction.
Qed.

Lemma listener_code_bits r :
  listener_code r ->
  Z.land r ERR_WARN = 0
  /\ (r = ERR_NONE <-> Z.land r ERR_ALERT = 0)
  /\ (Z.land r ERR_ABORT <> 0 -> Z.land r ERR_FATAL <> 0)
  /\ (Z.land r ERR_RETRYABLE <> 0 -> Z.land r ERR_FATAL = 0).
Proof.
  intros [->|[->|[->|[->| ->]]]]; vm_compute; repeat split; intros;
    first [congruence | discriminate | contradiction].
Qed.

(** X1.  The code and the message of [tcp_bind_listener] go together, as its
    comment says.  Every code other than NONE carries ALERT, and WARN is never
    set.  With [errlen] = 0 the buffer is left alone.  With a buffer of
    [errlen] > 0 bytes the buffer comes back holding a C string shorter than
    [errlen]: the empty string when the code is NONE, else one of the seven
    messages of the function cut to [errlen - 1] characters (so not empty
    when [errlen] >= 2).  With a NULL buffer and [errlen] > 0 the function
    returns only when it has no message, that is with NONE. *)
Theorem tcp_bind_listener_message cfg os p errmsg errlen w r buf w' :
  tcp_bind_listener cfg os p errmsg errlen w = Some ((r, buf), w') ->
  (r = ERR_NONE <-> Z.land r ERR_ALERT = 0)
  /\ Z.land r ERR_WARN = 0
  /\ (errlen = 0%nat -> buf = errmsg)
  /\ (errmsg = None -> buf = None /\ ((0 < errlen)%nat -> r = ERR_NONE))
  /\ (forall s, errmsg = Some s -> (0 < errlen)%nat ->
      exists b, buf = Some b
        /\ (String.length b < errlen)%nat
        /\ (r = ERR_NONE -> b = EmptyString)
        /\ (r <> ERR_NONE ->
            exists m, m ∈ bind_messages
                      /\ b = substring 0 (Nat.pred errlen) m)
        /\ ((2 <= errlen)%nat -> b = EmptyString -> r = ERR_NONE)).
Proof.
  intros Hrun.
  pose proof (bind_listener_codes cfg os p errmsg errlen w _ _ Hrun) as Hc.
  cbn [fst] in Hc.
  destruct (listener_code_bits r Hc) as (Hw & Ha & _ & _).
  split; [exact Ha|]. split; [exact Hw|].
  destruct (bind_listener_any _ _ _ _ _ _ _ _ _ Hrun)
    as (l & Hl & [(Hst & -> & -> & ->)
                 |(Hst & (fd & evs & msg & _ & -> & Hnull & Hmsg & _) & _)]).
  - (* not ASSIGNED *)
    unfold clear_errmsg. split; [|split].
    + intros ->. destruct errmsg; reflexivity.
    + intros ->. auto.
    + intros s -> Hlen. apply Nat.ltb_lt in Hlen as Hlt. rewrite Hlt.
      exists EmptyString. simpl. repeat split; auto. contradiction.
  - destruct msg as [m|].
    + destruct Hmsg as (Hin & Hal).
      assert (Hr : r <> ERR_NONE).
      { intros ->. discriminate Hal. }
      unfold returned_buffer, clear_errmsg. split; [|split].
      * intros ->. destruct errmsg; reflexivity.
      * intros ->. split.
        -- destruct (0 <? errlen)%nat eqn:E; [|reflexivity].
           apply Nat.ltb_lt in E. exfalso.
           apply (Hnull ltac:(discriminate) E). reflexivity.
        -- intros Hlen. exfalso.
           apply (Hnull ltac:(discriminate) Hlen). reflexivity.
      * intros s -> Hlen. apply Nat.ltb_lt in Hlen as Hlt. rewrite Hlt.
        exists (strlcpy2 m errlen). unfold strlcpy2.
        split; [reflexivity|]. split.
        { pose proof (substring_length_le (Nat.pred errlen) m). lia. }
        split; [intros; contradiction|]. split.
        { intros _. exists m. auto. }
        intros H2 He. exfalso.
        destruct (bind_messages_nonempty m Hin) as (c & s' & ->).
        destruct errlen as [|[|n]]; try lia.
        exact (substring_nonempty n c s' He).
    + subst r. unfold returned_buffer, clear_errmsg. split; [|split].
      * intros ->. destruct errmsg; reflexivity.
      * intros ->. auto.
      * intros s -> Hlen. apply Nat.ltb_lt in Hlen as Hlt. rewrite Hlt.
        exists EmptyString. simpl. repeat split; auto. contradiction.
Qed.

Lemma tcp_bind_listener_message_witness :
  (Z.lor (Z.lor ERR_FATAL ERR_ABORT) ERR_ALERT = ERR_NONE
   <-> Z.land (Z.lor (Z.lor ERR_FATAL ERR_ABORT) ERR_ALERT) ERR_ALERT = 0).
Proof.
  apply (tcp_bind_listener_message Sample.cfg_plain Sample.os_first_too_big
           0 (Some EmptyString) 64 Sample.w_two
           (Z.lor (Z.lor ERR_FATAL ERR_ABORT) ERR_ALERT)
           (Some "not enough free sockets (raise '-n' parameter)"%string)
           (set_trace [Called (sys_socket 2) 2000; Called (sys_close 2000) 0]
              Sample.w_two)).
  reflexivity.
Defined.

Lemma nonzero_true z : nonzero z = true <-> z <> 0.
Proof.
  unfold nonzero. rewrite negb_true_iff. apply Z.eqb_neq.
Qed.

Lemma implb_elim (a b : bool) : implb a b = true -> a = true -> b = true.
Proof. destruct a, b; simpl; congruence. Qed.

Lemma eqb_true_iff' (a b : bool) : eqb a b = true -> (a = true <-> b = true).
Proof. destruct a, b; simpl; intuition congruence. Qed.

(** X2.  The optional socket options of [tcp_bind_listener] follow the
    listener and the build.  In a returned run on an ASSIGNED listener,
    SO_LINGER is requested only for a listener with LI_O_NOLINGER,
    SO_REUSEPORT only where the build has it, IP_TRANSPARENT only in a
    CONFIG_HAP_LINUX_TPROXY build for a listener with LI_O_FOREIGN, and
    IP_FREEBIND only after IP_TRANSPARENT was refused; and a run that gets as
    far as [bind] has requested SO_REUSEADDR and exactly those of the others
    that apply.  All of them come before the [bind], in the order of the
    source: the calls made before the [bind] are the non-blocking setup,
    TCP_NODELAY, SO_REUSEADDR and then, each where it applies, SO_LINGER,
    SO_REUSEPORT, IP_TRANSPARENT and IP_FREEBIND, and nothing else; no option
    is requested after the [bind]; and a run that does not bind has requested
    none of these options. *)
Theorem tcp_bind_listener_options cfg os p errmsg errlen w l r buf w' :
  listeners w !! p = Some l ->
  l_state l = LI_ASSIGNED ->
  tcp_bind_listener cfg os p errmsg errlen w = Some ((r, buf), w') ->
  exists fd evs,
    appended w w' (Called (sys_socket (ss_family (l_addr l))) fd :: evs)
    /\ (requested is_linger evs = true ->
        Z.land (l_options l) LI_O_NOLINGER <> 0)
    /\ (requested is_reuseport evs = true -> HAVE_SO_REUSEPORT cfg = true)
    /\ (requested is_transparent evs = true ->
        CONFIG_HAP_LINUX_TPROXY cfg = true
        /\ Z.land (l_options l) LI_O_FOREIGN <> 0)
    /\ (requested is_freebind evs = true ->
        requested is_transparent evs = true
        /\ refused is_transparent evs = true)
    /\ (requested is_bind evs = true ->
        requested is_reuseaddr evs = true
        /\ (requested is_linger evs = true
            <-> Z.land (l_options l) LI_O_NOLINGER <> 0)
        /\ (requested is_reuseport evs = true
            <-> HAVE_SO_REUSEPORT cfg = true)
        /\ (requested is_transparent evs = true
            <-> CONFIG_HAP_LINUX_TPROXY cfg = true
                /\ Z.land (l_options l) LI_O_FOREIGN <> 0))
    /\ options_in_order cfg l fd evs.
Proof.
  intros Hl Hst Hrun.
  destruct (bind_listener_report cfg os p errmsg errlen w l Hl Hst _ _ Hrun)
    as (fd & evs & msg & Happ & _ & _ & _ & Hopt & _).
  destruct (bind_listener_calls cfg os p errmsg errlen w l Hl Hst _ _ Hrun)
    as (fd' & evs' & Happ' & Hord).
  assert (fd' = fd /\ evs' = evs) as [-> ->].
  { unfold appended in Happ, Happ'. rewrite Happ in Happ'.
    apply app_inv_head in Happ'. injection Happ' as -> ->. auto. }
  exists fd, evs. split; [exact Happ|].
  unfold options_ok in Hopt.
  apply andb_true_iff in Hopt as [Hopt _].
  apply andb_true_iff in Hopt as [Hopt _].
  apply andb_true_iff in Hopt as [Hopt O5].
  apply andb_true_iff in Hopt as [Hopt O4].
  apply andb_true_iff in Hopt as [Hopt O3].
  apply andb_true_iff in Hopt as [O1 O2].
  split; [|split; [|split; [|split; [|split]]]]; [| | | | |exact Hord].
  - intros H. apply nonzero_true. exact (implb_elim _ _ O1 H).
  - intros H. exact (implb_elim _ _ O2 H).
  - intros H. pose proof (implb_elim _ _ O3 H) as H3.
    apply andb_true_iff in H3 as [Ha Hb]. split; [exact Ha|].
    apply nonzero_true. exact Hb.
  - intros H. pose proof (implb_elim _ _ O4 H) as H4.
    apply andb_true_iff in H4. exact H4.
  - intros H. pose proof (implb_elim _ _ O5 H) as H5.
    apply andb_true_iff in H5 as [H5 Hra].
    apply andb_true_iff in H5 as [H5 _].
    apply andb_true_iff in H5 as [H5 _].
    apply andb_true_iff in H5 as [H5 _].
    apply andb_true_iff in H5 as [H5 _].
    apply andb_true_iff in H5 as [H5 Htr].
    apply andb_true_iff in H5 as [Hli Hrp].
    split; [exact Hra|]. split; [|split].
    + rewrite (eqb_true_iff' _ _ Hli). apply nonzero_true.
    + exact (eqb_true_iff' _ _ Hrp).
    + rewrite (eqb_true_iff' _ _ Htr). rewrite andb_true_iff.
      rewrite nonzero_true. reflexivity.
Qed.

Lemma tcp_bind_listener_options_witness :
  exists fd evs,
    appended Sample.w_nolinger More.w_nolinger_bound
      (Called (sys_socket 2) fd :: evs)
    /\ (requested is_linger evs = true ->
        Z.land (l_options More.l_nolinger) LI_O_NOLINGER <> 0).
Proof.
  destruct (tcp_bind_listener_options Sample.cfg_plain Sample.os_no_linger
              0 None 0 Sample.w_nolinger More.l_nolinger ERR_NONE None
              More.w_nolinger_bound)
    as (fd & evs & H1 & H2 & _).
  - reflexivity.
  - reflexivity.
  - reflexivity.
  - exists fd, evs. split; assumption.
Defined.

(** X3.  The order of a returned run of [tcp_bind_listener] on an ASSIGNED
    listener.  [bind] is called only after [fcntl] and TCP_NODELAY both went
    through, at most once, on the new descriptor, with the listener's address
    and the address length of the listener's protocol.  [listen] is called
    only after [bind] went through, at most once, with the listener's backlog
    or, when that is 0, its [maxconn].  [fd_insert] is called only after
    [listen] went through, at most once, on the new descriptor. *)
Theorem tcp_bind_listener_order cfg os p errmsg errlen w l r buf w' :
  listeners w !! p = Some l ->
  l_state l = LI_ASSIGNED ->
  tcp_bind_listener cfg os p errmsg errlen w = Some ((r, buf), w') ->
  exists fd evs,
    appended w w' (Called (sys_socket (ss_family (l_addr l))) fd :: evs)
    /\ (requested is_bind evs = true ->
        requested is_fcntl evs = true /\ refused is_fcntl evs = false
        /\ requested is_nodelay evs = true /\ refused is_nodelay evs = false)
    /\ (requested is_listen evs = true ->
        requested is_bind evs = true /\ refused is_bind evs = false)
    /\ (inserted evs = []
        \/ (inserted evs = [fd] /\ requested is_listen evs = true
            /\ refused is_listen evs = false))
    /\ (binds evs = []
        \/ exists pr, l_proto l = Some pr
             /\ binds evs = [(fd, Sa_storage (l_addr l), sock_addrlen pr)])
    /\ (listens evs = []
        \/ listens evs = [(fd, if nonzero (l_backlog l)
                               then l_backlog l else l_maxconn l)]).
Proof.
  intros Hl Hst Hrun.
  destruct (bind_listener_report cfg os p errmsg errlen w l Hl Hst _ _ Hrun)
    as (fd & evs & msg & Happ & _ & _ & _ & Hopt & Hb & Hli & Hins).
  exists fd, evs. split; [exact Happ|].
  unfold options_ok in Hopt.
  apply andb_true_iff in Hopt as [Hopt O7].
  apply andb_true_iff in Hopt as [Hopt O6].
  apply andb_true_iff in Hopt as [_ O5].
  split; [|split; [|split; [|split]]].
  - intros H. pose proof (implb_elim _ _ O5 H) as H5.
    apply andb_true_iff in H5 as [H5 _].
    apply andb_true_iff in H5 as [H5 Hn2].
    apply andb_true_iff in H5 as [H5 Hn1].
    apply andb_true_iff in H5 as [H5 Hf2].
    apply andb_true_iff in H5 as [_ Hf1].
    apply negb_true_iff in Hn2, Hf2. auto.
  - intros H. pose proof (implb_elim _ _ O6 H) as H6.
    apply andb_true_iff in H6 as [Ha Hb'].
    apply negb_true_iff in Hb'. auto.
  - destruct Hins as [E|E]; [left; exact E|right].
    rewrite E in O7. simpl in O7.
    apply andb_true_iff in O7 as [Ha Hb'].
    apply negb_true_iff in Hb'. auto.
  - exact Hb.
  - exact Hli.
Qed.

Lemma tcp_bind_listener_order_witness :
  exists fd evs,
    appended Sample.w_nolinger More.w_nolinger_bound
      (Called (sys_socket 2) fd :: evs)
    /\ (listens evs = []
        \/ listens evs = [(fd, if nonzero (l_backlog More.l_nolinger)
                               then l_backlog More.l_nolinger
                               else l_maxconn More.l_nolinger)]).
Proof.
  destruct (tcp_bind_listener_order Sample.cfg_plain Sample.os_no_linger
              0 None 0 Sample.w_nolinger More.l_nolinger ERR_NONE None
              More.w_nolinger_bound)
    as (fd & evs & H1 & _ & _ & _ & _ & H2).
  - reflexivity.
  - reflexivity.
  - reflexivity.
  - exists fd, evs. split; assumption.
Defined.

(** ** tcp_bind_listener: what it leaves alone, and calling it again *)

Lemma set_listening_fields fd l :
  l_options (set_listening fd l) = l_options l
  /\ l_addr (set_listening fd l) = l_addr l
  /\ l_proto (set_listening fd l) = l_proto l
  /\ l_backlog (set_listening fd l) = l_backlog l
  /\ l_maxconn (set_listening fd l) = l_maxconn l
  /\ l_accept (set_listening fd l) = l_accept l.
Proof. repeat split. Qed.

(** What any returned run leaves alone. *)
Lemma bind_listener_frame cfg os p errmsg errlen w r buf w' :
  tcp_bind_listener cfg os p errmsg errlen w = Some ((r, buf), w') ->
  proto_tcpv4 w' = proto_tcpv4 w /\ proto_tcpv6 w' = proto_tcpv6 w
  /\ ip_transp_working w' = ip_transp_working w /\ maxsock w' = maxsock w
  /\ (forall q, q <> p -> listeners w' !! q = listeners w !! q)
  /\ exists l, listeners w !! p = Some l
       /\ (listeners w' !! p = Some l
           \/ (l_state l = LI_ASSIGNED /\ is_failure r = false
               /\ exists fd, listeners w' !! p = Some (set_listening fd l)
                    /\ fdtab w' = <[fd := listening_entry p l]> (fdtab w)))
       /\ (is_failure r = true -> listeners w' = listeners w
                                  /\ fdtab w' = fdtab w).
Proof.
  intros Hrun.
  destruct (bind_listener_any _ _ _ _ _ _ _ _ _ Hrun)
    as (l & Hl & [(Hst & -> & -> & ->)
                 |(Hst & _ & (fd & evs & _ & _ & H4 & H6 & Hf & Hm & Hcase))]).
  - repeat split; try reflexivity. exists l. split; [exact Hl|].
    split; [left; exact Hl|]. intros H. discriminate H.
  - split; [exact H4|]. split; [exact H6|]. split; [exact Hf|].
    split; [exact Hm|].
    destruct Hcase as [(_ & _ & Hfl & Hls & Hft)
                      |[(_ & Hfl & _ & _ & Hls & Hft)
                       |(_ & Hfl & _ & Hls & Hft & _)]].
    + split; [intros q _; rewrite Hls; reflexivity|].
      exists l. rewrite Hls. auto.
    + split; [intros q _; rewrite Hls; reflexivity|].
      exists l. rewrite Hls. auto.
    + split; [intros q Hq; rewrite Hls; apply lookup_insert_ne; congruence|].
      exists l. split; [exact Hl|]. split.
      * right. split; [exact Hst|]. split; [exact Hfl|]. exists fd.
        rewrite Hls. split; [apply lookup_insert_eq|exact Hft].
      * intros H. congruence.
Qed.

(** X4.  What [tcp_bind_listener] leaves alone.  A returned run changes
    neither protocol entry, nor the static flag of [tcpv4_bind_socket], nor
    [global.maxsock], nor any listener but its own.  Its own listener is
    either left as it was or, when the run reports no failure on an ASSIGNED
    listener, given the descriptor and the LISTEN state with every other field
    kept, and then [fdtab] changes at that descriptor only.  A run that
    reports a failure changes no listener and no [fdtab] entry. *)
Theorem tcp_bind_listener_leaves_alone cfg os p errmsg errlen w r buf w' :
  tcp_bind_listener cfg os p errmsg errlen w = Some ((r, buf), w') ->
  proto_tcpv4 w' = proto_tcpv4 w /\ proto_tcpv6 w' = proto_tcpv6 w
  /\ ip_transp_working w' = ip_transp_working w /\ maxsock w' = maxsock w
  /\ (forall q, q <> p -> listeners w' !! q = listeners w !! q)
  /\ (exists l, listeners w !! p = Some l
       /\ (listeners w' !! p = Some l
           \/ (l_state l = LI_ASSIGNED /\ is_failure r = false
               /\ exists fd, listeners w' !! p = Some (set_listening fd l)
                    /\ fdtab w' = <[fd := listening_entry p l]> (fdtab w)))
       /\ (is_failure r = true -> listeners w' = listeners w
                                  /\ fdtab w' = fdtab w))
  /\ (forall fd l,
       l_options (set_listening fd l) = l_options l
       /\ l_addr (set_listening fd l) = l_addr l
       /\ l_proto (set_listening fd l) = l_proto l
       /\ l_backlog (set_listening fd l) = l_backlog l
       /\ l_maxconn (set_listening fd l) = l_maxconn l
       /\ l_accept (set_listening fd l) = l_accept l).
Proof.
  intros Hrun.
  destruct (bind_listener_frame _ _ _ _ _ _ _ _ _ Hrun)
    as (H1 & H2 & H3 & H4 & H5 & H6).
  repeat (split; [assumption|]). apply set_listening_fields.
Qed.

Lemma tcp_bind_listener_leaves_alone_witness :
  proto_tcpv4 More.w_nolinger_bound = proto_tcpv4 Sample.w_nolinger.
Proof.
  apply (tcp_bind_listener_leaves_alone Sample.cfg_plain Sample.os_no_linger
           0 None 0 Sample.w_nolinger ERR_NONE None More.w_nolinger_bound).
  reflexivity.
Defined.

(** After a returned run, what a second call finds. *)
Lemma bind_listener_after cfg os p errmsg errlen w r buf w' :
  tcp_bind_listener cfg os p errmsg errlen w = Some ((r, buf), w') ->
  exists l, listeners w !! p = Some l
    /\ (is_failure r = false ->
        exists l', listeners w' !! p = Some l' /\ l_state l' <> LI_ASSIGNED)
    /\ (is_failure r = true ->
        l_state l = LI_ASSIGNED /\ listeners w' !! p = Some l).
Proof.
  intros Hrun.
  destruct (bind_listener_any _ _ _ _ _ _ _ _ _ Hrun)
    as (l & Hl & [(Hst & -> & -> & ->)
                 |(Hst & _ & (fd & evs & _ & _ & _ & _ & _ & _ & Hcase))]).
  - exists l. split; [exact Hl|]. split.
    + intros _. exists l. auto.
    + intros H. discriminate H.
  - exists l. split; [exact Hl|].
    destruct Hcase as [(_ & _ & Hfl & Hls & _)
                      |[(_ & Hfl & _ & _ & Hls & _)
                       |(_ & Hfl & _ & Hls & _)]].
    + split; [congruence|]. intros _. rewrite Hls. auto.
    + split; [congruence|]. intros _. rewrite Hls. auto.
    + split; [|congruence]. intros _. exists (set_listening fd l).
      rewrite Hls. split; [apply lookup_insert_eq|discriminate].
Qed.

(** X5.  Calling [tcp_bind_listener] again.  After a returned run that
    reports no failure, any further call on the same listener, under any
    kernel, returns NONE and leaves the world as it is: a listener is bound
    at most once.  After a run that reports a failure the listener is as it
    was, still ASSIGNED, so that the call can be retried. *)
Theorem tcp_bind_listener_again cfg os p errmsg errlen w r buf w' :
  tcp_bind_listener cfg os p errmsg errlen w = Some ((r, buf), w') ->
  (is_failure r = false ->
   forall cfg2 os2 errmsg2 errlen2,
     tcp_bind_listener cfg2 os2 p errmsg2 errlen2 w'
     = Some ((ERR_NONE, clear_errmsg errmsg2 errlen2), w'))
  /\ (is_failure r = true ->
      exists l, listeners w !! p = Some l /\ listeners w' !! p = Some l
                /\ l_state l = LI_ASSIGNED).
Proof.
  intros Hrun.
  destruct (bind_listener_after _ _ _ _ _ _ _ _ _ Hrun) as (l & Hl & Hok & Hko).
  split.
  - intros Hf cfg2 os2 errmsg2 errlen2.
    destruct (Hok Hf) as (l' & Hl' & Hst).
    exact (bind_listener_skip _ _ _ _ _ _ _ Hl' Hst).
  - intros Hf. destruct (Hko Hf) as (Hst & Hl'). exists l. auto.
Qed.

Lemma tcp_bind_listener_again_witness :
  tcp_bind_listener Sample.cfg_linux Sample.os_ok 0 (Some "x"%string) 8
    More.w_nolinger_bound
  = Some ((ERR_NONE, Some EmptyString), More.w_nolinger_bound).
Proof.
  apply (tcp_bind_listener_again Sample.cfg_plain Sample.os_no_linger
           0 None 0 Sample.w_nolinger ERR_NONE None More.w_nolinger_bound).
  - reflexivity.
  - reflexivity.
Defined.

(** ** tcp_bind_listeners: order, codes, frame *)

Lemma bind_each_prefix cfg os mask todo : forall err w,
  exists k,
    (k <= length todo)%nat
    /\ bind_each cfg os mask todo err w
       = bind_every cfg os (take k todo) err w
    /\ (k = length todo
        \/ bind_each cfg os mask todo err w = None
        \/ exists r w', bind_each cfg os mask todo err w = Some (r, w')
                        /\ Z.land r mask = ERR_ABORT).
Proof.
  induction todo as [|p todo IH]; intros err w.
  - exists 0%nat. simpl. auto.
  - destruct (tcp_bind_listener cfg os p None 0 w) as [[rb w1]|] eqn:Hrun.
    + assert (Hstep : bind_each cfg os mask (p :: todo) err w
                      = if Z.land (Z.lor err rb.1) mask =? ERR_ABORT
                        then Some (Z.lor err rb.1, w1)
                        else bind_each cfg os mask todo (Z.lor err rb.1) w1).
      { simpl. rewrite (bind_eq _ _ _ _ _ Hrun).
        destruct (_ =? _); reflexivity. }
      rewrite Hstep.
      destruct (Z.land (Z.lor err rb.1) mask =? ERR_ABORT) eqn:Hb.
      * exists 1%nat. simpl. split; [lia|]. split.
        -- rewrite (bind_eq _ _ _ _ _ Hrun). reflexivity.
        -- right. right. eexists _, _. split; [reflexivity|].
           apply Z.eqb_eq. exact Hb.
      * destruct (IH (Z.lor err rb.1) w1) as (k & Hk & Heq & Hend).
        exists (S k). simpl. split; [lia|]. split.
        -- rewrite (bind_eq _ _ _ _ _ Hrun). exact Heq.
        -- destruct Hend as [->|Hend]; [left; reflexivity|right; exact Hend].
    + assert (Hstep : bind_each cfg os mask (p :: todo) err w = None).
      { simpl. unfold bind. rewrite Hrun. reflexivity. }
      rewrite Hstep.
      exists 1%nat. simpl. split; [lia|]. split.
      * unfold bind. rewrite Hrun. reflexivity.
      * right. left. reflexivity.
Qed.

Lemma batch_code_none : batch_code ERR_NONE.
Proof. repeat split; intros; try reflexivity; contradiction. Qed.

Lemma batch_code_lor err c :
  batch_code err -> listener_code c -> batch_code (Z.lor err c).
Proof.
  intros (Hw & Ha & Hab) Hc.
  destruct (listener_code_bits c Hc) as (Cw & Ca & Cab & _).
  unfold batch_code. rewrite !Z.land_lor_distr_l.
  split; [|split].
  - rewrite Hw, Cw. reflexivity.
  - unfold ERR_NONE in *. rewrite !Z.lor_eq_0_iff. tauto.
  - intros H.
    assert (Z.land err ERR_ABORT <> 0 \/ Z.land c ERR_ABORT <> 0) as [H1|H1].
    { destruct (Z.eq_dec (Z.land err ERR_ABORT) 0) as [E|E]; [|left; exact E].
      right. intros E'. apply H. rewrite E, E'. reflexivity. }
    + intros E. apply Z.lor_eq_0_iff in E as [E _]. exact (Hab H1 E).
    + intros E. apply Z.lor_eq_0_iff in E as [_ E]. exact (Cab H1 E).
Qed.

Lemma is_failure_lor a b :
  is_failure (Z.lor a b) = false ->
  is_failure a = false /\ is_failure b = false.
Proof.
  unfold is_failure, nonzero. rewrite !negb_false_iff, !Z.eqb_eq.
  rewrite Z.land_lor_distr_l. apply Z.lor_eq_0_iff.
Qed.

Lemma only_bound_refl w : only_bound w w.
Proof. intros q l H. left. exact H. Qed.

Lemma only_bound_trans w1 w2 w3 :
  only_bound w1 w2 -> only_bound w2 w3 -> only_bound w1 w3.
Proof.
  intros H12 H23 q l Hl.
  destruct (H12 q l Hl) as [H|(Hst & fd & H)].
  - exact (H23 q l H).
  - right. split; [exact Hst|]. exists fd.
    destruct (H23 q _ H) as [H'|(Hst' & _)]; [exact H'|discriminate Hst'].
Qed.

Lemma bind_listener_only_bound cfg os p errmsg errlen w r buf w' :
  tcp_bind_listener cfg os p errmsg errlen w = Some ((r, buf), w') ->
  only_bound w w' /\ same_registries w w'.
Proof.
  intros Hrun.
  destruct (bind_listener_frame _ _ _ _ _ _ _ _ _ Hrun)
    as (H1 & H2 & H3 & H4 & H5 & l & Hl & Hp & _).
  split; [|repeat split; assumption].
  intros q lq Hq. destruct (decide (q = p)) as [->|Hne].
  - assert (lq = l) as -> by congruence.
    destruct Hp as [Hp|(Hst & _ & fd & Hp & _)]; [left; exact Hp|].
    right. split; [exact Hst|]. exists fd. exact Hp.
  - left. rewrite (H5 q Hne). exact Hq.
Qed.

(** What the loop without [break] does to the world and to the code. *)
Lemma bind_every_facts cfg os todo : forall err w r w',
  bind_every cfg os todo err w = Some (r, w') ->
  only_bound w w' /\ same_registries w w'
  /\ (forall q, q ∉ todo -> listeners w' !! q = listeners w !! q)
  /\ (batch_code err -> batch_code r)
  /\ (is_failure r = false ->
      is_failure err = false
      /\ forall q, q ∈ todo ->
           exists l, listeners w' !! q = Some l /\ l_state l <> LI_ASSIGNED).
Proof.
  induction todo as [|p todo IH]; intros err w r w' Hrun.
  - injection Hrun as <- <-.
    split; [apply only_bound_refl|]. split; [repeat split|].
    split; [reflexivity|]. split; [auto|].
    intros Hf. split; [exact Hf|]. intros q Hq.
    apply elem_of_nil in Hq. contradiction.
  - simpl in Hrun. apply bind_Some in Hrun as ([c buf] & w1 & Hp & Hrest).
    cbn [fst] in Hrest.
    destruct (IH _ _ _ _ Hrest) as (Hob & Hsr & Hout & Hcode & Hclean).
    destruct (bind_listener_only_bound _ _ _ _ _ _ _ _ _ Hp) as (Hob1 & Hsr1).
    destruct (bind_listener_frame _ _ _ _ _ _ _ _ _ Hp)
      as (_ & _ & _ & _ & Hother & _).
    pose proof (bind_listener_codes cfg os p None 0%nat w _ _ Hp) as Hc.
    cbn [fst] in Hc.
    split; [exact (only_bound_trans _ _ _ Hob1 Hob)|].
    split.
    { destruct Hsr as (A1 & A2 & A3 & A4), Hsr1 as (B1 & B2 & B3 & B4).
      repeat split; congruence. }
    split.
    { intros q Hq. apply not_elem_of_cons in Hq as [Hqp Hq].
      rewrite (Hout q Hq). apply Hother. exact Hqp. }
    split.
    { intros He. apply Hcode. apply batch_code_lor; assumption. }
    intros Hf. destruct (Hclean Hf) as (Hf1 & Hall).
    apply is_failure_lor in Hf1 as [Hfe Hfc].
    split; [exact Hfe|].
    intros q Hq. apply elem_of_cons in Hq as [->|Hq]; [|exact (Hall q Hq)].
    destruct (bind_listener_after _ _ _ _ _ _ _ _ _ Hp) as (l & Hl & Hok & _).
    destruct (Hok Hfc) as (l1 & Hl1 & Hst1).
    destruct (Hob p l1 Hl1) as [H|(Hst & _)]; [|contradiction].
    exists l1. auto.
Qed.

(** X6.  For every mask [ERR_CODE], [tcp_bind_listeners] attempts the
    listeners of the entry in list order, from the head, skipping none: the
    batch is the loop without [break] over the first [k] listeners, the
    accumulated code starting from NONE.  It stops short of the whole list
    ([k] below its length) only on a fault or when the accumulated code,
    masked, equals ABORT. *)
Theorem tcp_bind_listeners_in_order cfg os mask proto w :
  exists k,
    (k <= length (p_listeners (get_proto proto w)))%nat
    /\ tcp_bind_listeners cfg os mask proto w
       = bind_every cfg os (take k (p_listeners (get_proto proto w)))
           ERR_NONE w
    /\ (k = length (p_listeners (get_proto proto w))
        \/ tcp_bind_listeners cfg os mask proto w = None
        \/ exists r w', tcp_bind_listeners cfg os mask proto w = Some (r, w')
                        /\ Z.land r mask = ERR_ABORT).
Proof.
  unfold tcp_bind_listeners.
  change (bind get ?k w) with (k w w). cbv beta.
  apply bind_each_prefix.
Qed.

Lemma tcp_bind_listeners_unfold cfg os mask proto w :
  tcp_bind_listeners cfg os mask proto w
  = bind_each cfg os mask (p_listeners (get_proto proto w)) ERR_NONE w.
Proof. reflexivity. Qed.

Lemma break_is_failure r mask :
  batch_code r -> Z.land r mask = ERR_ABORT -> is_failure r = true.
Proof.
  intros (_ & _ & Hab) Hm.
  assert (H4 : Z.land r ERR_ABORT <> 0).
  { intros E.
    assert (Z.land (Z.land r mask) ERR_ABORT = 0) as H.
    { rewrite <- Z.land_assoc, (Z.land_comm mask), Z.land_assoc, E.
      apply Z.land_0_l. }
    rewrite Hm in H. discriminate H. }
  specialize (Hab H4).
  unfold is_failure. apply nonzero_true. intros E. apply Hab.
  change ERR_FATAL with (Z.land (Z.lor ERR_RETRYABLE ERR_FATAL) ERR_FATAL).
  rewrite Z.land_assoc, E. apply Z.land_0_l.
Qed.

(** Everything the batch returns, it returns as the loop without [break] over
    some prefix of the list; over the whole list when no failure is
    reported. *)
Lemma batch_as_every cfg os mask proto w r w' :
  tcp_bind_listeners cfg os mask proto w = Some (r, w') ->
  exists k,
    bind_every cfg os (take k (p_listeners (get_proto proto w))) ERR_NONE w
    = Some (r, w')
    /\ (is_failure r = false ->
        take k (p_listeners (get_proto proto w))
        = p_listeners (get_proto proto w)).
Proof.
  intros Hrun. rewrite tcp_bind_listeners_unfold in Hrun.
  destruct (bind_each_prefix cfg os mask (p_listeners (get_proto proto w))
              ERR_NONE w) as (k & Hk & Heq & Hend).
  exists k. rewrite <- Heq. split; [exact Hrun|].
  intros Hf. destruct Hend as [->|[E|(r1 & w1 & E & Hm)]].
  - apply firstn_all.
  - congruence.
  - rewrite Hrun in E. injection E as <- <-.
    rewrite Heq in Hrun.
    destruct (bind_every_facts _ _ _ _ _ _ _ Hrun) as (_ & _ & _ & Hcode & _).
    rewrite (break_is_failure r mask (Hcode batch_code_none) Hm) in Hf.
    discriminate Hf.
Qed.

(** X7.  The code of a batch.  Whatever the mask, the code
    [tcp_bind_listeners] returns never has WARN, has ALERT unless it is
    NONE, and never has ABORT without FATAL; and a batch that stopped on the
    [break] test reports a failure. *)
Theorem tcp_bind_listeners_code cfg os mask proto w r w' :
  tcp_bind_listeners cfg os mask proto w = Some (r, w') ->
  Z.land r ERR_WARN = 0
  /\ (r = ERR_NONE <-> Z.land r ERR_ALERT = 0)
  /\ (Z.land r ERR_ABORT <> 0 -> Z.land r ERR_FATAL <> 0)
  /\ (Z.land r mask = ERR_ABORT -> is_failure r = true).
Proof.
  intros Hrun. destruct (batch_as_every _ _ _ _ _ _ _ Hrun) as (k & Hev & _).
  destruct (bind_every_facts _ _ _ _ _ _ _ Hev) as (_ & _ & _ & Hcode & _).
  pose proof (Hcode batch_code_none) as Hc.
  destruct Hc as (H1 & H2 & H3).
  repeat (split; [assumption|]).
  exact (break_is_failure r mask (conj H1 (conj H2 H3))).
Qed.

Lemma tcp_bind_listeners_code_witness :
  Z.land ERR_NONE ERR_WARN = 0.
Proof.
  destruct (tcp_bind_listeners_code Sample.cfg_plain Sample.os_no_linger 7
              TCPv4 Sample.w_nolinger ERR_NONE More.w_nolinger_bound)
    as (H & _).
  - reflexivity.
  - exact H.
Defined.

(** X8.  What a batch leaves alone.  [tcp_bind_listeners] changes neither
    protocol entry (no listener is linked or unlinked, the counts stay), nor
    the static flag, nor [global.maxsock]; it changes no listener outside the
    list of its entry; and a listener it does change was ASSIGNED and is now
    listening, every other field kept. *)
Theorem tcp_bind_listeners_leaves_alone cfg os mask proto w r w' :
  tcp_bind_listeners cfg os mask proto w = Some (r, w') ->
  proto_tcpv4 w' = proto_tcpv4 w /\ proto_tcpv6 w' = proto_tcpv6 w
  /\ ip_transp_working w' = ip_transp_working w /\ maxsock w' = maxsock w
  /\ (forall q, q ∉ p_listeners (get_proto proto w) ->
      listeners w' !! q = listeners w !! q)
  /\ (forall q l, listeners w !! q = Some l ->
      listeners w' !! q = Some l
      \/ (l_state l = LI_ASSIGNED
          /\ exists fd, listeners w' !! q = Some (set_listening fd l))).
Proof.
  intros Hrun. destruct (batch_as_every _ _ _ _ _ _ _ Hrun) as (k & Hev & _).
  destruct (bind_every_facts _ _ _ _ _ _ _ Hev)
    as (Hob & (H1 & H2 & H3 & H4) & Hout & _).
  repeat (split; [assumption|]). split; [|exact Hob].
  intros q Hq. apply Hout. intros Hin. apply Hq.
  apply list_elem_of_lookup in Hin as [i Hi].
  apply lookup_take_Some in Hi as [Hi _].
  apply list_elem_of_lookup. exists i. exact Hi.
Qed.

Lemma tcp_bind_listeners_leaves_alone_witness :
  proto_tcpv4 More.w_nolinger_bound = proto_tcpv4 Sample.w_nolinger.
Proof.
  destruct (tcp_bind_listeners_leaves_alone Sample.cfg_plain
              Sample.os_no_linger 7 TCPv4 Sample.w_nolinger ERR_NONE
              More.w_nolinger_bound) as (H & _).
  - reflexivity.
  - exact H.
Defined.

(** A batch over listeners none of which is ASSIGNED does nothing. *)
Lemma bind_each_noop cfg os mask todo : forall err w,
  (forall p, p ∈ todo ->
     exists l, listeners w !! p = Some l /\ l_state l <> LI_ASSIGNED) ->
  bind_each cfg os mask todo err w = Some (err, w).
Proof.
  induction todo as [|p todo IH]; intros err w Hall; [reflexivity|].
  destruct (Hall p) as (l & Hl & Hst); [apply list_elem_of_here|].
  simpl. rewrite (bind_eq _ _ _ _ _ (bind_listener_skip cfg os p None 0 w l Hl Hst)).
  cbn [fst]. unfold ERR_NONE. rewrite Z.lor_0_r.
  destruct (_ =? _); [reflexivity|].
  apply IH. intros q Hq. apply Hall. apply list_elem_of_further. exact Hq.
Qed.

(** X9.  Running the batch again.  When no listener of the entry is ASSIGNED
    (an empty entry included), [tcp_bind_listeners] returns NONE and leaves
    the world as it is, whatever the kernel and the mask.  After a batch that
    reports no failure that is the case: every listener of the entry was
    attempted and none is ASSIGNED any more, so that a second batch does
    nothing. *)
Theorem tcp_bind_listeners_again cfg os mask proto w :
  ((forall p, p ∈ p_listeners (get_proto proto w) ->
      exists l, listeners w !! p = Some l /\ l_state l <> LI_ASSIGNED) ->
   tcp_bind_listeners cfg os mask proto w = Some (ERR_NONE, w))
  /\ forall r w',
      tcp_bind_listeners cfg os mask proto w = Some (r, w') ->
      is_failure r = false ->
      (forall p, p ∈ p_listeners (get_proto proto w) ->
         exists l, listeners w' !! p = Some l /\ l_state l <> LI_ASSIGNED)
      /\ forall cfg2 os2 mask2,
           tcp_bind_listeners cfg2 os2 mask2 proto w' = Some (ERR_NONE, w').
Proof.
  split.
  - intros Hall. rewrite tcp_bind_listeners_unfold. apply bind_each_noop.
    exact Hall.
  - intros r w' Hrun Hf.
    destruct (batch_as_every _ _ _ _ _ _ _ Hrun) as (k & Hev & Hall).
    rewrite (Hall Hf) in Hev.
    destruct (bind_every_facts _ _ _ _ _ _ _ Hev)
      as (_ & Hsr & _ & _ & Hclean).
    destruct (Hclean Hf) as (_ & Hdone).
    split; [exact Hdone|].
    intros cfg2 os2 mask2. rewrite tcp_bind_listeners_unfold.
    assert (Hp : get_proto proto w' = get_proto proto w).
    { destruct Hsr as (A1 & A2 & _). destruct proto; assumption. }
    rewrite Hp. apply bind_each_noop. exact Hdone.
Qed.

(** A run of the above: the batch of [Sample.w_nolinger] binds its one
    listener, and a second batch, under another kernel and build, does
    nothing. *)
Example batch_twice :
  tcp_bind_listeners Sample.cfg_plain Sample.os_no_linger 7 TCPv4
    Sample.w_nolinger = Some (ERR_NONE, More.w_nolinger_bound)
  /\ tcp_bind_listeners Sample.cfg_linux Sample.os_first_too_big 7 TCPv4
       More.w_nolinger_bound = Some (ERR_NONE, More.w_nolinger_bound).
Proof. split; reflexivity. Qed.

(** ** Registration, then the batch *)

Lemma tcp_bind_listeners_in_order_aux cfg os mask proto w :
  exists k,
    tcp_bind_listeners cfg os mask proto w
    = bind_every cfg os (take k (p_listeners (get_proto proto w))) ERR_NONE w.
Proof.
  rewrite tcp_bind_listeners_unfold.
  destruct (bind_each_prefix cfg os mask (p_listeners (get_proto proto w))
              ERR_NONE w) as (k & _ & Heq & _).
  exists k. exact Heq.
Qed.

Lemma linked_ok_start ls m : linked_ok (start ls m).
Proof.
  intros f p Hp. destruct f; simpl in Hp; apply elem_of_nil in Hp;
    contradiction.
Qed.

Lemma add_listener_linked f p w w' :
  linked_ok w ->
  add_listener f p w = Some (tt, w') ->
  linked_ok w'.
Proof.
  intros Hok Hrun.
  destruct (listeners w !! p) as [l|] eqn:Hl.
  2:{ unfold add_listener, bind, load_listener in Hrun. rewrite Hl in Hrun.
      discriminate. }
  destruct (decide (l_state l = LI_INIT)) as [E|E].
  2:{ rewrite (add_listener_skip _ _ _ _ Hl E) in Hrun.
      injection Hrun as <-. exact Hok. }
  rewrite (add_listener_init _ _ _ _ Hl E) in Hrun. injection Hrun as <-.
  assert (Hfresh : forall g, p ∉ p_listeners (get_proto g w)).
  { intros g Hin. destruct (Hok g p Hin) as (l' & Hl' & _ & Hne). congruence. }
  intros g q Hq. rewrite listeners_added.
  destruct (decide (q = p)) as [->|Hqp].
  - exists (set_assigned f l). split; [apply lookup_insert_eq|].
    split; [|discriminate]. simpl.
    destruct f, g; simpl in Hq; try reflexivity.
    + exfalso. exact (Hfresh TCPv6 Hq).
    + exfalso. exact (Hfresh TCPv4 Hq).
  - rewrite lookup_insert_ne by congruence. apply Hok.
    destruct f, g; simpl in Hq; simpl; try exact Hq;
      apply elem_of_app in Hq as [Hq|Hq]; try exact Hq;
      apply list_elem_of_singleton in Hq; contradiction.
Qed.

Lemma add_listeners_linked calls : forall w w',
  linked_ok w ->
  add_listeners calls w = Some (tt, w') ->
  linked_ok w'.
Proof.
  induction calls as [|c calls IH]; intros w w' Hok Hrun.
  - injection Hrun as <-. exact Hok.
  - simpl in Hrun. apply bind_Some in Hrun as ([] & w1 & Hc & Hrun).
    apply (IH w1 w'); [|exact Hrun].
    destruct c; exact (add_listener_linked _ _ _ _ Hok Hc).
Qed.

(** The loop without [break] returns when every listener of the list is a
    listener with its protocol pointer. *)
Lemma bind_every_returns cfg os todo : forall err w,
  (forall p, p ∈ todo ->
     exists l, listeners w !! p = Some l /\ is_Some (l_proto l)) ->
  exists r w', bind_every cfg os todo err w = Some (r, w').
Proof.
  induction todo as [|p todo IH]; intros err w Hall.
  - eexists _, _. reflexivity.
  - destruct (Hall p) as (l & Hl & Hpr); [apply list_elem_of_here|].
    assert (Hstep : exists rb w1,
               tcp_bind_listener cfg os p None 0 w = Some (rb, w1)).
    { destruct (decide (l_state l = LI_ASSIGNED)) as [E|E].
      - destruct (bind_listener_returns cfg os p None 0%nat w l Hl E Hpr)
          as (rb & w1 & H & _); [right; reflexivity|].
        exists rb, w1. exact H.
      - eexists _, _. exact (bind_listener_skip _ _ _ _ _ _ _ Hl E). }
    destruct Hstep as ([c buf] & w1 & Hstep).
    destruct (bind_listener_only_bound _ _ _ _ _ _ _ _ _ Hstep) as (Hob & _).
    destruct (IH (Z.lor err c) w1) as (r & w' & Hrest).
    { intros q Hq.
      destruct (Hall q) as (lq & Hlq & Hprq); [apply list_elem_of_further; exact Hq|].
      destruct (Hob q lq Hlq) as [H|(_ & fd & H)].
      - exists lq. auto.
      - exists (set_listening fd lq). auto. }
    exists r, w'. simpl. rewrite (bind_eq _ _ _ _ _ Hstep). exact Hrest.
Qed.

(** X10.  Registration, then the batch.  After any sequence of calls of
    [tcpv4_add_listener] and [tcpv6_add_listener] from process start, every
    listener linked in a protocol entry points back to that entry
    ([listener->proto]) and is past INIT; and on such a world
    [tcp_bind_listeners] returns for either entry, whatever the kernel and the
    mask: it never follows a NULL protocol pointer. *)
Theorem tcp_bind_listeners_after_registration calls ls m w1 :
  add_listeners calls (start ls m) = Some (tt, w1) ->
  (forall f p, p ∈ p_listeners (get_proto f w1) ->
     exists l, listeners w1 !! p = Some l
               /\ l_proto l = Some f /\ l_state l <> LI_INIT)
  /\ forall cfg os mask f,
       exists r w2, tcp_bind_listeners cfg os mask f w1 = Some (r, w2).
Proof.
  intros Hadd.
  pose proof (add_listeners_linked _ _ _ (linked_ok_start ls m) Hadd) as Hok.
  split; [exact Hok|].
  intros cfg os mask f.
  destruct (tcp_bind_listeners_in_order_aux cfg os mask f w1) as (k & Heq).
  rewrite Heq. apply bind_every_returns.
  intros p Hp.
  assert (Hin : p ∈ p_listeners (get_proto f w1)).
  { apply list_elem_of_lookup in Hp as [i Hi].
    apply lookup_take_Some in Hi as [Hi _].
    apply list_elem_of_lookup. exists i. exact Hi. }
  destruct (Hok f p Hin) as (l & Hl & Hpr & _).
  exists l. split; [exact Hl|]. rewrite Hpr. eexists; reflexivity.
Qed.

Lemma tcp_bind_listeners_after_registration_witness :
  exists r w2,
    tcp_bind_listeners Sample.cfg_linux Sample.os_ok 7 TCPv6
      More.w_registered = Some (r, w2).
Proof.
  apply (tcp_bind_listeners_after_registration
           [Add4 0%nat; Add6 1%nat; Add6 0%nat] (listeners Sample.w_init) 1024
           More.w_registered).
  reflexivity.
Defined.

(** ** tcpv4_bind_socket: requests, addresses, NULL *)

Lemma bind_socket_shape cfg os fd flags local remote w r w' :
  tcpv4_bind_socket cfg os fd flags local remote w = Some (r, w') ->
  exists evs,
    appended w w' evs
    /\ listeners w' = listeners w /\ fdtab w' = fdtab w
    /\ proto_tcpv4 w' = proto_tcpv4 w /\ proto_tcpv6 w' = proto_tcpv6 w
    /\ maxsock w' = maxsock w
    /\ socket_requests_ok cfg flags (ip_transp_working w) evs = true
    /\ binds evs = [(fd, Sa_in (if direct_ok evs
                                then foreign_addr flags remote else local), 16)]
    /\ (tproxy_assigns evs = []
        \/ tproxy_assigns evs
           = [(fd, sin_addr (foreign_addr flags remote),
                   sin_port (foreign_addr flags remote))]).
Proof.
  unfold tcpv4_bind_socket, bind, get, ret, sys, modify, deref, fault.
  destruct remote as [rem|]; simpl; split_ifs.
  all: try discriminate.
  all: intros [= <- <-]; name_results.
  all: try solve [ exfalso;
                   match goal with
                   | H : _ && _ = true |- _ =>
                       rewrite ?andb_false_r in H; simpl in H;
                       discriminate H
                   end ].
  all: eexists; split;
    [unfold appended; simpl; rewrite <- ?app_assoc; simpl; reflexivity|].
  all: do 5 (split; [reflexivity|]).
  all: split;
    [ unfold socket_requests_ok, requested, went_through, direct_ok,
        bind_failed; use_hyps; cbn; use_hyps; cbn; use_hyps; reflexivity |].
  all: unfold direct_ok, went_through, foreign_addr; use_hyps; cbn; use_hyps.
  all: split; [reflexivity|].
  all: first [left; reflexivity | right; reflexivity].
Qed.

(** X11.  What a returned call of [tcpv4_bind_socket] requests, and what it
    leaves alone.  It requests SO_REUSEADDR exactly once and calls [bind]
    exactly once.  It requests IP_TRANSPARENT only in a
    CONFIG_HAP_LINUX_TPROXY build, with non-zero [flags] and the static flag
    still up, and IP_FREEBIND only after IP_TRANSPARENT returned non-zero.  It
    requests IP_TPROXY only in a CONFIG_HAP_CTTPROXY build, with non-zero
    [flags], when the direct strategy was not granted and the bind did not
    fail.  Listeners, [fdtab], protocol entries and [global.maxsock] are left
    as they were. *)
Theorem tcpv4_bind_socket_requests cfg os fd flags local remote w r w' :
  tcpv4_bind_socket cfg os fd flags local remote w = Some (r, w') ->
  exists evs,
    appended w w' evs
    /\ count is_reuseaddr evs = 1%nat
    /\ count is_bind evs = 1%nat
    /\ (requested is_transparent evs = true ->
        CONFIG_HAP_LINUX_TPROXY cfg = true /\ flags <> 0
        /\ ip_transp_working w <> 0)
    /\ (requested is_freebind evs = true ->
        requested is_transparent evs = true
        /\ went_through is_transparent evs = false)
    /\ (requested is_tproxy evs = true ->
        CONFIG_HAP_CTTPROXY cfg = true /\ flags <> 0
        /\ direct_ok evs = false /\ bind_failed evs = false)
    /\ listeners w' = listeners w /\ fdtab w' = fdtab w
    /\ proto_tcpv4 w' = proto_tcpv4 w /\ proto_tcpv6 w' = proto_tcpv6 w
    /\ maxsock w' = maxsock w.
Proof.
  intros Hrun.
  destruct (bind_socket_shape _ _ _ _ _ _ _ _ _ Hrun)
    as (evs & Happ & F1 & F2 & F3 & F4 & F5 & Hreq & _).
  exists evs. split; [exact Happ|].
  unfold socket_requests_ok in Hreq.
  apply andb_true_iff in Hreq as [Hreq O5].
  apply andb_true_iff in Hreq as [Hreq O4].
  apply andb_true_iff in Hreq as [Hreq O3].
  apply andb_true_iff in Hreq as [O1 O2].
  apply Nat.eqb_eq in O1, O2.
  split; [exact O1|]. split; [exact O2|].
  split; [|split; [|split]].
  - intros H. pose proof (implb_elim _ _ O3 H) as H3.
    apply andb_true_iff in H3 as [H3 Hc].
    apply andb_true_iff in H3 as [Ha Hb].
    apply nonzero_true in Hb, Hc. auto.
  - intros H. pose proof (implb_elim _ _ O4 H) as H4.
    apply andb_true_iff in H4 as [Ha Hb].
    apply negb_true_iff in Hb. auto.
  - intros H. pose proof (implb_elim _ _ O5 H) as H5.
    apply andb_true_iff in H5 as [H5 Hd].
    apply andb_true_iff in H5 as [H5 Hc].
    apply andb_true_iff in H5 as [Ha Hb].
    apply negb_true_iff in Hc, Hd. apply nonzero_true in Hb. auto.
  - auto.
Qed.

Lemma tcpv4_bind_socket_requests_witness :
  exists evs,
    appended (start ∅ 1024)
      (set_trace [Called (sys_setsockopt 3 IP_TRANSPARENT) 0;
                  Called (sys_setsockopt 3 SO_REUSEADDR) 0;
                  Called (sys_bind 3 (Sa_in (foreign_addr 3 (Some Sample.remote_addr))) 16) 0]
         (start ∅ 1024)) evs
    /\ count is_reuseaddr evs = 1%nat.
Proof.
  destruct (tcpv4_bind_socket_requests Sample.cfg_linux Sample.os_ok 3 3
              Sample.local_addr (Some Sample.remote_addr) (start ∅ 1024) 0
              (set_trace [Called (sys_setsockopt 3 IP_TRANSPARENT) 0;
                          Called (sys_setsockopt 3 SO_REUSEADDR) 0;
                          Called (sys_bind 3 (Sa_in (foreign_addr 3 (Some Sample.remote_addr))) 16) 0]
                 (start ∅ 1024)))
    as (evs & H1 & H2 & _).
  - reflexivity.
  - exists evs. split; assumption.
Defined.

(** X12.  The address [tcpv4_bind_socket] binds to.  The one [bind] of a
    returned call is on [fd] with length 16, to [local] unless the direct
    strategy was granted, and then to the foreign address: a zeroed
    [sockaddr_in] (family 0 included) that takes the host of [remote] when bit
    0 of [flags] is set and its port when bit 1 is set.  An IP_TPROXY
    assignment, when made, carries the host and port of that same foreign
    address. *)
Theorem tcpv4_bind_socket_address cfg os fd flags local remote w r w' :
  tcpv4_bind_socket cfg os fd flags local remote w = Some (r, w') ->
  exists evs,
    appended w w' evs
    /\ binds evs = [(fd, Sa_in (if direct_ok evs
                                then foreign_addr flags remote else local), 16)]
    /\ (tproxy_assigns evs = []
        \/ tproxy_assigns evs
           = [(fd, sin_addr (foreign_addr flags remote),
                   sin_port (foreign_addr flags remote))])
    /\ sin_family (foreign_addr flags remote) = 0
    /\ forall rem, remote = Some rem ->
         sin_addr (foreign_addr flags remote)
         = (if Z.land flags 1 =? 0 then 0 else sin_addr rem)
         /\ sin_port (foreign_addr flags remote)
            = (if Z.land flags 2 =? 0 then 0 else sin_port rem).
Proof.
  intros Hrun.
  destruct (bind_socket_shape _ _ _ _ _ _ _ _ _ Hrun)
    as (evs & Happ & _ & _ & _ & _ & _ & _ & Hb & Ht).
  exists evs. repeat (split; [assumption|]). split; [reflexivity|].
  intros rem ->. unfold foreign_addr, nonzero. simpl.
  split; destruct (_ =? 0); reflexivity.
Qed.

Lemma tcpv4_bind_socket_address_witness :
  exists evs,
    appended (start ∅ 1024)
      (set_trace [Called (sys_setsockopt 3 IP_TRANSPARENT) 0;
                  Called (sys_setsockopt 3 SO_REUSEADDR) 0;
                  Called (sys_bind 3 (Sa_in (foreign_addr 3 (Some Sample.remote_addr))) 16) 0]
         (start ∅ 1024)) evs
    /\ binds evs
       = [(3, Sa_in (if direct_ok evs
                     then foreign_addr 3 (Some Sample.remote_addr)
                     else Sample.local_addr), 16)].
Proof.
  destruct (tcpv4_bind_socket_address Sample.cfg_linux Sample.os_ok 3 3
              Sample.local_addr (Some Sample.remote_addr) (start ∅ 1024) 0
              (set_trace [Called (sys_setsockopt 3 IP_TRANSPARENT) 0;
                          Called (sys_setsockopt 3 SO_REUSEADDR) 0;
                          Called (sys_bind 3 (Sa_in (foreign_addr 3 (Some Sample.remote_addr))) 16) 0]
                 (start ∅ 1024)))
    as (evs & H1 & H2 & _).
  - reflexivity.
  - exists evs. split; assumption.
Defined.

(** X13.  A NULL [remote].  [tcpv4_bind_socket] called with a NULL [remote]
    faults exactly when bit 0 or bit 1 of [flags] is set (it then reads
    through the pointer); with both bits clear it returns, whatever else
    [flags] holds. *)
Theorem tcpv4_bind_socket_null_remote cfg os fd flags local w :
  tcpv4_bind_socket cfg os fd flags local None w = None
  <-> (Z.land flags 1 <> 0 \/ Z.land flags 2 <> 0).
Proof.
  unfold tcpv4_bind_socket, bind, get, ret, sys, modify, deref, fault.
  simpl. split_ifs.
  all: zbool.
  all: try (assert (flags = 0) as -> by assumption).
  all: split; [intros H; try discriminate H|intros [H|H]; try reflexivity].
  all: try solve [left; assumption | right; assumption].
  all: try solve [exfalso; apply H; first [assumption|reflexivity]].
Qed.

(** ** tcp_parse_tcp_req: the buffer, the proxy, a sequence of lines *)

Lemma string_length_append s1 s2 :
  String.length (String.append s1 s2)
  = (String.length s1 + String.length s2)%nat.
Proof. induction s1 as [|c s1 IH]; simpl; [reflexivity|]. rewrite IH. reflexivity. Qed.

Lemma snprintf_length buf size text :
  (0 < size)%nat -> (String.length (snprintf buf size text) < size)%nat.
Proof.
  intros H. rewrite snprintf_written by exact H.
  pose proof (substring_length_le (Nat.pred size) text). lia.
Qed.

Section ParserMore.

Context {acl_cond acl_table : Type}.
Variable PR_CAP_FE : Z.
Variable proxy_type_str : proxy acl_cond acl_table -> string.
Variable parse_time_err : string -> Z + ascii.
Variable parse_acl_cond :
  list string -> acl_table -> acl_pol -> option acl_cond * acl_table.
Variable the_proxy : proxy acl_cond acl_table.

Abbreviation parse1 :=
  (tcp_parse_tcp_req PR_CAP_FE proxy_type_str parse_time_err parse_acl_cond
     the_proxy).

Abbreviation parse_all :=
  (parse_lines PR_CAP_FE proxy_type_str parse_time_err parse_acl_cond
     the_proxy).

Lemma delay_error_length args (px : proxy acl_cond acl_table) err errlen ptr :
  (0 < errlen)%nat ->
  (String.length (delay_error proxy_type_str the_proxy args px err errlen ptr)
   < errlen)%nat.
Proof.
  intros H. unfold delay_error.
  destruct ptr as [c|]; [|apply snprintf_length; exact H].
  destruct (_ <? errlen)%nat eqn:E; [|apply snprintf_length; exact H].
  apply Nat.ltb_lt in E. unfold snprintf_at.
  destruct (0 <? errlen - _)%nat eqn:E2.
  - rewrite string_length_append.
    pose proof (substring_length_le
                  (String.length (msg_delay proxy_type_str the_proxy args px))
                  (snprintf err errlen
                     (msg_delay proxy_type_str the_proxy args px))).
    pose proof (substring_length_le
                  (Nat.pred (errlen - String.length
                               (msg_delay proxy_type_str the_proxy args px)))
                  (msg_unexpected c)).
    lia.
  - apply Nat.ltb_ge in E2. lia.
Qed.

Ltac split_parse :=
  repeat match goal with
         | |- context [if ?b then _ else _] => destruct b eqn:?
         | |- context [match ?x with inl _ => _ | inr _ => _ end] =>
             destruct x eqn:?
         | |- context [match ?x with (_, _) => _ end] => destruct x eqn:?
         | |- context [match ?x with Some _ => _ | None => _ end] =>
             destruct x eqn:?
         end.

(** X14.  The parser and the caller's buffer.  With [errlen] = 0 the buffer
    is never written.  A call that returns 0 leaves the buffer as it was.  A
    call that returns -1 or 1 with [errlen] > 0 leaves a C string shorter than
    [errlen], also where the message is written in two pieces (the malformed
    delay and the character that was not expected). *)
Theorem tcp_parse_tcp_req_buffer args section_type curpx defpx
    (px : proxy acl_cond acl_table) err errlen :
  let res := parse1 args section_type curpx defpx px err errlen in
  (errlen = 0%nat -> res.2 = err)
  /\ (res.1.1 = 0 -> res.2 = err)
  /\ ((0 < errlen)%nat -> res.1.1 <> 0 ->
      (String.length res.2 < errlen)%nat).
Proof.
  cbv zeta. unfold tcp_parse_tcp_req. split; [|split].
  - intros ->. unfold delay_error, snprintf. simpl.
    split_parse; reflexivity.
  - split_parse; cbn [fst snd]; intros H; try discriminate H; reflexivity.
  - intros Hlen. split_parse; cbn [fst snd]; intros H;
      try (exfalso; apply H; reflexivity).
    all: first [ apply snprintf_length; exact Hlen
               | apply delay_error_length; exact Hlen ].
Qed.

Lemma parse_proxy_facts args section_type curpx defpx
    (px : proxy acl_cond acl_table) err errlen :
  let res := parse1 args section_type curpx defpx px err errlen in
  px_id res.1.2 = px_id px /\ px_cap res.1.2 = px_cap px
  /\ (res.1.1 <> 0 ->
      inspect_delay res.1.2 = inspect_delay px
      /\ inspect_rules res.1.2 = inspect_rules px)
  /\ (inspect_delay res.1.2 <> inspect_delay px ->
      res.1.1 = 0 /\ arg args 1 = "inspect-delay"%string
      /\ inspect_delay px = 0)
  /\ (inspect_rules res.1.2 = inspect_rules px
      \/ (res.1.1 = 0 /\ arg args 1 = "content"%string
          /\ exists rule, inspect_rules res.1.2 = inspect_rules px ++ [rule]))
  /\ (px_acl res.1.2 <> px_acl px ->
      arg args 1 = "content"%string
      /\ (arg args 3 = "if"%string \/ arg args 3 = "unless"%string)).
Proof.
  cbv zeta. unfold tcp_parse_tcp_req.
  split_parse; cbn [fst snd px_id px_cap inspect_delay inspect_rules px_acl
                    set_inspect_delay set_acl add_inspect_rule].
  all: repeat match goal with
       | H : String.eqb _ _ = true |- _ => apply String.eqb_eq in H
       | H : nonzero _ = false |- _ =>
           unfold nonzero in H; apply negb_false_iff, Z.eqb_eq in H
       end.
  all: split; [reflexivity|]; split; [reflexivity|].
  all: split; [intros H; first [split; reflexivity
                               | exfalso; apply H; reflexivity]|].
  all: split; [intros H; first [exfalso; apply H; reflexivity
                               | split; [reflexivity|split; assumption]]|].
  all: split; [first [left; reflexivity
                     | right; split; [reflexivity|];
                       split; [assumption|]; eexists; reflexivity]|].
  all: intros H; first [exfalso; apply H; reflexivity | idtac].
  all: try solve [ exfalso;
                   match goal with
                   | H : bool_decide (?x = ?x) = false |- _ =>
                       rewrite bool_decide_eq_true_2 in H by reflexivity;
                       discriminate H
                   end ].
  all: split; [assumption|]; first [left; assumption | right; assumption].
Qed.

(** X15.  The parser and the proxy.  No call changes the name or the
    capabilities of the proxy.  A call that returns -1 or 1 changes neither
    the delay nor the rules.  A call changes the delay only when it returns 0
    for "inspect-delay" and no non-zero delay was set.  A call changes the
    rules only when it returns 0 for "content", and then by linking one rule
    at the tail, the rules already there kept in place.  The table of known
    ACLs changes only for "content" with "if" or "unless". *)
Theorem tcp_parse_tcp_req_proxy args section_type curpx defpx
    (px : proxy acl_cond acl_table) err errlen :
  let res := parse1 args section_type curpx defpx px err errlen in
  px_id res.1.2 = px_id px /\ px_cap res.1.2 = px_cap px
  /\ (res.1.1 <> 0 ->
      inspect_delay res.1.2 = inspect_delay px
      /\ inspect_rules res.1.2 = inspect_rules px)
  /\ (inspect_delay res.1.2 <> inspect_delay px ->
      res.1.1 = 0 /\ arg args 1 = "inspect-delay"%string
      /\ inspect_delay px = 0)
  /\ (inspect_rules res.1.2 = inspect_rules px
      \/ (res.1.1 = 0 /\ arg args 1 = "content"%string
          /\ exists rule, inspect_rules res.1.2 = inspect_rules px ++ [rule]))
  /\ (px_acl res.1.2 <> px_acl px ->
      arg args 1 = "content"%string
      /\ (arg args 3 = "if"%string \/ arg args 3 = "unless"%string)).
Proof.
  exact (parse_proxy_facts args section_type curpx defpx px err errlen).
Qed.

(** What one line does, for the induction over the lines. *)
Lemma parse_line_step args curpx defpx (px : proxy acl_cond acl_table)
    err errlen :
  let res := parse1 args 0 curpx defpx px err errlen in
  (res.1.1 = 0 \/ res.1.1 = -1 \/ res.1.1 = 1)
  /\ px_id res.1.2 = px_id px /\ px_cap res.1.2 = px_cap px
  /\ (inspect_delay px <> 0 -> inspect_delay res.1.2 = inspect_delay px)
  /\ exists added,
       inspect_rules res.1.2 = inspect_rules px ++ added
       /\ length added
          = (if String.eqb (arg args 1) "content" && (res.1.1 =? 0)
             then 1%nat else 0%nat).
Proof.
  cbv zeta.
  destruct (parse_proxy_facts args 0 curpx defpx px err errlen)
    as (Hid & Hcap & Hnz & Hdel & Hrules & _).
  split.
  { unfold tcp_parse_tcp_req. split_parse; cbn [fst]; auto. }
  split; [exact Hid|]. split; [exact Hcap|]. split.
  - intros Hd.
    destruct (Z.eq_dec
                (inspect_delay (parse1 args 0 curpx defpx px err errlen).1.2)
                (inspect_delay px)) as [E|E]; [exact E|].
    destruct (Hdel E) as (_ & _ & H0). contradiction.
  - destruct Hrules as [E|(Hr & Hc & rule & E)].
    + exists []. rewrite app_nil_r. split; [exact E|].
      destruct (String.eqb (arg args 1) "content") eqn:Ec; [|reflexivity].
      destruct (_ =? 0) eqn:Er; [|reflexivity].
      exfalso. apply Z.eqb_eq in Er. apply String.eqb_eq in Ec.
      (* a "content" line that returns 0 links a rule *)
      revert E Er. unfold tcp_parse_tcp_req. rewrite Ec. cbn.
      split_parse; cbn [fst snd inspect_rules add_inspect_rule set_acl];
        intros E Er; try discriminate Er.
      all: apply (f_equal (@length _)) in E; rewrite length_app in E;
           simpl in E; lia.
    + exists [rule]. split; [exact E|]. rewrite Hc, Hr. reflexivity.
Qed.

(** X16.  A section parsed line by line.  Over any sequence of "tcp-request"
    lines: every line gets its value, 0, -1 or 1; the name and capabilities
    of the proxy stay; a delay that is not 0 is never replaced; the rules
    already there stay in place, and what is linked after them is one rule
    for each "content" line that returned 0, no more and no less. *)
Theorem tcp_parse_tcp_req_lines curpx defpx lines :
  forall (px : proxy acl_cond acl_table) err errlen,
  let res := parse_all curpx defpx lines px err errlen in
  length res.1.1 = length lines
  /\ Forall (fun r => r = 0 \/ r = -1 \/ r = 1) res.1.1
  /\ px_id res.1.2 = px_id px /\ px_cap res.1.2 = px_cap px
  /\ (inspect_delay px <> 0 -> inspect_delay res.1.2 = inspect_delay px)
  /\ exists added,
       inspect_rules res.1.2 = inspect_rules px ++ added
       /\ length added
          = length (List.filter
                      (fun lr => String.eqb (arg (fst lr) 1) "content"
                                 && (snd lr =? 0))
                      (combine lines res.1.1)).
Proof.
  induction lines as [|args lines IH]; intros px err errlen; cbv zeta.
  - simpl. repeat split; auto. exists []. rewrite app_nil_r. auto.
  - simpl parse_lines. cbn [fst snd].
    destruct (parse_line_step args curpx defpx px err errlen)
      as (Hr & Hid & Hcap & Hdel & add1 & Hrules & Hlen).
    set (res := parse1 args 0 curpx defpx px err errlen) in *.
    destruct (IH res.1.2 res.2 errlen)
      as (Il & Ir & Iid & Icap & Idel & add2 & Irules & Ilen).
    split; [simpl; rewrite Il; reflexivity|].
    split; [constructor; assumption|].
    split; [congruence|]. split; [congruence|]. split.
    + intros Hd. rewrite Idel; [exact (Hdel Hd)|]. rewrite (Hdel Hd). exact Hd.
    + exists (add1 ++ add2). split.
      * rewrite Irules, Hrules, app_assoc. reflexivity.
      * rewrite length_app, Hlen, Ilen. simpl.
        destruct (_ && _); reflexivity.
Qed.

(** X17.  Two "inspect-delay" lines in a row, both well formed, in a proxy
    with the frontend capability and no delay yet.  When the first delay is
    not 0 it is stored and the second line is turned down with the warning
    value 1.  When the first delay is 0 the first line returns 0 and leaves
    the proxy as it was, so that the second line returns 0 too and its delay
    is the one stored: a delay of 0 counts as none. *)
Theorem tcp_parse_inspect_delay_twice args1 args2 curpx defpx
    (px : proxy acl_cond acl_table) err errlen v1 v2 :
  arg args1 1 = "inspect-delay"%string ->
  arg args2 1 = "inspect-delay"%string ->
  curpx <> defpx ->
  Z.land (px_cap px) PR_CAP_FE <> 0 ->
  arg args1 2 <> EmptyString -> arg args2 2 <> EmptyString ->
  parse_time_err (arg args1 2) = inl v1 ->
  parse_time_err (arg args2 2) = inl v2 ->
  inspect_delay px = 0 ->
  let res := parse_all curpx defpx [args1; args2] px err errlen in
  (v1 <> 0 -> res.1.1 = [0; 1] /\ inspect_delay res.1.2 = v1)
  /\ (v1 = 0 -> res.1.1 = [0; 0] /\ inspect_delay res.1.2 = v2
               /\ parse1 args1 0 curpx defpx px err errlen = (0, px, err)).
Proof.
  intros H1 H2 Hd Hcap He1 He2 Hp1 Hp2 H0. cbv zeta.
  apply Nat.eqb_neq in Hd. apply Z.eqb_neq in Hcap.
  apply (not_iff_compat (is_empty_true _)), not_true_is_false in He1, He2.
  assert (S1 : parse1 args1 0 curpx defpx px err errlen
               = (0, set_inspect_delay v1 px, err)).
  { unfold tcp_parse_tcp_req. rewrite H1. cbn. rewrite Hd.
    unfold nonzero. rewrite Hcap. cbn. rewrite He1, Hp1, H0. reflexivity. }
  assert (S2 : forall px1 : proxy acl_cond acl_table,
             px_cap px1 = px_cap px ->
             parse1 args2 0 curpx defpx px1 err errlen
             = if nonzero (inspect_delay px1)
               then (1, px1, snprintf err errlen
                               (msg_duplicate proxy_type_str the_proxy args2 px1))
               else (0, set_inspect_delay v2 px1, err)).
  { intros px1 Hc. unfold tcp_parse_tcp_req. rewrite H2. cbn. rewrite Hd.
    rewrite Hc. unfold nonzero at 1. rewrite Hcap. cbn.
    rewrite He2, Hp2. reflexivity. }
  simpl parse_lines. rewrite S1. cbn [fst snd].
  rewrite (S2 (set_inspect_delay v1 px)) by reflexivity.
  cbn [inspect_delay set_inspect_delay]. split.
  - intros Hv. apply nonzero_true in Hv. rewrite Hv. auto.
  - intros ->. cbn. split; [reflexivity|]. split; [reflexivity|].
    f_equal. f_equal. destruct px; simpl in *; subst; reflexivity.
Qed.

End ParserMore.

Lemma tcp_parse_inspect_delay_twice_witness :
  (parse_lines 1 Sample.proxy_type_str Sample.parse_time_err
     Sample.parse_acl_cond Sample.frontend 1 0
     [["tcp-request"; "inspect-delay"; "5000"];
      ["tcp-request"; "inspect-delay"; "5000"]]%string
     Sample.frontend EmptyString 128).1.1 = [0; 1]
  /\ inspect_delay
       (parse_lines 1 Sample.proxy_type_str Sample.parse_time_err
          Sample.parse_acl_cond Sample.frontend 1 0
          [["tcp-request"; "inspect-delay"; "5000"];
           ["tcp-request"; "inspect-delay"; "5000"]]%string
          Sample.frontend EmptyString 128).1.2 = 5000.
Proof.
  destruct (tcp_parse_inspect_delay_twice 1 Sample.proxy_type_str
              Sample.parse_time_err Sample.parse_acl_cond Sample.frontend
              ["tcp-request"; "inspect-delay"; "5000"]%string
              ["tcp-request"; "inspect-delay"; "5000"]%string
              1 0 Sample.frontend EmptyString 128 5000 5000)
    as (H & _).
  - reflexivity.
  - reflexivity.
  - lia.
  - discriminate.
  - discriminate.
  - discriminate.
  - reflexivity.
  - reflexivity.
  - reflexivity.
  - apply H. discriminate.
Defined.
